(** * Offline reconnection engine and offline-state aggregator

    A shallow embedding of [serverConnectionErrors.ts] (happy-cli):
    [startOfflineReconnection] with its [attemptReconnect] retry loop and
    [cancel]/[getSession]/[isReconnected] handle, the [isNetworkError]
    predicate, and the [OfflineState] class behind [connectionState].

    The engine is asynchronous JavaScript running on a single-threaded event
    loop.  Its closure variables become a record, the runtime's timer table
    and the suspended activations of [attemptReconnect] become two more
    fields, and every turn of the event loop (a timer firing, a promise
    settling, the caller invoking [cancel]) is one [Event] handled by
    [step].  Calls made to the injected callbacks are recorded, in order, in
    an effect log.

    What is assumed of the environment: a promise settles at most once;
    delays and times are whole milliseconds.  [onNotify] is called inside
    the [try] block, so what it throws there is caught like any other error
    ([NotifierThrows]).  An exception of [onNotify] inside the [catch] block
    or of [onCleanup] inside [cancel()] leaves the closure variables as the
    call found them and propagates to the caller; it takes no turn of its
    own.  [logger.debug] calls are left out. *)

From Stdlib Require Import ZArith List String Ascii Bool Lia PeanoNat.
From Stdlib Require Import DecimalString.
Import ListNotations.

Local Open Scope string_scope.
Local Open Scope Z_scope.

(** ** JavaScript values and errors *)

(** What a [Promise<TSession>] may resolve to at run time, and what the
    variable [session : TSession | null] may hold: a session object, [null],
    or [undefined]. *)
Inductive JsValue (T : Type) : Type :=
| JsNull
| JsUndefined
| JsObject (t : T).
Arguments JsNull {T}.
Arguments JsUndefined {T}.
Arguments JsObject {T} t.

Definition is_nullish {T} (v : JsValue T) : bool :=
  match v with
  | JsObject _ => false
  | _ => true
  end.

(** The part of a thrown value that the catch block of [attemptReconnect]
    looks at: [axios.isAxiosError(e)] and [e.response?.status]; [code] is the
    Node.js error code of network failures. *)
Record JsError : Type := mkError {
  isAxiosError : bool;
  response_status : option Z;
  code : option string
}.

(** [axios.isAxiosError(e) && e.response?.status === 401] *)
Definition is_auth_error (e : JsError) : bool :=
  isAxiosError e &&
  match response_status e with
  | Some st => st =? 401
  | None => false
  end.

(** ** Network error codes *)

Definition NETWORK_ERROR_CODES : list string :=
  [ "ECONNREFUSED"; "ENOTFOUND"; "ETIMEDOUT";
    "ECONNRESET"; "EHOSTUNREACH"; "ENETUNREACH" ].

(** [Array.prototype.includes] on an array of strings. *)
Fixpoint includes (l : list string) (x : string) : bool :=
  match l with
  | [] => false
  | y :: l' => String.eqb y x || includes l' x
  end.

(** [code !== undefined && NETWORK_ERROR_CODES.includes(code)] *)
Definition isNetworkError (code : option string) : bool :=
  match code with
  | None => false
  | Some c => includes NETWORK_ERROR_CODES c
  end.

(** ** Notification strings *)

Definition MSG_RECONNECTED : string :=
  "✅ Reconnected! Session syncing in background.".

Definition MSG_AUTH_FAILED : string :=
  "❌ Authentication failed. Please re-authenticate with `happy auth`.".

(** ** The reconnection engine *)

(** Calls the engine makes to the outside world, in the order made.  The
    health check is either the injected [config.healthCheck] or the default
    one, an HTTP GET with a timeout. *)
Inductive Effect : Type :=
| CallHealthCheck
| HttpGet (url : string) (timeout : Z)
| CallOnReconnected
| Notify (message : string)
| CallOnCleanup
| SetTimeout (delay : Z).

(** [OfflineReconnectionConfig]: the callbacks themselves belong to the
    environment, the record keeps which optional ones were supplied. *)
Record OfflineReconnectionConfig : Type := mkConfig {
  serverUrl : string;
  onCleanup : bool;          (* [onCleanup] supplied *)
  healthCheck : bool;        (* [healthCheck] override supplied *)
  initialDelayMs : option Z
}.

(** An armed timer of the runtime: its handle and the time it is due. *)
Record Timer : Type := mkTimer {
  timer_id : nat;
  timer_due : Z
}.

(** Node.js replaces a delay outside [1, 2^31-1] by 1 ms. *)
Definition TIMEOUT_MAX : Z := 2147483647.

Definition effective_delay (delay : Z) : Z :=
  if (1 <=? delay) && (delay <=? TIMEOUT_MAX) then delay else 1.

Section Engine.

Context {TSession : Type}.

(** [exponentialBackoffDelay] lives in [@/utils/time], outside this
    module, and draws a random jitter.  It is taken as a parameter; its
    first argument is the index of the random draw it consumes, the
    others are the four arguments of the call site. *)
Variable exponentialBackoffDelay : nat -> Z -> Z -> Z -> Z -> Z.

Variable config : OfflineReconnectionConfig.

(** The five closure variables of [startOfflineReconnection], followed by
    the runtime around them: the clock, the armed timers, how many
    activations of [attemptReconnect] are suspended at each [await], the
    number of random draws made, and the effect log. *)
Record State : Type := mkState {
  reconnected : bool;
  session : JsValue TSession;
  timeoutId : option nat;
  failureCount : Z;
  cancelled : bool;
  clock : Z;
  timers : list Timer;
  nextTimer : nat;
  awaitingHealth : nat;
  awaitingCallback : nat;
  randomDraws : nat;
  effects : list Effect
}.

Definition with_reconnected (b : bool) (s : State) : State :=
  mkState b (session s) (timeoutId s) (failureCount s) (cancelled s)
          (clock s) (timers s) (nextTimer s) (awaitingHealth s)
          (awaitingCallback s) (randomDraws s) (effects s).

Definition with_session (v : JsValue TSession) (s : State) : State :=
  mkState (reconnected s) v (timeoutId s) (failureCount s) (cancelled s)
          (clock s) (timers s) (nextTimer s) (awaitingHealth s)
          (awaitingCallback s) (randomDraws s) (effects s).

Definition with_timeoutId (i : option nat) (s : State) : State :=
  mkState (reconnected s) (session s) i (failureCount s) (cancelled s)
          (clock s) (timers s) (nextTimer s) (awaitingHealth s)
          (awaitingCallback s) (randomDraws s) (effects s).

Definition with_failureCount (n : Z) (s : State) : State :=
  mkState (reconnected s) (session s) (timeoutId s) n (cancelled s)
          (clock s) (timers s) (nextTimer s) (awaitingHealth s)
          (awaitingCallback s) (randomDraws s) (effects s).

Definition with_cancelled (b : bool) (s : State) : State :=
  mkState (reconnected s) (session s) (timeoutId s) (failureCount s) b
          (clock s) (timers s) (nextTimer s) (awaitingHealth s)
          (awaitingCallback s) (randomDraws s) (effects s).

Definition with_clock (t : Z) (s : State) : State :=
  mkState (reconnected s) (session s) (timeoutId s) (failureCount s)
          (cancelled s) t (timers s) (nextTimer s) (awaitingHealth s)
          (awaitingCallback s) (randomDraws s) (effects s).

Definition with_timers (l : list Timer) (n : nat) (s : State) : State :=
  mkState (reconnected s) (session s) (timeoutId s) (failureCount s)
          (cancelled s) (clock s) l n (awaitingHealth s)
          (awaitingCallback s) (randomDraws s) (effects s).

Definition with_awaitingHealth (n : nat) (s : State) : State :=
  mkState (reconnected s) (session s) (timeoutId s) (failureCount s)
          (cancelled s) (clock s) (timers s) (nextTimer s) n
          (awaitingCallback s) (randomDraws s) (effects s).

Definition with_awaitingCallback (n : nat) (s : State) : State :=
  mkState (reconnected s) (session s) (timeoutId s) (failureCount s)
          (cancelled s) (clock s) (timers s) (nextTimer s)
          (awaitingHealth s) n (randomDraws s) (effects s).

Definition with_randomDraws (n : nat) (s : State) : State :=
  mkState (reconnected s) (session s) (timeoutId s) (failureCount s)
          (cancelled s) (clock s) (timers s) (nextTimer s)
          (awaitingHealth s) (awaitingCallback s) n (effects s).

Definition emit (e : Effect) (s : State) : State :=
  mkState (reconnected s) (session s) (timeoutId s) (failureCount s)
          (cancelled s) (clock s) (timers s) (nextTimer s)
          (awaitingHealth s) (awaitingCallback s) (randomDraws s)
          (effects s ++ [e]).

(** *** The runtime's timers *)

(** [setTimeout(attemptReconnect, delay)]: arms a fresh timer and returns
    its handle. *)
Definition setTimeout (delay : Z) (s : State) : nat * State :=
  let id := nextTimer s in
  (id, emit (SetTimeout delay)
         (with_timers (timers s ++ [mkTimer id (clock s + effective_delay delay)])
                      (S id) s)).

Definition other_timer (id : nat) (t : Timer) : bool :=
  negb (Nat.eqb (timer_id t) id).

(** [clearTimeout(id)]: disarms the timer if it is still armed. *)
Definition clearTimeout (id : nat) (s : State) : State :=
  with_timers (filter (other_timer id) (timers s)) (nextTimer s) s.

Definition find_timer (id : nat) (s : State) : option Timer :=
  find (fun t => Nat.eqb (timer_id t) id) (timers s).

(** *** [attemptReconnect], cut at its two [await]s *)

(** [await healthCheck()]: [config.healthCheck ?? defaultHealthCheck] is
    called and the activation suspends. *)
Definition call_healthCheck (s : State) : State :=
  let call :=
    if healthCheck config then CallHealthCheck
    else HttpGet (serverUrl config ++ "/v1/sessions") 5000 in
  with_awaitingHealth (S (awaitingHealth s)) (emit call s).

(** Entry of [attemptReconnect], up to the first [await]. *)
Definition attemptReconnect (s : State) : State :=
  if reconnected s || cancelled s then s
  else call_healthCheck s.

(** After the health check resolved, up to [await config.onReconnected()]. *)
Definition health_resolved (s : State) : State :=
  if cancelled s then s
  else with_awaitingCallback (S (awaitingCallback s)) (emit CallOnReconnected s).

(** After [onReconnected] resolved with [v], to the end of the [try],
    [onNotify] returning normally. *)
Definition callback_resolved (v : JsValue TSession) (s : State) : State :=
  let s1 := with_session v s in
  if cancelled s1 then s1
  else emit (Notify MSG_RECONNECTED) (with_reconnected true s1).

(** The [catch] block, entered from either [await]. *)
Definition catch_error (e : JsError) (s : State) : State :=
  if is_auth_error e then emit (Notify MSG_AUTH_FAILED) s
  else
    let s1 := with_failureCount (failureCount s + 1) s in
    let delay :=
      exponentialBackoffDelay (randomDraws s1) (failureCount s1) 5000 60000 10 in
    let s2 := with_randomDraws (S (randomDraws s1)) s1 in
    if negb (cancelled s2) then
      let (id, s3) := setTimeout delay s2 in
      with_timeoutId (Some id) s3
    else s2.

(** After [onReconnected] resolved with [v], [onNotify] throwing [e] when
    it is called with the success message: the session and the flag are
    set, the call is made, and control passes to the [catch] block.  A
    cancelled engine returns before the call, so nothing can be thrown. *)
Definition notifier_throws (v : JsValue TSession) (e : JsError) (s : State)
  : option State :=
  if cancelled s then None
  else Some (catch_error e (callback_resolved v s)).

(** *** The handle *)

Definition cancel (s : State) : State :=
  let s1 := with_cancelled true s in
  let s2 :=
    match timeoutId s1 with
    | Some id => with_timeoutId None (clearTimeout id s1)
    | None => s1
    end in
  if onCleanup config then emit CallOnCleanup s2 else s2.

Definition getSession (s : State) : JsValue TSession := session s.

Definition isReconnected (s : State) : bool := reconnected s.

(** *** [startOfflineReconnection] *)

(** [const initialDelayMs = config.initialDelayMs ?? 5000] *)
Definition initialDelay : Z :=
  match initialDelayMs config with
  | Some d => d
  | None => 5000
  end.

Definition startOfflineReconnection : State :=
  let s0 := mkState false JsNull None 0 false 0 [] O O O O [] in
  let (id, s1) := setTimeout initialDelay s0 in
  with_timeoutId (Some id) s1.

(** *** The event loop *)

Inductive Event : Type :=
| Tick (dt : Z)                            (* time passes *)
| TimerFire (id : nat)                     (* an armed timer that is due fires *)
| HealthResolve                            (* a pending health check resolves *)
| HealthReject (e : JsError)               (* ... or throws *)
| CallbackResolve (v : JsValue TSession)   (* a pending [onReconnected] resolves *)
| NotifierThrows (v : JsValue TSession) (e : JsError)
                                           (* ... and [onNotify] then throws *)
| CallbackReject (e : JsError)             (* ... or [onReconnected] throws *)
| Cancel.                                  (* the caller invokes [handle.cancel()] *)

(** One turn of the event loop; [None] when the event cannot happen in
    this state (no such timer, timer not due, no such pending promise).
    When a timer fires the runtime drops it and calls [attemptReconnect];
    when a promise settles, the activation awaiting it resumes after the
    [await], or in the [catch] block. *)
Definition step (s : State) (ev : Event) : option State :=
  match ev with
  | Tick dt =>
      if 0 <=? dt then Some (with_clock (clock s + dt) s) else None
  | TimerFire id =>
      match find_timer id s with
      | Some t =>
          if timer_due t <=? clock s
          then Some (attemptReconnect (clearTimeout id s))
          else None
      | None => None
      end
  | HealthResolve =>
      match awaitingHealth s with
      | S n => Some (health_resolved (with_awaitingHealth n s))
      | O => None
      end
  | HealthReject e =>
      match awaitingHealth s with
      | S n => Some (catch_error e (with_awaitingHealth n s))
      | O => None
      end
  | CallbackResolve v =>
      match awaitingCallback s with
      | S n => Some (callback_resolved v (with_awaitingCallback n s))
      | O => None
      end
  | NotifierThrows v e =>
      match awaitingCallback s with
      | S n => notifier_throws v e (with_awaitingCallback n s)
      | O => None
      end
  | CallbackReject e =>
      match awaitingCallback s with
      | S n => Some (catch_error e (with_awaitingCallback n s))
      | O => None
      end
  | Cancel => Some (cancel s)
  end.

(** A run: the events of a trace, one after the other. *)
Fixpoint run (s : State) (tr : list Event) : option State :=
  match tr with
  | [] => Some s
  | ev :: tr' =>
      match step s ev with
      | Some s' => run s' tr'
      | None => None
      end
  end.

(** The states a run passes through, the starting state included. *)
Fixpoint trajectory (s : State) (tr : list Event) : list State :=
  s :: match tr with
       | [] => []
       | ev :: tr' =>
           match step s ev with
           | Some s' => trajectory s' tr'
           | None => []
           end
       end.

(** *** Observations on the effect log *)

Definition is_callback_call (e : Effect) : bool :=
  match e with
  | CallOnReconnected => true
  | _ => false
  end.

Definition is_cleanup_call (e : Effect) : bool :=
  match e with
  | CallOnCleanup => true
  | _ => false
  end.

Definition is_health_call (e : Effect) : bool :=
  match e with
  | CallHealthCheck | HttpGet _ _ => true
  | _ => false
  end.

Definition is_schedule (e : Effect) : bool :=
  match e with
  | SetTimeout _ => true
  | _ => false
  end.

Definition count (p : Effect -> bool) (s : State) : nat :=
  List.length (filter p (effects s)).

(** The messages passed to [onNotify], oldest first. *)
Fixpoint messages (l : list Effect) : list string :=
  match l with
  | [] => []
  | Notify m :: l' => m :: messages l'
  | _ :: l' => messages l'
  end.

Definition notifications (s : State) : list string := messages (effects s).

(** How many times [onNotify] was called with message [m]. *)
Definition sent (m : string) (s : State) : nat :=
  count_occ string_dec (notifications s) m.

(** *** Observations on traces *)

Definition is_cancel (ev : Event) : bool :=
  match ev with
  | Cancel => true
  | _ => false
  end.

Definition is_timer_fire (ev : Event) : bool :=
  match ev with
  | TimerFire _ => true
  | _ => false
  end.


Definition is_callback_resolve (ev : Event) : bool :=
  match ev with
  | CallbackResolve _ | NotifierThrows _ _ => true
  | _ => false
  end.

(** A promise settling, either way. *)
Definition is_settlement (ev : Event) : bool :=
  match ev with
  | HealthResolve | HealthReject _
  | CallbackResolve _ | NotifierThrows _ _ | CallbackReject _ => true
  | _ => false
  end.

(** The outcomes of the health checks and callbacks of a trace, in order. *)
Definition settlements (tr : list Event) : list Event :=
  filter is_settlement tr.

Definition no_cancel (tr : list Event) : bool :=
  forallb (fun ev => negb (is_cancel ev)) tr.

Definition no_timer_fire (tr : list Event) : bool :=
  forallb (fun ev => negb (is_timer_fire ev)) tr.


(** The run in which the first [length es] health checks throw the errors
    [es], each attempt starting once its timer is certainly due. *)
Fixpoint failing_attempts (id : nat) (es : list JsError) : list Event :=
  match es with
  | [] => []
  | e :: es' =>
      Tick TIMEOUT_MAX :: TimerFire id :: HealthReject e
        :: failing_attempts (S id) es'
  end.

(** ... and the next health check succeeds, [onReconnected] being called
    as a result ... *)
Definition attempts_until_callback (es : list JsError) : list Event :=
  (failing_attempts O es
     ++ [Tick TIMEOUT_MAX; TimerFire (List.length es); HealthResolve])%list.

(** ... and resolving with [v]. *)
Definition reconnect_after (es : list JsError) (v : JsValue TSession)
  : list Event :=
  (attempts_until_callback es ++ [CallbackResolve v])%list.

(** *** Predicates on states *)

(** Nothing is armed and nothing is pending: the engine is at rest. *)
Definition quiescent (s : State) : Prop :=
  timers s = [] /\ awaitingHealth s = O /\ awaitingCallback s = O.

(** No attempt is suspended, and a timer that is still armed can only find
    the engine reconnected: no attempt will begin any more. *)
Definition dormant (s : State) : Prop :=
  awaitingHealth s = O /\ awaitingCallback s = O /\
  (timers s = [] \/ reconnected s = true).

(** The single-flight invariant: at most one timer is armed or one attempt
    suspended, an armed timer is the one [timeoutId] holds, a cancelled
    engine has no timer; the notifications sent are none, the success
    message, the auth-failure message, or (a notifier that threw) the one
    after the other; and once a notification was sent or a session stored
    no attempt is suspended or will begin. *)
Record Inv (s : State) : Prop := mkInv {
  inv_single :
    (List.length (timers s) + awaitingHealth s + awaitingCallback s <= 1)%nat;
  inv_tracked :
    forall t, In t (timers s) -> timeoutId s = Some (timer_id t);
  inv_cancelled :
    cancelled s = true -> timers s = [] /\ timeoutId s = None;
  inv_notes :
    (notifications s = [] /\ reconnected s = false) \/
    (notifications s = [MSG_RECONNECTED] /\ reconnected s = true /\ dormant s) \/
    (notifications s = [MSG_AUTH_FAILED] /\ reconnected s = false /\ quiescent s) \/
    (notifications s = [MSG_RECONNECTED; MSG_AUTH_FAILED] /\
     reconnected s = true /\ quiescent s);
  inv_session :
    session s = JsNull \/ dormant s
}.

(** [s'] differs from [s] at most in the clock, the cancellation flag, the
    timer handle, a left-over timer and the cleanup calls logged. *)
Record settled (s s' : State) : Prop := mkSettled {
  settled_reconnected : reconnected s' = reconnected s;
  settled_session : session s' = session s;
  settled_notifications : notifications s' = notifications s;
  settled_callbacks : count is_callback_call s' = count is_callback_call s;
  settled_health : count is_health_call s' = count is_health_call s;
  settled_schedule : count is_schedule s' = count is_schedule s
}.

(** Cancelled with no timer armed. *)
Definition stopped (s : State) : Prop :=
  cancelled s = true /\ timers s = [].

(** From [s] to [s'] no attempt was scheduled or started, the callback was
    not invoked and no success was reported. *)
Record no_new_attempt (s s' : State) : Prop := mkNoNew {
  nn_schedule : count is_schedule s' = count is_schedule s;
  nn_health : count is_health_call s' = count is_health_call s;
  nn_callbacks : count is_callback_call s' = count is_callback_call s;
  nn_reconnected : reconnected s' = reconnected s;
  nn_success : sent MSG_RECONNECTED s' = sent MSG_RECONNECTED s
}.

(** Timer [id] is the one armed timer, it is due within [TIMEOUT_MAX], and
    the engine is neither cancelled nor reconnected. *)
Definition armed_at (id : nat) (s : State) : Prop :=
  exists due,
    timers s = [mkTimer id due] /\ due <= clock s + TIMEOUT_MAX /\
    nextTimer s = S id /\ awaitingHealth s = O /\ awaitingCallback s = O /\
    cancelled s = false /\ reconnected s = false.

(** The timer armed by [startOfflineReconnection] falls due at this time. *)
Definition first_due : Z := effective_delay initialDelay.

(** As long as the clock is short of [first_due], no attempt has begun. *)
Definition untouched (s : State) : Prop :=
  clock s < first_due ->
  awaitingHealth s = O /\ awaitingCallback s = O /\
  count is_callback_call s = O /\
  forall t, In t (timers s) -> timer_due t = first_due.

End Engine.

(** ** The offline-state aggregator *)

Module Aggregator.

(** [ERROR_DESCRIPTIONS], as the list of its own properties. *)
Definition ERROR_DESCRIPTIONS : list (string * string) :=
  [ ("ECONNREFUSED", "server not accepting connections");
    ("ENOTFOUND", "server hostname not found");
    ("ETIMEDOUT", "connection timed out");
    ("ECONNRESET", "connection reset by server");
    ("EHOSTUNREACH", "server host unreachable");
    ("ENETUNREACH", "network unreachable");
    ("401", "authentication failed - run `happy auth`");
    ("403", "access forbidden");
    ("404", "endpoint not found, check server deployment");
    ("500", "server internal error");
    ("502", "bad gateway");
    ("503", "service unavailable") ].

Fixpoint lookup {V : Type} (k : string) (m : list (string * V)) : option V :=
  match m with
  | [] => None
  | (k', v) :: m' => if String.eqb k' k then Some v else lookup k m'
  end.

(** JavaScript truthiness of an optional string: [undefined] and the
    empty string are falsy. *)
Definition truthy (o : option string) : option string :=
  match o with
  | Some "" => None
  | _ => o
  end.

Record OfflineFailure : Type := mkFailure {
  operation : string;
  caller : option string;
  errorCode : option string;
  url : option string;
  details : option (list string)
}.

Inductive Mode : Type := online | offline.

(** The fields of [class OfflineState].  [failures] is a JavaScript [Map]:
    it iterates in insertion order and [set] on a present key replaces the
    value in place. *)
Record OfflineState : Type := mkOfflineState {
  state : Mode;
  failures : list (string * OfflineFailure);
  backend : string
}.

Fixpoint map_set {V : Type} (k : string) (v : V) (m : list (string * V))
  : list (string * V) :=
  match m with
  | [] => [(k, v)]
  | (k', v') :: m' =>
      if String.eqb k' k then (k, v) :: m' else (k', v') :: map_set k v m'
  end.

Definition map_values {V : Type} (m : list (string * V)) : list V :=
  map snd m.

(** A line written by [console.log]: plain, or wrapped in [chalk.yellow]. *)
Inductive ConsoleLine : Type :=
| Plain (text : string)
| Yellow (text : string).

Definition WARNING_HEADER : string :=
  "⚠️  Happy server unreachable, offline mode with auto-reconnect enabled - error details: ".

(** [ERROR_DESCRIPTIONS] is an object literal, so a property it does not
    have itself is looked up in [Object.prototype].  These are the
    properties found there, each with the text a template literal makes of
    it under Node.js: the source text of a built-in function, and
    [[object Object]] for the prototype object that [__proto__] returns. *)
Definition OBJECT_PROTOTYPE : list (string * string) :=
  [ ("constructor", "function Object() { [native code] }");
    ("__defineGetter__", "function __defineGetter__() { [native code] }");
    ("__defineSetter__", "function __defineSetter__() { [native code] }");
    ("hasOwnProperty", "function hasOwnProperty() { [native code] }");
    ("__lookupGetter__", "function __lookupGetter__() { [native code] }");
    ("__lookupSetter__", "function __lookupSetter__() { [native code] }");
    ("isPrototypeOf", "function isPrototypeOf() { [native code] }");
    ("propertyIsEnumerable", "function propertyIsEnumerable() { [native code] }");
    ("toString", "function toString() { [native code] }");
    ("valueOf", "function valueOf() { [native code] }");
    ("__proto__", "[object Object]");
    ("toLocaleString", "function toLocaleString() { [native code] }") ].

(** [`${ERROR_DESCRIPTIONS[code] || 'unknown error'}`]: an own property
    first, then an inherited one (always truthy), else the default. *)
Definition description (c : string) : string :=
  match lookup c ERROR_DESCRIPTIONS with
  | Some "" => "unknown error"
  | Some d => d
  | None =>
      match lookup c OBJECT_PROTOTYPE with
      | Some inherited => inherited
      | None => "unknown error"
      end
  end.

(** The arrow function mapped over the failures in [print]. *)
Definition describe (f : OfflineFailure) : string :=
  let desc :=
    match truthy (errorCode f) with
    | Some c => c ++ " - " ++ description c
    | None => "unknown error"
    end in
  let at_url :=
    match truthy (url f) with
    | Some u => " at " ++ u
    | None => ""
    end in
  operation f ++ " failed: " ++ desc ++ at_url.

(** [Array.prototype.join]. *)
Fixpoint join (sep : string) (l : list string) : string :=
  match l with
  | [] => ""
  | [x] => x
  | x :: l' => x ++ sep ++ join sep l'
  end.

Definition summary (m : list (string * OfflineFailure)) : string :=
  join "; " (map describe (map_values m)).

Definition all_details (m : list (string * OfflineFailure)) : list string :=
  flat_map (fun f => match details f with
                     | Some l => l
                     | None => []
                     end) (map_values m).

(** [print()]: the lines it writes to the console. *)
Definition print (a : OfflineState) : list ConsoleLine :=
  Plain (WARNING_HEADER ++ summary (failures a))
  :: map (fun line => Yellow ("   → " ++ line)) (all_details (failures a)).

(** Each method returns the new object state and what it printed. *)
Definition fail (f : OfflineFailure) (a : OfflineState)
  : OfflineState * list ConsoleLine :=
  let a1 := mkOfflineState (state a)
              (map_set (operation f) f (failures a)) (backend a) in
  match state a1 with
  | online =>
      let a2 := mkOfflineState offline (failures a1) (backend a1) in
      (a2, print a2)
  | offline => (a1, [])
  end.

Definition recover (a : OfflineState) : OfflineState :=
  mkOfflineState online [] (backend a).

Definition setBackend (name : string) (a : OfflineState) : OfflineState :=
  mkOfflineState (state a) (failures a) name.

Definition isOffline (a : OfflineState) : bool :=
  match state a with
  | offline => true
  | online => false
  end.

Definition reset (a : OfflineState) : OfflineState :=
  mkOfflineState online [] "Claude".

(** [new OfflineState()], the value of [connectionState] at load time. *)
Definition connectionState : OfflineState :=
  mkOfflineState online [] "Claude".

(** [printOfflineWarning(backendName = 'Claude')] *)
Definition printOfflineWarning (backendName : option string) (a : OfflineState)
  : OfflineState * list ConsoleLine :=
  let name := match backendName with
              | Some n => n
              | None => "Claude"
              end in
  fail (mkFailure "Server connection" None None None None) (setBackend name a).

(** Method calls on the aggregator. *)
Inductive Op : Type :=
| Fail (f : OfflineFailure)
| Recover
| SetBackend (name : string)
| IsOffline
| Reset.

Definition apply (a : OfflineState) (op : Op) : OfflineState * list ConsoleLine :=
  match op with
  | Fail f => fail f a
  | Recover => (recover a, [])
  | SetBackend name => (setBackend name a, [])
  | IsOffline => (a, [])
  | Reset => (reset a, [])
  end.

(** A sequence of calls: the final state and everything printed. *)
Fixpoint exec (a : OfflineState) (ops : list Op) : OfflineState * list ConsoleLine :=
  match ops with
  | [] => (a, [])
  | op :: ops' =>
      let (a1, out1) := apply a op in
      let (a2, out2) := exec a1 ops' in
      (a2, (out1 ++ out2)%list)
  end.

(** The consolidated warning line, as opposed to a detail line. *)
Definition is_warning (l : ConsoleLine) : bool :=
  match l with
  | Plain text => String.prefix WARNING_HEADER text
  | Yellow _ => false
  end.

Definition warnings (out : list ConsoleLine) : nat :=
  List.length (filter is_warning out).

(** The calls in a sequence that find the aggregator [online] and take it
    [offline]. *)
Fixpoint transitions (a : OfflineState) (ops : list Op) : nat :=
  match ops with
  | [] => O
  | op :: ops' =>
      let a1 := fst (apply a op) in
      let here :=
        match state a, state a1 with
        | online, offline => 1%nat
        | _, _ => O
        end in
      (here + transitions a1 ops')%nat
  end.

(** [text.includes(pattern)] *)
Definition contains (text pattern : string) : bool :=
  match String.index 0 pattern text with
  | Some _ => true
  | None => false
  end.

Definition is_recover (op : Op) : bool :=
  match op with
  | Recover => true
  | _ => false
  end.

(** Calls that leave an [offline] aggregator [offline]: all but
    [recover()] and [reset()], which does what [recover()] does and also
    restores the backend label. *)
Definition stays_offline (op : Op) : bool :=
  match op with
  | Recover | Reset => false
  | _ => true
  end.

(** The states the singleton can be in: what some sequence of calls
    produces from the freshly constructed object. *)
Definition reachable (a : OfflineState) : Prop :=
  exists ops, fst (exec connectionState ops) = a.

End Aggregator.

(** ** Sequences of aggregator calls, read off the calls alone *)

Module Calls.

Import Aggregator.

(** The report held for operation [name] after the calls [ops]: that of the
    last [fail] for this operation since the last [recover()] or [reset()],
    [before] being what was held at the start. *)
Definition latest_report (name : string) (ops : list Op)
  (before : option OfflineFailure) : option OfflineFailure :=
  fold_left
    (fun held op =>
       match op with
       | Fail f => if String.eqb (operation f) name then Some f else held
       | Recover | Reset => None
       | SetBackend _ | IsOffline => held
       end)
    ops before.

(** The mode after the calls [ops]: decided by the last [fail], [recover()]
    or [reset()] among them. *)
Definition mode_after (ops : list Op) (before : Mode) : Mode :=
  fold_left
    (fun m op =>
       match op with
       | Fail _ => offline
       | Recover | Reset => online
       | SetBackend _ | IsOffline => m
       end)
    ops before.

Definition is_set_backend (op : Op) : bool :=
  match op with
  | SetBackend _ => true
  | _ => false
  end.

Definition without_set_backend (ops : list Op) : list Op :=
  filter (fun op => negb (is_set_backend op)) ops.

(** How many calls of a sequence are [recover()] or [reset()]. *)
Definition recoveries (ops : list Op) : nat :=
  List.length (filter (fun op => negb (stays_offline op)) ops).

(** The prefix of a detail line. *)
Definition DETAIL_ARROW : string := "   → ".

(** A detail line: yellow, indented, with the arrow. *)
Definition is_detail (l : ConsoleLine) : bool :=
  match l with
  | Yellow text => String.prefix DETAIL_ARROW text
  | Plain _ => false
  end.

(** [printOfflineWarning] called once per element of [names], in order. *)
Fixpoint printOfflineWarnings (names : list (option string)) (a : OfflineState)
  : OfflineState * list ConsoleLine :=
  match names with
  | [] => (a, [])
  | name :: names' =>
      let (a1, out1) := printOfflineWarning name a in
      let (a2, out2) := printOfflineWarnings names' a1 in
      (a2, (out1 ++ out2)%list)
  end.

(** The line [printOfflineWarning] prints. *)
Definition SERVER_CONNECTION_WARNING : string :=
  WARNING_HEADER ++ "Server connection failed: unknown error".

(** The keys of the map are the operation names of the reports stored under
    them, without repetition. *)
Definition deduplicated (m : list (string * OfflineFailure)) : Prop :=
  NoDup (map fst m) /\ Forall (fun kv => fst kv = operation (snd kv)) m.

(** Two states of the aggregator that differ at most in the backend label. *)
Definition same_but_backend (a b : OfflineState) : Prop :=
  state a = state b /\ failures a = failures b.

End Calls.


(** ** More on the reconnection engine *)

(** [validateStatus: (status) => status < 500] of [defaultHealthCheck]. *)
Definition validateStatus (status : Z) : bool := status <? 500.

(** What the GET of [defaultHealthCheck] can come to: no response at all
    (a network failure or the timeout, with Node's or axios's error code), or
    a response with an HTTP status. *)
Inductive HttpResult : Type :=
| NoResponse (code : string)
| Response (status : Z).

Section EngineMore.

Context {TSession : Type}.

(** How [defaultHealthCheck] settles.  The request is made by axios, whose
    contract is: without a response the promise rejects with an Axios error
    carrying the error code; with a response it resolves when
    [validateStatus] accepts the status (or the status is 0) and otherwise
    rejects with an Axios error carrying the response, its code being
    ERR_BAD_RESPONSE for a 5xx status. *)
Definition defaultHealthCheck_settles (r : HttpResult) : @Event TSession :=
  match r with
  | NoResponse code => HealthReject (mkError true None (Some code))
  | Response status =>
      if (status =? 0) || validateStatus status then HealthResolve
      else HealthReject (mkError true (Some status)
                           (if status <? 600 then Some "ERR_BAD_RESPONSE"
                            else None))
  end.

(** A turn that ends in the catch block with an error that is counted as
    a failure: thrown by the health check, by the callback or by the
    notifier, and not the 401 of [is_auth_error]. *)
Definition is_retryable_failure (ev : @Event TSession) : bool :=
  match ev with
  | HealthReject e | CallbackReject e | NotifierThrows _ e =>
      negb (is_auth_error e)
  | _ => false
  end.

(** The notifier throwing the 401 of [is_auth_error]. *)
Definition is_auth_notifier_throw (ev : @Event TSession) : bool :=
  match ev with
  | NotifierThrows _ e => is_auth_error e
  | _ => false
  end.

(** Calls and timers add up: the callback was not invoked more often than
    health checks were started, nor these more often than timers were
    scheduled, nor these more often than once per counted failure and once
    at the start. *)
Definition accounted (s : @State TSession) : Prop :=
  (count is_callback_call s + awaitingHealth s <= count is_health_call s)%nat /\
  (count is_health_call s + List.length (timers s) <= count is_schedule s)%nat /\
  Z.of_nat (count is_schedule s) <= failureCount s + 1.

End EngineMore.


(** ** The control-plane HTTP configuration ([controlPlaneHttp.ts]) *)

Module ControlPlaneHttp.

(** The values of the request options this code base sets. *)
Inductive ConfigValue : Type :=
| Bool (b : bool)
| Number (n : Z)
| Text (s : string)
| Headers (h : list (string * string))
| Function (name : string).

(** An [AxiosRequestConfig]: its own properties, in order. *)
Definition AxiosRequestConfig : Type := list (string * ConfigValue).

(** [{ ...config, proxy: false }], [config] defaulting to [{}]: the
    properties of [config] in their order, [proxy] overwritten in place or
    added at the end. *)
Definition withControlPlaneHttpConfig (config : option AxiosRequestConfig)
  : AxiosRequestConfig :=
  Aggregator.map_set "proxy" (Bool false)
    (match config with
     | Some c => c
     | None => []
     end).

(** The options [defaultHealthCheck] passes. *)
Definition healthCheckConfig : AxiosRequestConfig :=
  withControlPlaneHttpConfig
    (Some [("timeout", Number 5000); ("validateStatus", Function "status < 500")]).

End ControlPlaneHttp.

(** ** The API client's failure handling ([api.ts]) *)

Module Api.

Import Aggregator.

(** [String(n)] for a whole number below 10^21 in absolute value, which
    JavaScript writes with all its digits; an HTTP status has three. *)
Definition String_of (n : Z) : string := NilZero.string_of_int (Z.to_int n).

(** What the catch blocks look at in a thrown value (never null or
    undefined): the fields of [JsError], whether it is an object, and its
    message when it is an [Error]. *)
Record Thrown : Type := mkThrown {
  error : JsError;
  is_object : bool;          (* [error && typeof error === 'object'] *)
  message : option string    (* [error.message] if [error instanceof Error] *)
}.

(** How a call ends: with a value, or by throwing. *)
Inductive Completion (A E : Type) : Type :=
| Returns (a : A)
| Throws (e : E).
Arguments Returns {A E} a.
Arguments Throws {A E} e.

(** [error.response?.status === n] *)
Definition status_is (n : Z) (e : Thrown) : bool :=
  match response_status (error e) with
  | Some st => st =? n
  | None => false
  end.

(** [error.response?.status] when it is truthy. *)
Definition truthy_status (e : Thrown) : option Z :=
  match response_status (error e) with
  | Some st => if st =? 0 then None else Some st
  | None => None
  end.

(** [error instanceof Error ? error.message : 'Unknown error'] *)
Definition message_of (e : Thrown) : string :=
  match message e with
  | Some m => m
  | None => "Unknown error"
  end.

Definition RETRY_DETAIL : string :=
  "Server encountered an error, will retry automatically".

(** *** [getOrCreateSession] *)

Definition is404Error (e : Thrown) : bool :=
  (isAxiosError (error e) && status_is 404 e)
  || (is_object e && status_is 404 e).

(** The catch block of [getOrCreateSession]: the result, the aggregator
    afterwards and the lines printed.  [null] is [None]. *)
Definition getOrCreateSession_catch {Session : Type}
  (serverUrl : string) (e : Thrown) (cs : OfflineState)
  : Completion (option Session) string * OfflineState * list ConsoleLine :=
  let url := serverUrl ++ "/v1/sessions" in
  let errorCode := if is_object e then code (error e) else None in
  if isNetworkError errorCode then
    let (cs', out) :=
      fail (mkFailure "Session creation" (Some "api.getOrCreateSession")
              errorCode (Some url) None) cs in
    (Returns None, cs', out)
  else if is404Error e then
    let (cs', out) :=
      fail (mkFailure "Session creation" None (Some "404") (Some url) None) cs in
    (Returns None, cs', out)
  else
    match (if isAxiosError (error e) then truthy_status e else None) with
    | Some status =>
        if 500 <=? status then
          let (cs', out) :=
            fail (mkFailure "Session creation" None (Some (String_of status))
                    (Some url) (Some [RETRY_DETAIL])) cs in
          (Returns None, cs', out)
        else
          (Throws ("Failed to get or create session: " ++ message_of e), cs, [])
    | None =>
        (Throws ("Failed to get or create session: " ++ message_of e), cs, [])
    end.

(** [getOrCreateSession], given how its [try] block ended: with the
    decrypted session, or by throwing. *)
Definition getOrCreateSession {Session : Type}
  (serverUrl : string) (attempt : Thrown + Session) (cs : OfflineState)
  : Completion (option Session) string * OfflineState * list ConsoleLine :=
  match attempt with
  | inr session => (Returns (Some session), cs, [])
  | inl e => getOrCreateSession_catch serverUrl e cs
  end.

(** *** [getOrCreateMachine] *)

Inductive EncryptionVariant : Type := legacy | dataKey.

(** [credential.encryption] *)
Inductive Encryption (Key : Type) : Type :=
| LegacyEncryption (secret : Key)
| DataKeyEncryption (publicKey machineKey : Key).
Arguments LegacyEncryption {Key} secret.
Arguments DataKeyEncryption {Key} publicKey machineKey.

Record Machine (Key Metadata DaemonState : Type) : Type := mkMachine {
  id : string;
  encryptionKey : Key;
  encryptionVariant : EncryptionVariant;
  metadata : option Metadata;
  metadataVersion : Z;
  daemonState : option DaemonState;
  daemonStateVersion : Z
}.
Arguments mkMachine {Key Metadata DaemonState}.
Arguments id {Key Metadata DaemonState}.
Arguments encryptionKey {Key Metadata DaemonState}.
Arguments encryptionVariant {Key Metadata DaemonState}.
Arguments metadata {Key Metadata DaemonState}.
Arguments metadataVersion {Key Metadata DaemonState}.
Arguments daemonState {Key Metadata DaemonState}.
Arguments daemonStateVersion {Key Metadata DaemonState}.

(** The [opts] of [getOrCreateMachine]. *)
Record MachineOptions (Metadata DaemonState : Type) : Type := mkMachineOptions {
  machineId : string;
  opts_metadata : Metadata;
  opts_daemonState : option DaemonState
}.
Arguments mkMachineOptions {Metadata DaemonState}.
Arguments machineId {Metadata DaemonState}.
Arguments opts_metadata {Metadata DaemonState}.
Arguments opts_daemonState {Metadata DaemonState}.

Section MachineRegistration.

Context {Key Metadata DaemonState : Type}.

(** The key and variant [getOrCreateMachine] resolves from the credential. *)
Definition machine_key (c : Encryption Key) : Key * EncryptionVariant :=
  match c with
  | DataKeyEncryption _ machineKey => (machineKey, dataKey)
  | LegacyEncryption secret => (secret, legacy)
  end.

Definition createMinimalMachine (c : Encryption Key)
  (opts : MachineOptions Metadata DaemonState)
  : Machine Key Metadata DaemonState :=
  mkMachine (machineId opts) (fst (machine_key c)) (snd (machine_key c))
            (Some (opts_metadata opts)) 0 (opts_daemonState opts) 0.

(** The first of the five lines printed when the server answers 403 or
    409, up to the status. *)
Definition REJECTION_HEADER : string :=
  "⚠️  Machine registration rejected by the server with status ".

(** The five lines. *)
Definition rejected_lines (status : Z) : list ConsoleLine :=
  [ Yellow (REJECTION_HEADER ++ String_of status);
    Yellow "   → This machine ID is already registered to another account on the server";
    Yellow "   → This usually happens after re-authenticating with a different account";
    Yellow "   → Run 'happy doctor clean' to reset local state and generate a new machine ID";
    Yellow "   → Open a GitHub issue if this problem persists" ].

(** [error.code] when it is truthy. *)
Definition truthy_code (e : Thrown) : option string := truthy (code (error e)).

(** The catch block of [getOrCreateMachine]; it rethrows the error itself. *)
Definition getOrCreateMachine_catch
  (serverUrl : string) (c : Encryption Key)
  (opts : MachineOptions Metadata DaemonState) (e : Thrown) (cs : OfflineState)
  : Completion (Machine Key Metadata DaemonState) Thrown
    * OfflineState * list ConsoleLine :=
  let url := serverUrl ++ "/v1/machines" in
  if isAxiosError (error e) && isNetworkError (truthy_code e) then
    let (cs', out) :=
      fail (mkFailure "Machine registration" (Some "api.getOrCreateMachine")
              (code (error e)) (Some url) None) cs in
    (Returns (createMinimalMachine c opts), cs', out)
  else
    match (if isAxiosError (error e) then truthy_status e else None) with
    | Some status =>
        if (status =? 403) || (status =? 409) then
          (Returns (createMinimalMachine c opts), cs, rejected_lines status)
        else if 500 <=? status then
          let (cs', out) :=
            fail (mkFailure "Machine registration" None (Some (String_of status))
                    (Some url) (Some [RETRY_DETAIL])) cs in
          (Returns (createMinimalMachine c opts), cs', out)
        else if status =? 404 then
          let (cs', out) :=
            fail (mkFailure "Machine registration" None (Some "404")
                    (Some url) None) cs in
          (Returns (createMinimalMachine c opts), cs', out)
        else (Throws e, cs, [])
    | None => (Throws e, cs, [])
    end.

(** [getOrCreateMachine], given how its [try] block ended. *)
Definition getOrCreateMachine
  (serverUrl : string) (c : Encryption Key)
  (opts : MachineOptions Metadata DaemonState)
  (attempt : Thrown + Machine Key Metadata DaemonState) (cs : OfflineState)
  : Completion (Machine Key Metadata DaemonState) Thrown
    * OfflineState * list ConsoleLine :=
  match attempt with
  | inr machine => (Returns machine, cs, [])
  | inl e => getOrCreateMachine_catch serverUrl c opts e cs
  end.

End MachineRegistration.

(** *** Which errors are taken for an outage *)

(** [error.response?.status >= 500] *)
Definition status_5xx (e : Thrown) : bool :=
  match response_status (error e) with
  | Some st => 500 <=? st
  | None => false
  end.

(** The errors [getOrCreateSession] answers with [null]: an object with a
    network error code, anything whose response status is 404, an Axios error
    whose response status is 500 or more. *)
Definition session_outage (e : Thrown) : bool :=
  (is_object e && isNetworkError (code (error e)))
  || ((isAxiosError (error e) || is_object e) && status_is 404 e)
  || (isAxiosError (error e) && status_5xx e).

(** The errors [getOrCreateMachine] reports to the aggregator: Axios errors
    with a network error code, or with a response status of 404 or of 500 or
    more. *)
Definition machine_outage (e : Thrown) : bool :=
  isAxiosError (error e) &&
  (isNetworkError (code (error e)) || status_is 404 e || status_5xx e).

(** The Axios errors the server rejected with 403 or 409. *)
Definition machine_rejected (e : Thrown) : bool :=
  isAxiosError (error e) && negb (isNetworkError (code (error e))) &&
  (status_is 403 e || status_is 409 e).

(** What the two bootstrap calls report of an outage: the operation, the
    URL that was requested and an error code that is not empty. *)
Definition outage_report (name target : string) (f : OfflineFailure) : Prop :=
  operation f = name /\
  url f = Some target /\
  exists c, errorCode f = Some c /\ c <> "".

(** *** Failing bootstrap calls, one after the other *)

(** A call of [getOrCreateSession] or of [getOrCreateMachine] whose [try]
    block threw [e]. *)
Inductive FailedCall : Type :=
| SessionCall (e : Thrown)
| MachineCall (e : Thrown).

(** What such a call does to the aggregator and the console; the machine
    call's result does not depend on the credential or the options. *)
Definition failed_call (serverUrl : string) (call : FailedCall) (cs : OfflineState)
  : OfflineState * list ConsoleLine :=
  match call with
  | SessionCall e =>
      let r := @getOrCreateSession_catch unit serverUrl e cs in
      (snd (fst r), snd r)
  | MachineCall e =>
      let r := @getOrCreateMachine_catch unit unit unit serverUrl
                 (LegacyEncryption tt) (mkMachineOptions "" tt None) e cs in
      (snd (fst r), snd r)
  end.

Fixpoint failed_calls (serverUrl : string) (calls : list FailedCall)
  (cs : OfflineState) : OfflineState * list ConsoleLine :=
  match calls with
  | [] => (cs, [])
  | call :: calls' =>
      let (cs1, out1) := failed_call serverUrl call cs in
      let (cs2, out2) := failed_calls serverUrl calls' cs1 in
      (cs2, (out1 ++ out2)%list)
  end.

Definition is_rejection_notice (l : ConsoleLine) : bool :=
  match l with
  | Yellow text => String.prefix REJECTION_HEADER text
  | Plain _ => false
  end.

(** The failing calls that are answered with that notice. *)
Definition is_rejected_call (call : FailedCall) : bool :=
  match call with
  | MachineCall e => machine_rejected e
  | SessionCall _ => false
  end.

(** *** Vendor tokens *)

Local Unset Elimination Schemes.

(** JSON-like data: what a response body or a token can be.  Numbers are
    whole. *)
Inductive JsData : Type :=
| DUndefined
| DNull
| DBool (b : bool)
| DNumber (n : Z)
| DString (s : string)
| DObject (fields : list (string * JsData))
| DArray (items : list JsData).

Local Set Elimination Schemes.

Definition truthy_data (d : JsData) : bool :=
  match d with
  | DUndefined | DNull | DBool false | DNumber 0 | DString "" => false
  | _ => true
  end.

(** [typeof d === 'object'] *)
Definition is_object_type (d : JsData) : bool :=
  match d with
  | DNull | DObject _ | DArray _ => true
  | _ => false
  end.

(** [d?.token] *)
Definition token_of (d : JsData) : JsData :=
  match d with
  | DObject fields =>
      match lookup "token" fields with
      | Some v => v
      | None => DUndefined
      end
  | _ => DUndefined
  end.

(** [Object.keys(d).length] of an object or array. *)
Definition keys_length (d : JsData) : nat :=
  match d with
  | DObject fields => List.length fields
  | DArray items => List.length items
  | _ => O
  end.

(** [d && typeof d === 'object' && d.token === null
    && Object.keys(d).length === 1] *)
Definition only_null_token (d : JsData) : bool :=
  truthy_data d && is_object_type d &&
  match token_of d with
  | DNull => Nat.eqb (keys_length d) 1
  | _ => false
  end.

Record HttpResponse : Type := mkResponse {
  status : Z;
  data : JsData
}.

Section VendorTokens.

(** [JSON.parse] and [JSON.stringify] are the runtime's; [None] is a parse
    that throws. *)
Variable JSON_parse : string -> option JsData.
Variable JSON_stringify : JsData -> string.

(** The body [registerVendorToken] posts. *)
Definition register_body (apiKey : JsData) : JsData :=
  DObject [("token", DString (JSON_stringify apiKey))].

(** [registerVendorToken], given how its POST ended. *)
Definition registerVendorToken (attempt : Thrown + HttpResponse)
  : Completion unit string :=
  let inner : Completion unit Thrown :=
    match attempt with
    | inr response =>
        if negb (status response =? 200) && negb (status response =? 201) then
          Throws (mkThrown (mkError false None None) true
                    (Some ("Server returned status " ++ String_of (status response))))
        else Returns tt
    | inl e => Throws e
    end in
  match inner with
  | Returns _ => Returns tt
  | Throws e => Throws ("Failed to register vendor token: " ++ message_of e)
  end.

(** [getVendorToken], given how its GET ended; [null] is [DNull].  Whatever
    is thrown inside its [try], its [catch] returns null. *)
Definition getVendorToken (attempt : Thrown + HttpResponse) : JsData :=
  match attempt with
  | inl _ => DNull
  | inr response =>
      if status response =? 404 then DNull
      else if negb (status response =? 200) then DNull
      else if truthy_data (data response) && negb (is_object_type (data response))
      then DNull  (* ['token' in response.data] throws on a primitive *)
      else
        let token := token_of (data response) in
        let tokenData : option JsData :=   (* [None]: returned null early *)
          if truthy_data token then
            match token with
            | DString s =>
                match JSON_parse s with
                | Some parsed => Some parsed
                | None => Some token
                end
            | _ => Some token
            end
          else if truthy_data (data response) && is_object_type (data response) then
            if only_null_token (data response) then None
            else Some (data response)
          else Some DNull in
        match tokenData with
        | None => DNull
        | Some DNull => DNull
        | Some d => if only_null_token d then DNull else d
        end
  end.

End VendorTokens.

End Api.


(** ** Sample inputs *)

(** A jitter-free backoff, used to run the engine on concrete inputs: the
    delay grows linearly with the failure count and saturates at [hi]. *)
Definition linear_backoff (draw : nat) (failures lo hi cap : Z) : Z :=
  lo + ((hi - lo) / cap) * Z.min failures cap.

(** The configuration built by the test helper [createTestHandle]. *)
Definition test_config : OfflineReconnectionConfig :=
  mkConfig "http://test-server" true true (Some 1).

Definition ECONNREFUSED : JsError := mkError false None (Some "ECONNREFUSED").

(** [createAxiosError(status)] of the test suite. *)
Definition createAxiosError (status : Z) : JsError :=
  mkError true (Some status) None.

(** The two reports of scenario C. *)
Definition session_creation_404 : Aggregator.OfflineFailure :=
  Aggregator.mkFailure "Session creation" None (Some "404") None None.

Definition machine_registration_refused : Aggregator.OfflineFailure :=
  Aggregator.mkFailure "Machine registration" None (Some "ECONNREFUSED") None None.

Definition scenario_C : list Aggregator.Op :=
  [ Aggregator.Fail session_creation_404;
    Aggregator.Fail machine_registration_refused ].

(** Scenario A: two refused connections, then success with session ["x"]. *)
Definition scenario_A : list (@Event string) :=
  reconnect_after [ECONNREFUSED; ECONNREFUSED] (JsObject "x").

(** The line scenario C prints. *)
Definition scenario_C_line : string :=
  Aggregator.WARNING_HEADER ++
  "Session creation failed: 404 - endpoint not found, check server deployment".

(** Scenario A up to the call of [onReconnected]. *)
Definition scenario_A_attempts : list (@Event string) :=
  attempts_until_callback [ECONNREFUSED; ECONNREFUSED].

(** Scenario A as the tests run it: the caller cancels once reconnected. *)
Definition scenario_A_then_cancel : list (@Event string) :=
  (scenario_A_attempts ++ CallbackResolve (JsObject "x") :: [Cancel])%list.

(** Scenario B: the first health check is answered with 401; time passes
    and the caller cancels. *)
Definition scenario_B : list (@Event string) :=
  [ Tick 1; TimerFire 0; HealthReject (createAxiosError 401);
    Tick 100000; Cancel ].


(** The first attempt up to the call of [onReconnected]. *)
Definition callback_in_flight : list (@Event string) :=
  [ Tick 1; TimerFire 0; HealthResolve ].

(** An error that carries the HTTP status 401 in [response.status] and was
    not made by Axios. *)
Definition plain_401 : JsError := mkError false (Some 401) None.

(** The first health check throws [plain_401]. *)
Definition first_check_throws_plain_401 : list (@Event string) :=
  [ Tick 1; TimerFire 0; HealthReject plain_401 ].

(** [onReconnected] resolves with session ["x"], and [onNotify], called
    with the success message, throws an Axios 401. *)
Definition notifier_throws_401 : list (@Event string) :=
  (callback_in_flight
     ++ [NotifierThrows (JsObject "x") (createAxiosError 401)])%list.

(** The same with a notifier that throws some other error; later the timer
    armed by the catch block fires. *)
Definition notifier_throws_then_timer : list (@Event string) :=
  (callback_in_flight
     ++ [NotifierThrows (JsObject "x") ECONNREFUSED;
         Tick TIMEOUT_MAX; TimerFire 1])%list.

(** Running the engine of the test configuration on a trace: the result,
    and the state reached (the initial one when the trace cannot happen). *)
Definition test_run (tr : list (@Event string)) : option (@State string) :=
  run linear_backoff test_config (startOfflineReconnection test_config) tr.

Definition state_after (tr : list (@Event string)) : @State string :=
  match test_run tr with
  | Some s => s
  | None => startOfflineReconnection test_config
  end.

(** The attempts of [callback_in_flight], then time passes and the caller
    cancels. *)
Definition cancelled_in_flight : list (@Event string) :=
  (callback_in_flight ++ [Tick 50; Cancel])%list.

(** Scenario A, then the caller cancels and time passes. *)
Definition scenario_A_cancel_wait : list (@Event string) :=
  (scenario_A ++ [Cancel; Tick 10])%list.

(** A configuration that injects no health check and leaves the initial
    delay at its default, and the engine run with it. *)
Definition production_config : OfflineReconnectionConfig :=
  mkConfig "https://api.example.com" false false None.

Definition production_state (tr : list (@Event string)) : @State string :=
  match run linear_backoff production_config
          (startOfflineReconnection production_config) tr with
  | Some s => s
  | None => startOfflineReconnection production_config
  end.

(** The first health check, made by [defaultHealthCheck], is answered 401. *)
Definition first_check_in_flight : list (@Event string) :=
  [ Tick 5000; TimerFire 0 ].

Definition first_check_answered_401 : list (@Event string) :=
  (first_check_in_flight ++ [defaultHealthCheck_settles (Response 401)])%list.

(** The aggregator after scenario C. *)
Definition after_scenario_C : Aggregator.OfflineState :=
  fst (Aggregator.exec Aggregator.connectionState scenario_C).

(** The errors the API tests reject their requests with: a bare object with
    an error code, Axios errors with a response status, and an [Error] that
    is no connection error. *)
Definition refused : Api.Thrown := Api.mkThrown ECONNREFUSED true None.

Definition axios_status (status : Z) : Api.Thrown :=
  Api.mkThrown (createAxiosError status) true None.

Definition invalid_api_key : Api.Thrown :=
  Api.mkThrown (mkError false None (Some "UNAUTHORIZED")) true
    (Some "Invalid API key").

Definition API_URL : string := "https://api.example.com".

(** The machine options of the API tests, metadata and daemon state left
    abstract. *)
Definition test_machine : Api.MachineOptions unit unit :=
  Api.mkMachineOptions "test-machine" tt (Some tt).

(** [JSON.stringify] and [JSON.parse] on whole numbers, booleans and null. *)
Definition stringify_scalar (d : Api.JsData) : string :=
  match d with
  | Api.DNumber n => Api.String_of n
  | Api.DBool true => "true"
  | Api.DBool false => "false"
  | _ => "null"
  end.

Definition parse_scalar (s : string) : option Api.JsData :=
  if String.eqb s "true" then Some (Api.DBool true)
  else if String.eqb s "false" then Some (Api.DBool false)
  else if String.eqb s "null" then Some Api.DNull
  else
    match NilZero.int_of_string s with
    | Some i => Some (Api.DNumber (Z.of_int i))
    | None => None
    end.


(** * Properties of the reconnection engine *)

Section EngineProofs.

Context {TSession : Type}.
Variable backoff : nat -> Z -> Z -> Z -> Z -> Z.
Variable cfg : OfflineReconnectionConfig.

Local Abbreviation St := (@State TSession).
Local Abbreviation init := (@startOfflineReconnection TSession cfg).
Local Abbreviation stepE := (@step TSession backoff cfg).
Local Abbreviation runE := (@run TSession backoff cfg).
Local Abbreviation trajE := (@trajectory TSession backoff cfg).

Ltac open_state s :=
  destruct s as [rc ss tid fc cn ck tm nt ah ac rd ef]; simpl in *.

(** *** The effect log *)

Lemma messages_app (l1 l2 : list Effect) :
  messages (l1 ++ l2) = (messages l1 ++ messages l2)%list.
Proof.
  induction l1 as [|e l1 IH]; simpl; [reflexivity|].
  destruct e; simpl; rewrite IH; reflexivity.
Qed.

Lemma notifications_emit (e : Effect) (s : St) :
  notifications (emit e s) = (notifications s ++ messages [e])%list.
Proof. unfold notifications; simpl. apply messages_app. Qed.

Lemma count_emit (p : Effect -> bool) (e : Effect) (s : St) :
  count p (emit e s) = (count p s + if p e then 1 else 0)%nat.
Proof.
  unfold count; simpl. rewrite filter_app, length_app; simpl.
  destruct (p e); reflexivity.
Qed.

(** *** Runs *)

Lemma run_app (tr1 tr2 : list Event) (s s2 : St) :
  runE s (tr1 ++ tr2) = Some s2 <->
  exists s1, runE s tr1 = Some s1 /\ runE s1 tr2 = Some s2.
Proof.
  revert s; induction tr1 as [|ev tr1 IH]; intros s; simpl.
  - split; [intros H; exists s; auto | intros [s1 [H1 H2]]; congruence].
  - destruct (stepE s ev) as [s'|]; [apply IH|].
    split; [discriminate | intros [s1 [H1 _]]; discriminate].
Qed.

(** A property that holds initially and is kept by every step holds after
    every run. *)
Lemma run_preserves (P : St -> Prop) :
  (forall s ev s', P s -> stepE s ev = Some s' -> P s') ->
  forall tr s s', P s -> runE s tr = Some s' -> P s'.
Proof.
  intros Hstep; induction tr as [|ev tr IH]; intros s s' Hs Hrun; simpl in Hrun.
  - congruence.
  - destruct (stepE s ev) as [s1|] eqn:E; [|discriminate].
    apply (IH s1 s'); [exact (Hstep s ev s1 Hs E) | exact Hrun].
Qed.

(** *** The single-flight invariant *)

Lemma Inv_init : Inv init.
Proof.
  unfold startOfflineReconnection; simpl.
  constructor; simpl; auto.
  - intros t [<-|[]]; reflexivity.
  - discriminate.
Qed.

Lemma find_single (id : nat) (t t' : Timer) :
  find (fun x => Nat.eqb (timer_id x) id) [t] = Some t' ->
  t' = t /\ other_timer id t = false.
Proof.
  simpl. unfold other_timer.
  destruct (Nat.eqb (timer_id t) id); [|discriminate].
  intros [= <-]; auto.
Qed.

Lemma filter_tracked (id : nat) (l : list Timer) :
  (forall t, In t l -> Some id = Some (timer_id t)) ->
  filter (other_timer id) l = [].
Proof.
  induction l as [|t l IH]; intros H; simpl; [reflexivity|].
  unfold other_timer at 1.
  assert (E : Some id = Some (timer_id t)) by (apply H; left; reflexivity).
  injection E as ->. rewrite Nat.eqb_refl; simpl.
  apply IH. intros t' Ht'. apply H. right; exact Ht'.
Qed.

Ltac inv_cases H :=
  destruct H as [[? ?]|[(? & ? & ? & ? & ?)|[(? & ? & ? & ? & ?)|(? & ? & ? & ? & ?)]]].

(** The turn in which the notifier throws: it happens only when the engine
    is not cancelled, and ends in the [catch] block. *)
Ltac notifier_case Hstep :=
  unfold notifier_throws in Hstep; simpl in Hstep;
  try match type of Hstep with
      | (if ?c then _ else _) = _ => destruct c; [discriminate Hstep|]
      end;
  injection Hstep as <-;
  unfold catch_error, callback_resolved; simpl.

(** While an attempt is suspended nothing is armed, nothing was notified
    and no session was stored. *)
Ltac in_flight Hsingle Hnotes Hsess :=
  match type of Hsingle with
  | (List.length ?tm + _ + _ <= 1)%nat =>
      assert (tm = []) as -> by
        (destruct tm; [reflexivity | simpl in Hsingle; lia])
  end;
  simpl in Hsingle;
  repeat match goal with
         | n : nat |- _ => assert (n = O) as -> by lia
         end;
  match type of Hnotes with
  | (messages ?ef = [] /\ ?rc = false) \/ _ =>
      assert (messages ef = [] /\ rc = false) as [? ->] by
        (inv_cases Hnotes; try discriminate; auto)
  end;
  match type of Hsess with
  | ?ss = JsNull \/ _ =>
      assert (ss = JsNull) as -> by
        (destruct Hsess as [?|[? [? _]]]; [assumption | discriminate])
  end.

Ltac inv_solve :=
  constructor; unfold quiescent, dormant, notifications; simpl;
  rewrite ?messages_app;
  repeat match goal with
         | H : messages _ = _ |- _ => rewrite H; clear H
         end;
  simpl; rewrite ?app_nil_r;
  try solve [ auto | lia | intros ? [] | discriminate
            | intuition (auto; try congruence; try lia)
            | intros ? [<-|[]]; reflexivity ].

Lemma Inv_step (s s' : St) (ev : Event) :
  Inv s -> stepE s ev = Some s' -> Inv s'.
Proof.
  intros [Hsingle Htracked Hcanc Hnotes Hsess] Hstep.
  unfold quiescent, dormant, notifications in *.
  open_state s.
  destruct ev; simpl in Hstep.
  - (* Tick *)
    destruct (0 <=? dt); [|discriminate].
    injection Hstep as <-.
    constructor; unfold quiescent, dormant, notifications; simpl; auto.
  - (* TimerFire *)
    unfold find_timer in Hstep; simpl in Hstep.
    destruct tm as [|t tm']; [discriminate|].
    assert (tm' = [] /\ ah = O /\ ac = O) as (-> & -> & ->).
    { destruct tm'; simpl in Hsingle; [split; [reflexivity | lia] | lia]. }
    destruct (find _ [t]) as [t'|] eqn:F; [|discriminate].
    apply find_single in F as [-> Hfilter].
    destruct (timer_due t <=? ck); [|discriminate].
    injection Hstep as <-.
    unfold attemptReconnect, clearTimeout, call_healthCheck; simpl.
    rewrite Hfilter; unfold with_timers; simpl.
    destruct cn; [destruct (Hcanc eq_refl) as [? _]; discriminate|].
    destruct rc; simpl.
    + (* a timer left over by a notifier that threw *)
      constructor; unfold quiescent, dormant, notifications; simpl; auto.
      * intros t0 [].
      * discriminate.
      * inv_cases Hnotes; try discriminate. right; left. repeat split; auto.
    + assert (Hn : messages ef = [] /\ ss = JsNull).
      { inv_cases Hnotes; try discriminate.
        destruct Hsess as [?|(_ & _ & [?|?])]; [auto | discriminate ..]. }
      destruct Hn as (Hn & ->).
      constructor; unfold quiescent, dormant, notifications; simpl; auto.
      * intros t0 [].
      * discriminate.
      * left. rewrite messages_app, Hn. destruct (healthCheck cfg); auto.
  - (* HealthResolve *)
    destruct ah as [|n]; [discriminate|].
    injection Hstep as <-.
    in_flight Hsingle Hnotes Hsess.
    unfold health_resolved; simpl.
    destruct cn; simpl; inv_solve.
  - (* HealthReject *)
    destruct ah as [|n]; [discriminate|].
    injection Hstep as <-.
    in_flight Hsingle Hnotes Hsess.
    unfold catch_error; simpl.
    destruct (is_auth_error e); [inv_solve|].
    destruct cn; simpl; inv_solve.
  - (* CallbackResolve *)
    destruct ac as [|n]; [discriminate|].
    injection Hstep as <-.
    in_flight Hsingle Hnotes Hsess.
    unfold callback_resolved; simpl.
    destruct cn; simpl; inv_solve.
  - (* NotifierThrows *)
    destruct ac as [|n]; [discriminate|].
    unfold notifier_throws in Hstep; simpl in Hstep.
    destruct cn; [discriminate|].
    injection Hstep as <-.
    in_flight Hsingle Hnotes Hsess.
    unfold catch_error, callback_resolved; simpl.
    destruct (is_auth_error e); simpl; inv_solve.
  - (* CallbackReject *)
    destruct ac as [|n]; [discriminate|].
    injection Hstep as <-.
    in_flight Hsingle Hnotes Hsess.
    unfold catch_error; simpl.
    destruct (is_auth_error e); [inv_solve|].
    destruct cn; simpl; inv_solve.
  - (* Cancel *)
    injection Hstep as <-.
    unfold cancel; simpl.
    assert (Hclear : match tid with
                     | Some id => filter (other_timer id) tm = []
                     | None => tm = []
                     end).
    { destruct tid as [id|].
      - apply filter_tracked. exact Htracked.
      - destruct tm as [|t tm']; [reflexivity|].
        specialize (Htracked t (or_introl eq_refl)); discriminate. }
    destruct tid as [id|]; unfold clearTimeout; simpl;
      rewrite Hclear; destruct (onCleanup cfg); simpl; inv_solve.
Qed.

Lemma Inv_run (tr : list Event) (s s' : St) :
  Inv s -> runE s tr = Some s' -> Inv s'.
Proof. apply run_preserves. intros; eapply Inv_step; eauto. Qed.

Lemma Inv_reachable (tr : list Event) (s : St) :
  runE init tr = Some s -> Inv s.
Proof. apply Inv_run, Inv_init. Qed.

(** *** What can still change *)

Lemma settled_refl (s : St) : settled s s.
Proof. constructor; reflexivity. Qed.

Lemma settled_trans (s1 s2 s3 : St) :
  settled s1 s2 -> settled s2 s3 -> settled s1 s3.
Proof. intros [] []; constructor; congruence. Qed.

Ltac settle :=
  unfold quiescent, notifications, count; simpl;
  rewrite ?messages_app, ?filter_app, ?length_app; simpl;
  rewrite ?app_nil_r, ?Nat.add_0_r.

(** At rest only time and [cancel()] can happen, and they change none of
    the engine's results. *)
Lemma quiescent_step (s s' : St) (ev : Event) :
  quiescent s -> stepE s ev = Some s' -> quiescent s' /\ settled s s'.
Proof.
  intros (Ht & Hh & Hc) Hstep. open_state s. subst.
  destruct ev; simpl in Hstep; try discriminate.
  - destruct (0 <=? dt); [|discriminate]. injection Hstep as <-.
    split; [|constructor]; settle; auto.
  - injection Hstep as <-. unfold cancel, clearTimeout; simpl.
    destruct tid, (onCleanup cfg); simpl;
      (split; [|constructor]); settle; auto.
Qed.

Lemma quiescent_run (tr : list Event) (s s' : St) :
  quiescent s -> runE s tr = Some s' -> quiescent s' /\ settled s s'.
Proof.
  revert s; induction tr as [|ev tr IH]; intros s Hq Hrun; simpl in Hrun.
  - injection Hrun as <-. split; [assumption | apply settled_refl].
  - destruct (stepE s ev) as [s1|] eqn:E; [|discriminate].
    destruct (quiescent_step _ _ _ Hq E) as [Hq1 Hs1].
    destruct (IH _ Hq1 Hrun) as [Hq' Hs'].
    split; [assumption | eapply settled_trans; eauto].
Qed.

Lemma quiescent_dormant (s : St) : quiescent s -> dormant s.
Proof. intros (Ht & Hh & Hc). repeat split; auto. Qed.

(** A dormant engine can still see time pass, a left-over timer fire and
    [cancel()]; none of them changes the engine's results. *)
Lemma dormant_step (s s' : St) (ev : Event) :
  dormant s -> stepE s ev = Some s' -> dormant s' /\ settled s s'.
Proof.
  intros (Hh & Hc & Ht) Hstep. unfold dormant. open_state s. subst.
  destruct ev; simpl in Hstep; try discriminate.
  - destruct (0 <=? dt); [|discriminate]. injection Hstep as <-.
    split; [|constructor]; settle; auto.
  - unfold find_timer in Hstep; simpl in Hstep.
    destruct (find _ tm) as [t|] eqn:F; [|discriminate].
    destruct Ht as [->| ->]; [discriminate F|].
    destruct (_ <=? _); [|discriminate]. injection Hstep as <-.
    unfold attemptReconnect, clearTimeout; simpl.
    split; [|constructor]; settle; auto.
  - injection Hstep as <-. unfold cancel, clearTimeout; simpl.
    destruct tid, (onCleanup cfg); simpl;
      (split; [|constructor]); settle; auto;
      destruct Ht as [->|?]; auto.
Qed.

Lemma dormant_run (tr : list Event) (s s' : St) :
  dormant s -> runE s tr = Some s' -> dormant s' /\ settled s s'.
Proof.
  revert s; induction tr as [|ev tr IH]; intros s Hq Hrun; simpl in Hrun.
  - injection Hrun as <-. split; [assumption | apply settled_refl].
  - destruct (stepE s ev) as [s1|] eqn:E; [|discriminate].
    destruct (dormant_step _ _ _ Hq E) as [Hq1 Hs1].
    destruct (IH _ Hq1 Hrun) as [Hq' Hs'].
    split; [assumption | eapply settled_trans; eauto].
Qed.

(** *** After [cancel()] *)

Lemma no_new_attempt_refl (s : St) : no_new_attempt s s.
Proof. constructor; reflexivity. Qed.

Lemma no_new_attempt_trans (s1 s2 s3 : St) :
  no_new_attempt s1 s2 -> no_new_attempt s2 s3 -> no_new_attempt s1 s3.
Proof. intros [] []; constructor; congruence. Qed.

Lemma count_occ_snoc (l : list string) (m x : string) :
  count_occ string_dec (l ++ [x]) m =
  (count_occ string_dec l m + if string_dec x m then 1 else 0)%nat.
Proof.
  rewrite count_occ_app; simpl. destruct (string_dec x m); reflexivity.
Qed.

Lemma auth_is_not_success :
  (if string_dec MSG_AUTH_FAILED MSG_RECONNECTED then 1 else 0)%nat = O.
Proof. destruct (string_dec _ _) as [E|]; [discriminate E | reflexivity]. Qed.

Ltac stop :=
  unfold stopped, sent, notifications, count; simpl;
  rewrite ?messages_app, ?filter_app, ?length_app; simpl;
  rewrite ?app_nil_r, ?Nat.add_0_r, ?count_occ_snoc, ?auth_is_not_success,
    ?Nat.add_0_r.

Lemma stopped_step (s s' : St) (ev : Event) :
  stopped s -> stepE s ev = Some s' -> stopped s' /\ no_new_attempt s s'.
Proof.
  intros (Hc & Ht) Hstep. open_state s. subst.
  destruct ev; simpl in Hstep; try discriminate.
  - destruct (0 <=? dt); [|discriminate]. injection Hstep as <-.
    split; [|constructor]; stop; auto.
  - destruct ah; [discriminate|]. injection Hstep as <-.
    split; [|constructor]; stop; auto.
  - destruct ah; [discriminate|]. injection Hstep as <-.
    unfold catch_error; simpl.
    destruct (is_auth_error e); simpl; (split; [|constructor]); stop; auto.
  - destruct ac; [discriminate|]. injection Hstep as <-.
    split; [|constructor]; stop; auto.
  - destruct ac; discriminate.
  - destruct ac; [discriminate|]. injection Hstep as <-.
    unfold catch_error; simpl.
    destruct (is_auth_error e); simpl; (split; [|constructor]); stop; auto.
  - injection Hstep as <-. unfold cancel, clearTimeout; simpl.
    destruct tid, (onCleanup cfg); simpl;
      (split; [|constructor]); stop; auto.
Qed.

Lemma stopped_run (tr : list Event) (s s' : St) :
  stopped s -> runE s tr = Some s' -> stopped s' /\ no_new_attempt s s'.
Proof.
  revert s; induction tr as [|ev tr IH]; intros s Hq Hrun; simpl in Hrun.
  - injection Hrun as <-. split; [assumption | apply no_new_attempt_refl].
  - destruct (stepE s ev) as [s1|] eqn:E; [|discriminate].
    destruct (stopped_step _ _ _ Hq E) as [Hq1 Hs1].
    destruct (IH _ Hq1 Hrun) as [Hq' Hs'].
    split; [assumption | eapply no_new_attempt_trans; eauto].
Qed.

(** [cancel()] on a tracked state leaves the engine stopped, and adds
    nothing to the log but the cleanup call. *)
Lemma cancel_stops (s : St) :
  Inv s -> stopped (cancel cfg s) /\ no_new_attempt s (cancel cfg s).
Proof.
  intros [Hsingle Htracked Hcanc Hnotes Hsess]. open_state s.
  unfold cancel; simpl.
  assert (Hclear : match tid with
                   | Some id => filter (other_timer id) tm = []
                   | None => tm = []
                   end).
  { destruct tid as [id|].
    - apply filter_tracked. exact Htracked.
    - destruct tm as [|t tm']; [reflexivity|].
      specialize (Htracked t (or_introl eq_refl)); discriminate. }
  destruct tid as [id|]; unfold clearTimeout; simpl;
    destruct (onCleanup cfg); simpl;
    (split; [|constructor]); stop; auto.
Qed.

(** *** The flags only go up *)

Lemma reconnected_step (s s' : St) (ev : Event) :
  stepE s ev = Some s' -> reconnected s = true -> reconnected s' = true.
Proof.
  intros Hstep Hr. open_state s. subst.
  destruct ev; simpl in Hstep.
  - destruct (0 <=? dt); [|discriminate]. injection Hstep as <-; reflexivity.
  - unfold find_timer in Hstep; simpl in Hstep.
    destruct (find _ tm); [|discriminate].
    destruct (_ <=? _); [|discriminate]. injection Hstep as <-; reflexivity.
  - destruct ah; [discriminate|]. injection Hstep as <-.
    unfold health_resolved; simpl. destruct cn; reflexivity.
  - destruct ah; [discriminate|]. injection Hstep as <-.
    unfold catch_error; simpl.
    destruct (is_auth_error e); [reflexivity|]. destruct cn; reflexivity.
  - destruct ac; [discriminate|]. injection Hstep as <-.
    unfold callback_resolved; simpl. destruct cn; reflexivity.
  - destruct ac; [discriminate|]. notifier_case Hstep.
    destruct (is_auth_error e); reflexivity.
  - destruct ac; [discriminate|]. injection Hstep as <-.
    unfold catch_error; simpl.
    destruct (is_auth_error e); [reflexivity|]. destruct cn; reflexivity.
  - injection Hstep as <-. unfold cancel; simpl.
    destruct tid, (onCleanup cfg); reflexivity.
Qed.

Lemma reconnected_run (tr : list Event) (s s' : St) :
  reconnected s = true -> runE s tr = Some s' -> reconnected s' = true.
Proof.
  apply (run_preserves (fun x => reconnected x = true)).
  intros x ev x' Hx Hstep. exact (reconnected_step _ _ _ Hstep Hx).
Qed.

(** *** Trajectories *)

Lemma trajectory_cons (tr : list Event) (s : St) :
  exists l, trajE s tr = s :: l.
Proof. destruct tr; simpl; eauto. Qed.

Lemma trajectory_last (tr : list Event) (s s' d : St) :
  runE s tr = Some s' -> last (trajE s tr) d = s'.
Proof.
  revert s; induction tr as [|ev tr IH]; intros s Hrun; simpl in *.
  - congruence.
  - destruct (stepE s ev) as [s1|] eqn:E; [|discriminate].
    specialize (IH s1 Hrun).
    destruct (trajectory_cons tr s1) as [l Hl].
    rewrite Hl in *. exact IH.
Qed.

(** Every state of a trajectory is the end of a run of a prefix, and the
    trajectory from there on is the rest. *)
Lemma trajectory_split (tr : list Event) (s : St) (l1 l2 : list St) (x : St) :
  trajE s tr = (l1 ++ x :: l2)%list ->
  exists tr1 tr2,
    runE s tr1 = Some x /\ trajE x tr2 = x :: l2 /\
    (forall s', runE s tr = Some s' -> tr = (tr1 ++ tr2)%list).
Proof.
  revert tr s; induction l1 as [|y l1 IH]; intros tr s H.
  - simpl in H. exists [], tr.
    assert (s = x) as -> by (destruct tr; simpl in H; congruence).
    repeat split; auto.
  - destruct tr as [|ev tr]; simpl in H.
    + injection H as _ H. destruct l1; discriminate.
    + injection H as -> H.
      destruct (stepE y ev) as [s1|] eqn:E.
      * destruct (IH _ _ H) as (tr1 & tr2 & H1 & H2 & H3).
        exists (ev :: tr1), tr2. simpl. rewrite E.
        repeat split; auto.
        intros s' Hs'. f_equal. eapply H3; eauto.
      * destruct l1; discriminate.
Qed.

Lemma trajectory_reachable (tr : list Event) (s x : St) :
  In x (trajE s tr) -> exists tr1, runE s tr1 = Some x.
Proof.
  intros Hin. apply in_split in Hin as (l1 & l2 & H).
  destruct (trajectory_split _ _ _ _ _ H) as (tr1 & _ & H1 & _).
  exists tr1; exact H1.
Qed.

Lemma trajectory_latched (tr : list Event) (s x : St) :
  reconnected s = true -> In x (trajE s tr) -> reconnected x = true.
Proof.
  intros Hs Hin. destruct (trajectory_reachable _ _ _ Hin) as [tr1 H1].
  eapply reconnected_run; eauto.
Qed.



(** *** Runs without [cancel()] *)



(** *** Lists *)




(** *** The run of [reconnect_after] exists *)

Lemma effective_delay_range (d : Z) :
  1 <= effective_delay d <= TIMEOUT_MAX.
Proof.
  unfold effective_delay, TIMEOUT_MAX.
  destruct (1 <=? d) eqn:A, (d <=? 2147483647) eqn:B; simpl; try lia.
Qed.

Ltac delay_bound :=
  match goal with
  | |- context [effective_delay ?d] =>
      pose proof (effective_delay_range d); unfold TIMEOUT_MAX in *; lia
  end.

Lemma armed_init : armed_at O init.
Proof.
  unfold startOfflineReconnection; simpl.
  eexists; repeat split; simpl.
  delay_bound.
Qed.

Lemma armed_fire (id : nat) (s : St) :
  armed_at id s ->
  exists s1,
    runE s [Tick TIMEOUT_MAX; TimerFire id] = Some s1 /\
    timers s1 = [] /\ nextTimer s1 = S id /\ awaitingHealth s1 = 1%nat /\
    awaitingCallback s1 = O /\ cancelled s1 = false /\ reconnected s1 = false.
Proof.
  intros (due & Ht & Hdue & Hn & Hh & Hc & Hcn & Hr).
  open_state s. subst.
  unfold find_timer, with_clock; cbn. rewrite Nat.eqb_refl; cbn.
  apply Z.leb_le in Hdue. rewrite Hdue.
  eexists; split; [reflexivity|].
  unfold call_healthCheck, clearTimeout, other_timer; cbn.
  rewrite Nat.eqb_refl; cbn. repeat split.
Qed.

Lemma armed_fail (id : nat) (e : JsError) (s : St) :
  armed_at id s -> is_auth_error e = false ->
  exists s',
    runE s [Tick TIMEOUT_MAX; TimerFire id; HealthReject e] = Some s' /\
    armed_at (S id) s'.
Proof.
  intros Ha He.
  destruct (armed_fire _ _ Ha) as (s1 & Hrun & Ht & Hn & Hh & Hc & Hcn & Hr).
  assert (Hlast : exists s', stepE s1 (HealthReject e) = Some s' /\
                             armed_at (S id) s').
  { clear Hrun Ha. open_state s1. subst.
    unfold catch_error; simpl. rewrite He; simpl.
    eexists; split; [reflexivity|].
    eexists; repeat split; simpl.
    delay_bound. }
  destruct Hlast as (s' & Hstep & Ha').
  exists s'; split; [|assumption].
  apply (proj2 (run_app [Tick TIMEOUT_MAX; TimerFire id] [HealthReject e] s s')).
  exists s1; split; [assumption|].
  cbn [run]. rewrite Hstep. reflexivity.
Qed.

Lemma armed_failing_attempts (es : list JsError) (id : nat) (s : St) :
  armed_at id s -> Forall (fun e => is_auth_error e = false) es ->
  exists s',
    runE s (failing_attempts id es) = Some s' /\
    armed_at (id + List.length es) s'.
Proof.
  revert id s; induction es as [|e es IH]; intros id s Ha Hes.
  - exists s; simpl. rewrite Nat.add_0_r. auto.
  - inversion Hes as [|? ? He Hes']; subst.
    destruct (armed_fail _ _ _ Ha He) as (s1 & H1 & Ha1).
    destruct (IH _ _ Ha1 Hes') as (s' & H' & Ha').
    exists s'. split.
    + apply (proj2 (run_app [Tick TIMEOUT_MAX; TimerFire id; HealthReject e]
                             (failing_attempts (S id) es) s s')).
      exists s1; auto.
    + simpl List.length. rewrite Nat.add_succ_r. exact Ha'.
Qed.

Lemma armed_success (id : nat) (v : JsValue TSession) (s : St) :
  armed_at id s ->
  exists s',
    runE s [Tick TIMEOUT_MAX; TimerFire id; HealthResolve; CallbackResolve v]
    = Some s'.
Proof.
  intros Ha.
  destruct (armed_fire _ _ Ha) as (s1 & Hrun & Ht & Hn & Hh & Hc & Hcn & Hr).
  assert (Hlast : exists s',
             runE s1 [HealthResolve; CallbackResolve v] = Some s').
  { clear Hrun Ha. open_state s1. subst.
    unfold health_resolved; simpl. eexists; reflexivity. }
  destruct Hlast as (s' & Hlast).
  exists s'.
  apply (proj2 (run_app [Tick TIMEOUT_MAX; TimerFire id]
                        [HealthResolve; CallbackResolve v] s s')).
  exists s1; auto.
Qed.

(** X3.  Retries are unlimited: whatever the number of retryable errors
    [es], the run in which the health check throws them one after the other,
    then succeeds, and the callback resolves, can happen. *)
Lemma reconnect_after_runs (es : list JsError) (v : JsValue TSession) :
  Forall (fun e => is_auth_error e = false) es ->
  exists s, runE init (reconnect_after es v) = Some s.
Proof.
  intros Hes.
  destruct (armed_failing_attempts es O init armed_init Hes) as (s1 & H1 & Ha1).
  destruct (armed_success _ v _ Ha1) as (s' & H').
  exists s'. unfold reconnect_after, attempts_until_callback.
  rewrite <- app_assoc. apply run_app. exists s1; auto.
Qed.

(** The attempts of [reconnect_after] contain no [cancel()], and their
    settlements are the errors [es] followed by one success. *)
Lemma attempts_until_callback_no_cancel (es : list JsError) :
  no_cancel (@attempts_until_callback TSession es) = true.
Proof.
  unfold attempts_until_callback, no_cancel. rewrite forallb_app; simpl.
  rewrite andb_true_r. generalize O.
  induction es as [|e es IH]; intros id; simpl; auto.
Qed.

Lemma attempts_until_callback_settlements (es : list JsError) :
  settlements (@attempts_until_callback TSession es) =
  (map (@HealthReject TSession) es ++ [HealthResolve])%list.
Proof.
  unfold attempts_until_callback, settlements. rewrite filter_app; simpl.
  f_equal. generalize O.
  induction es as [|e es IH]; intros id; simpl; [reflexivity|].
  rewrite IH; reflexivity.
Qed.

(** *** The success path *)


(** When [onReconnected] resolves, the engine not being cancelled and the
    notifier returning, the success message is the first notification and
    the engine is at rest. *)
Lemma success_step (v : JsValue TSession) (s s' : St) :
  Inv s -> cancelled s = false -> stepE s (CallbackResolve v) = Some s' ->
  quiescent s' /\ notifications s' = [MSG_RECONNECTED] /\
  reconnected s' = true /\ session s' = v /\
  count is_callback_call s' = count is_callback_call s.
Proof.
  intros [Hsingle _ _ Hnotes Hsess] Hc Hstep.
  unfold quiescent, dormant, notifications in *. open_state s. subst.
  destruct ac as [|n]; [discriminate|]. injection Hstep as <-.
  in_flight Hsingle Hnotes Hsess.
  settle.
  match goal with H : messages _ = _ |- _ => rewrite H end.
  repeat split.
Qed.


(** *** The 401 path *)

Lemma auth_reject_step (e : JsError) (ev : Event) (s s1 : St) :
  Inv s -> is_auth_error e = true ->
  ev = HealthReject e \/ ev = CallbackReject e ->
  stepE s ev = Some s1 ->
  quiescent s1 /\ notifications s1 = [MSG_AUTH_FAILED] /\
  reconnected s1 = false /\
  count is_schedule s1 = count is_schedule s /\
  count is_health_call s1 = count is_health_call s /\
  count is_callback_call s1 = count is_callback_call s.
Proof.
  intros [Hsingle Htracked Hcanc Hnotes Hsess] He Hev Hstep.
  unfold quiescent, notifications in *. open_state s.
  destruct Hev as [-> | ->]; simpl in Hstep.
  - destruct ah as [|n]; [discriminate|]. injection Hstep as <-.
    in_flight Hsingle Hnotes Hsess.
    unfold catch_error; simpl. rewrite He. settle.
    match goal with H : messages _ = _ |- _ => rewrite H end.
    repeat split.
  - destruct ac as [|n]; [discriminate|]. injection Hstep as <-.
    in_flight Hsingle Hnotes Hsess.
    unfold catch_error; simpl. rewrite He. settle.
    match goal with H : messages _ = _ |- _ => rewrite H end.
    repeat split.
Qed.

(** Starting an attempt does not invoke the callback. *)
Lemma timer_fire_callbacks (id : nat) (s s' : St) :
  stepE s (TimerFire id) = Some s' ->
  count is_callback_call s' = count is_callback_call s.
Proof.
  intros Hstep. open_state s.
  unfold find_timer in Hstep; simpl in Hstep.
  destruct (find _ tm); [|discriminate].
  destruct (_ <=? _); [|discriminate]. injection Hstep as <-.
  unfold attemptReconnect, call_healthCheck; simpl.
  destruct (rc || cn); settle; [reflexivity|].
  destruct (healthCheck cfg); simpl; lia.
Qed.

(** Until the next timer fires, an attempt that still awaits its health
    check has not invoked the callback. *)
Lemma awaiting_health_step (c : nat) (ev : Event) (s s' : St) :
  Inv s -> is_timer_fire ev = false -> stepE s ev = Some s' ->
  awaitingHealth s = O \/ count is_callback_call s = c ->
  awaitingHealth s' = O \/ count is_callback_call s' = c.
Proof.
  intros [Hsingle _ _ _ _] Hev Hstep H. open_state s.
  destruct ev; simpl in Hstep; try discriminate Hev.
  - destruct (0 <=? dt); [|discriminate]. injection Hstep as <-.
    settle; auto.
  - destruct ah as [|n]; [discriminate|]. injection Hstep as <-.
    left. unfold health_resolved; simpl. destruct cn; simpl; lia.
  - destruct ah as [|n]; [discriminate|]. injection Hstep as <-.
    left. unfold catch_error; simpl.
    destruct (is_auth_error e); simpl; [lia|]. destruct cn; simpl; lia.
  - destruct ac as [|n]; [discriminate|]. injection Hstep as <-.
    left. unfold callback_resolved; simpl. destruct cn; simpl; lia.
  - destruct ac as [|n]; [discriminate|]. notifier_case Hstep.
    left. destruct (is_auth_error e); simpl; lia.
  - destruct ac as [|n]; [discriminate|]. injection Hstep as <-.
    left. unfold catch_error; simpl.
    destruct (is_auth_error e); simpl; [lia|]. destruct cn; simpl; lia.
  - injection Hstep as <-. unfold cancel, clearTimeout; simpl.
    destruct tid, (onCleanup cfg); simpl; settle; auto.
Qed.

Lemma awaiting_health_run (c : nat) (tr : list Event) (s s' : St) :
  Inv s -> no_timer_fire tr = true -> runE s tr = Some s' ->
  awaitingHealth s = O \/ count is_callback_call s = c ->
  awaitingHealth s' = O \/ count is_callback_call s' = c.
Proof.
  revert s; induction tr as [|ev tr IH]; intros s Hinv Hnt Hrun H;
    simpl in *.
  - injection Hrun as <-; assumption.
  - apply andb_true_iff in Hnt as [Hev Hnt]. apply negb_true_iff in Hev.
    destruct (stepE s ev) as [s1|] eqn:E; [|discriminate].
    apply (IH s1); auto.
    + eapply Inv_step; eauto.
    + eapply awaiting_health_step; eauto.
Qed.

(** C2, amended.  At any point of any run, let a health check or the
    reconnection callback throw an Axios error whose response status is 401
    (which is what the catch block tests).  From
    then on, whatever happens: the auth-failure message is the only
    notification ever sent, the engine is not reconnected, no timer is
    armed, and no further timer is scheduled, health check started or
    callback invoked.  When the 401 came from the health check, the
    callback has not been invoked since the attempt began, that is since
    the last timer fired. *)
Theorem auth_failure_is_terminal
  (pre : list Event) (s : St) (e : JsError) (ev : Event) (s1 : St)
  (post : list Event) (s2 : St) :
  runE init pre = Some s ->
  is_auth_error e = true ->
  ev = HealthReject e \/ ev = CallbackReject e ->
  stepE s ev = Some s1 ->
  runE s1 post = Some s2 ->
  notifications s2 = [MSG_AUTH_FAILED] /\
  isReconnected s2 = false /\
  timers s2 = [] /\
  count is_schedule s2 = count is_schedule s /\
  count is_health_call s2 = count is_health_call s /\
  count is_callback_call s2 = count is_callback_call s /\
  (ev = HealthReject e ->
   forall pre1 id pre2 s0,
     pre = (pre1 ++ TimerFire id :: pre2)%list ->
     no_timer_fire pre2 = true ->
     runE init pre1 = Some s0 ->
     count is_callback_call s2 = count is_callback_call s0).
Proof.
  intros Hpre He Hev Hstep Hpost.
  pose proof (Inv_reachable _ _ Hpre) as Hinv.
  destruct (auth_reject_step _ _ _ _ Hinv He Hev Hstep)
    as (Hq1 & Hn1 & Hr1 & Hs1 & Hh1 & Hc1).
  destruct (quiescent_run _ _ _ Hq1 Hpost) as [[Ht2 _] [Hr Hs Hn Hcb Hh Hsch]].
  unfold isReconnected.
  repeat split; try congruence.
  intros -> pre1 id pre2 s0 -> Hnt Hpre1.
  apply run_app in Hpre as (s0' & Hpre1' & Hrest).
  assert (s0' = s0) as -> by congruence.
  cbn [run] in Hrest.
  destruct (stepE s0 (TimerFire id)) as [sa|] eqn:Hfire; [|discriminate].
  assert (Hinva : Inv sa).
  { eapply Inv_step; [exact (Inv_reachable _ _ Hpre1) | exact Hfire]. }
  destruct (awaiting_health_run (count is_callback_call s0) _ _ _
              Hinva Hnt Hrest) as [Hz|Hc].
  - right. apply (timer_fire_callbacks _ _ _ Hfire).
  - simpl in Hstep. rewrite Hz in Hstep. discriminate.
  - congruence.
Qed.

(** *** Cancelling while the callback is in flight *)

Lemma callback_resolved_step (v : JsValue TSession) (s s' : St) :
  Inv s -> stepE s (CallbackResolve v) = Some s' ->
  session s' = v /\ quiescent s'.
Proof.
  intros [Hsingle _ _ Hnotes Hsess] Hstep.
  unfold quiescent, notifications in *. open_state s.
  destruct ac as [|n]; [discriminate|]. injection Hstep as <-.
  in_flight Hsingle Hnotes Hsess.
  unfold callback_resolved; simpl. destruct cn; simpl; auto.
Qed.

Lemma step_cancel (s : St) : stepE s Cancel = Some (cancel cfg s).
Proof. reflexivity. Qed.

(** C3.  At a point of a run where the reconnection callback is in
    flight let [cancel()] be called, and let the callback resolve with
    [v] later, after any further events.  From then on [getSession()]
    returns [v], [isReconnected()] is false, and the success message has
    never been sent. *)
Theorem cancel_during_callback_keeps_session
  (pre mid post : list Event) (v : JsValue TSession) (s s2 s3 s4 : St) :
  runE init pre = Some s ->
  awaitingCallback s = 1%nat ->
  runE (cancel cfg s) mid = Some s2 ->
  stepE s2 (CallbackResolve v) = Some s3 ->
  runE s3 post = Some s4 ->
  getSession s4 = v /\
  isReconnected s4 = false /\
  sent MSG_RECONNECTED s4 = O.
Proof.
  intros Hpre Hflight Hmid Hstep Hpost.
  pose proof (Inv_reachable _ _ Hpre) as Hinv.
  assert (Hs : reconnected s = false /\ sent MSG_RECONNECTED s = O).
  { unfold sent.
    destruct (inv_notes _ Hinv)
      as [[-> ->]|[(_ & _ & _ & F & _)|[(_ & _ & _ & _ & F)|(_ & _ & _ & _ & F)]]];
      [auto | congruence ..]. }
  destruct Hs as [Hr Hsent].
  destruct (cancel_stops _ Hinv) as [Hst0 Hnn0].
  assert (Hinv0 : Inv (cancel cfg s)).
  { eapply Inv_step; [exact Hinv | apply step_cancel]. }
  destruct (stopped_run _ _ _ Hst0 Hmid) as [Hst2 Hnn2].
  pose proof (Inv_run _ _ _ Hinv0 Hmid) as Hinv2.
  destruct (stopped_step _ _ _ Hst2 Hstep) as [_ Hnn3].
  destruct (callback_resolved_step _ _ _ Hinv2 Hstep) as [Hv Hq3].
  destruct (quiescent_run _ _ _ Hq3 Hpost) as [_ [Hr4 Hs4 Hn4 _ _ _]].
  unfold getSession, isReconnected. repeat split.
  - congruence.
  - rewrite Hr4, (nn_reconnected _ _ Hnn3), (nn_reconnected _ _ Hnn2),
      (nn_reconnected _ _ Hnn0). exact Hr.
  - assert (H4 : sent MSG_RECONNECTED s4 = sent MSG_RECONNECTED s3)
      by (unfold sent; rewrite Hn4; reflexivity).
    rewrite H4, (nn_success _ _ Hnn3), (nn_success _ _ Hnn2),
      (nn_success _ _ Hnn0). exact Hsent.
Qed.

(** *** One session per handle *)

Lemma dormant_no_resolve (ev : Event) (s s' : St) :
  dormant s -> stepE s ev = Some s' -> is_callback_resolve ev = false.
Proof.
  intros (_ & Hc & _) Hstep. destruct ev; try reflexivity;
    simpl in Hstep; rewrite Hc in Hstep; discriminate.
Qed.

Lemma dormant_resolves (tr : list Event) (s s' : St) :
  dormant s -> runE s tr = Some s' -> filter is_callback_resolve tr = [].
Proof.
  revert s; induction tr as [|ev tr IH]; intros s Hq Hrun; simpl in *.
  - reflexivity.
  - destruct (stepE s ev) as [s1|] eqn:E; [|discriminate].
    rewrite (dormant_no_resolve _ _ _ Hq E).
    destruct (dormant_step _ _ _ Hq E) as [Hq1 _].
    exact (IH _ Hq1 Hrun).
Qed.

(** Once [onReconnected] has resolved, whatever the notifier does, no
    attempt is suspended and none will begin. *)
Lemma resolution_step (ev : Event) (s s' : St) :
  Inv s -> is_callback_resolve ev = true -> stepE s ev = Some s' ->
  dormant s'.
Proof.
  intros [Hsingle _ _ Hnotes Hsess] Hev Hstep.
  unfold quiescent, dormant, notifications in *. open_state s.
  destruct ev; try discriminate Hev; simpl in Hstep.
  - destruct ac as [|n]; [discriminate|]. injection Hstep as <-.
    in_flight Hsingle Hnotes Hsess.
    unfold callback_resolved; simpl. destruct cn; simpl; auto.
  - destruct ac as [|n]; [discriminate|]. notifier_case Hstep.
    in_flight Hsingle Hnotes Hsess.
    destruct (is_auth_error e); simpl; auto.
Qed.

Lemma resolves_at_most_once (tr : list Event) (s s' : St) :
  Inv s -> runE s tr = Some s' ->
  (List.length (filter is_callback_resolve tr) <= 1)%nat.
Proof.
  revert s; induction tr as [|ev tr IH]; intros s Hinv Hrun; simpl in *.
  - lia.
  - destruct (stepE s ev) as [s1|] eqn:E; [|discriminate].
    destruct (is_callback_resolve ev) eqn:R.
    + pose proof (resolution_step _ _ _ Hinv R E) as Hq1.
      rewrite (dormant_resolves _ _ _ Hq1 Hrun). simpl; lia.
    + apply (IH s1); [eapply Inv_step; eauto | exact Hrun].
Qed.

Lemma sessions_agree (tr : list Event) (s : St) :
  Inv s ->
  exists w, forall x, In x (trajE s tr) -> session x = JsNull \/ session x = w.
Proof.
  revert s; induction tr as [|ev tr IH]; intros s Hinv.
  - exists (session s). intros x [<-|[]]. auto.
  - simpl. destruct (stepE s ev) as [s1|] eqn:E.
    + destruct (inv_session _ Hinv) as [Hnull|Hq].
      * destruct (IH s1 (Inv_step _ _ _ Hinv E)) as [w Hw].
        exists w. intros x [<-|Hx]; auto.
      * exists (session s). intros x [<-|Hx]; [auto|]. right.
        destruct (dormant_step _ _ _ Hq E) as [Hq1 [_ Hs1 _ _ _ _]].
        destruct (trajectory_reachable _ _ _ Hx) as [tr1 Hrun1].
        destruct (dormant_run _ _ _ Hq1 Hrun1) as [_ [_ Hsx _ _ _ _]].
        congruence.
    + exists (session s). intros x [<-|[]]. auto.
Qed.

(** C6.  In every run from [startOfflineReconnection]: once a state has
    [isReconnected()] true, so has every later state; at most one
    resolution of the reconnection callback occurs, so the session is
    stored at most once; and any two states whose [getSession()] is
    neither null nor undefined hold the same session. *)
Theorem reconnected_latches_single_session (tr : list Event) (s : St) :
  runE init tr = Some s ->
  (forall l1 x l2 y,
      trajE init tr = (l1 ++ x :: l2)%list -> In y l2 ->
      isReconnected x = true -> isReconnected y = true) /\
  (List.length (filter is_callback_resolve tr) <= 1)%nat /\
  (forall x y,
      In x (trajE init tr) -> In y (trajE init tr) ->
      is_nullish (getSession x) = false ->
      is_nullish (getSession y) = false ->
      getSession x = getSession y).
Proof.
  intros Hrun. repeat split.
  - intros l1 x l2 y Hsplit Hy Hx.
    destruct (trajectory_split _ _ _ _ _ Hsplit) as (tr1 & tr2 & _ & Htr2 & _).
    apply (trajectory_latched tr2 x y Hx).
    rewrite Htr2. right; exact Hy.
  - exact (resolves_at_most_once _ _ _ Inv_init Hrun).
  - intros x y Hx Hy Nx Ny. unfold getSession in *.
    destruct (sessions_agree tr init Inv_init) as [w Hw].
    destruct (Hw x Hx) as [Ex|Ex]; [rewrite Ex in Nx; discriminate|].
    destruct (Hw y Hy) as [Ey|Ey]; [rewrite Ey in Ny; discriminate|].
    congruence.
Qed.

(** *** Before the initial delay has elapsed *)

Lemma clock_step (s s' : St) (ev : Event) :
  stepE s ev = Some s' -> clock s <= clock s'.
Proof.
  intros Hstep. open_state s.
  destruct ev; simpl in Hstep.
  - destruct (0 <=? dt) eqn:D; [|discriminate]. injection Hstep as <-.
    simpl. apply Z.leb_le in D. lia.
  - unfold find_timer in Hstep; simpl in Hstep.
    destruct (find _ tm); [|discriminate].
    destruct (_ <=? _); [|discriminate]. injection Hstep as <-.
    unfold attemptReconnect; simpl. destruct (rc || cn); simpl; lia.
  - destruct ah; [discriminate|]. injection Hstep as <-.
    unfold health_resolved; simpl. destruct cn; simpl; lia.
  - destruct ah; [discriminate|]. injection Hstep as <-.
    unfold catch_error; simpl.
    destruct (is_auth_error e); simpl; [lia|]. destruct cn; simpl; lia.
  - destruct ac; [discriminate|]. injection Hstep as <-.
    unfold callback_resolved; simpl. destruct cn; simpl; lia.
  - destruct ac; [discriminate|]. notifier_case Hstep.
    destruct (is_auth_error e); simpl; lia.
  - destruct ac; [discriminate|]. injection Hstep as <-.
    unfold catch_error; simpl.
    destruct (is_auth_error e); simpl; [lia|]. destruct cn; simpl; lia.
  - injection Hstep as <-. unfold cancel; simpl.
    destruct tid, (onCleanup cfg); simpl; lia.
Qed.

Lemma untouched_init : untouched cfg init.
Proof.
  intros _. unfold startOfflineReconnection, first_due; simpl.
  repeat split. intros t [<-|[]]. reflexivity.
Qed.

Lemma untouched_step (s s' : St) (ev : Event) :
  untouched cfg s -> stepE s ev = Some s' -> untouched cfg s'.
Proof.
  intros Hs Hstep Hclock.
  pose proof (clock_step _ _ _ Hstep) as Hmono.
  destruct (Hs ltac:(lia)) as (Hh & Hc & Hcb & Hdue).
  clear Hs. open_state s. subst.
  destruct ev; simpl in Hstep; try discriminate.
  - destruct (0 <=? dt); [|discriminate]. injection Hstep as <-.
    simpl. auto.
  - unfold find_timer in Hstep; simpl in Hstep.
    destruct (find _ tm) as [t|] eqn:F; [|discriminate].
    apply find_some in F as [Hin _].
    rewrite (Hdue t Hin) in Hstep.
    destruct (first_due cfg <=? ck) eqn:L; [|discriminate].
    apply Z.leb_le in L. lia.
  - injection Hstep as <-. clear Hmono Hclock.
    unfold count in *; simpl in Hcb.
    unfold cancel, clearTimeout; simpl.
    destruct tid, (onCleanup cfg); simpl;
      rewrite ?filter_app, ?length_app; simpl;
      repeat split; try lia;
      intros t Ht; try apply filter_In in Ht as [Ht _]; auto.
Qed.

Lemma untouched_reachable (tr : list Event) (s : St) :
  runE init tr = Some s -> untouched cfg s.
Proof.
  apply (run_preserves (untouched cfg)); [|exact untouched_init].
  intros; eapply untouched_step; eauto.
Qed.

(** *** [cancel()] *)

Lemma cancel_cleanup (s : St) :
  count is_cleanup_call (cancel cfg s) =
  (count is_cleanup_call s + if onCleanup cfg then 1 else 0)%nat.
Proof.
  open_state s. unfold cancel, clearTimeout; simpl.
  destruct tid, (onCleanup cfg); simpl; settle; reflexivity.
Qed.

Lemma cancel_again (s : St) :
  Inv s -> cancelled s = true ->
  cancel cfg s = if onCleanup cfg then emit CallOnCleanup s else s.
Proof.
  intros Hinv Hc. destruct (inv_cancelled _ Hinv Hc) as [_ Hid].
  open_state s. subst. unfold cancel; simpl. reflexivity.
Qed.

(** C7.  [cancel()] can be called in every state, any number of times.
    Each call invokes [onCleanup] (when supplied) exactly once, within the
    call.  A call made when the engine is already cancelled changes
    nothing else.  After a call, whatever happens next, no timer is armed
    and no further timer is scheduled, health check started or callback
    invoked; if the call comes while the clock is still short of the
    initial delay, the callback is never invoked at all. *)
Theorem cancel_is_safe_and_final (pre post : list Event) (s s' : St) :
  runE init pre = Some s ->
  runE (cancel cfg s) post = Some s' ->
  stepE s Cancel = Some (cancel cfg s) /\
  count is_cleanup_call (cancel cfg s) =
    (count is_cleanup_call s + if onCleanup cfg then 1 else 0)%nat /\
  (cancelled s = true ->
   cancel cfg s = if onCleanup cfg then emit CallOnCleanup s else s) /\
  timers s' = [] /\
  count is_schedule s' = count is_schedule s /\
  count is_health_call s' = count is_health_call s /\
  count is_callback_call s' = count is_callback_call s /\
  (clock s < first_due cfg -> count is_callback_call s' = O).
Proof.
  intros Hpre Hpost.
  pose proof (Inv_reachable _ _ Hpre) as Hinv.
  destruct (cancel_stops _ Hinv) as [Hst0 Hnn0].
  destruct (stopped_run _ _ _ Hst0 Hpost) as [[_ Ht] Hnn].
  pose proof (no_new_attempt_trans _ _ _ Hnn0 Hnn) as [Hsch Hh Hcb _ _].
  repeat split; auto.
  - apply cancel_cleanup.
  - apply cancel_again; assumption.
  - intros Hclock.
    destruct (untouched_reachable _ _ Hpre Hclock) as (_ & _ & H0 & _).
    congruence.
Qed.

(** *** Notifications *)

(** The auth-failure message follows the success message only in the turn
    in which the notifier throws an Axios 401. *)
Lemma both_sent_step (s s' : St) (ev : Event) :
  Inv s -> stepE s ev = Some s' ->
  notifications s' = [MSG_RECONNECTED; MSG_AUTH_FAILED] ->
  notifications s = [MSG_RECONNECTED; MSG_AUTH_FAILED] \/
  is_auth_notifier_throw ev = true.
Proof.
  intros [Hsingle _ _ Hnotes Hsess] Hstep.
  unfold quiescent, dormant, notifications in *. open_state s.
  destruct ev; simpl in Hstep.
  - destruct (0 <=? dt); [|discriminate]. injection Hstep as <-. auto.
  - unfold find_timer in Hstep; simpl in Hstep.
    destruct (find _ tm); [|discriminate].
    destruct (_ <=? _); [|discriminate]. injection Hstep as <-.
    unfold attemptReconnect, call_healthCheck; simpl.
    destruct (rc || cn); simpl; [auto|].
    rewrite messages_app. destruct (healthCheck cfg); simpl;
      rewrite app_nil_r; auto.
  - destruct ah as [|n]; [discriminate|]. injection Hstep as <-.
    unfold health_resolved; simpl.
    destruct cn; simpl; rewrite ?messages_app; simpl;
      rewrite ?app_nil_r; auto.
  - destruct ah as [|n]; [discriminate|]. injection Hstep as <-.
    in_flight Hsingle Hnotes Hsess.
    unfold catch_error; simpl.
    destruct (is_auth_error e), cn; simpl; rewrite ?messages_app; simpl;
      match goal with H : messages _ = _ |- _ => rewrite H end;
      discriminate.
  - destruct ac as [|n]; [discriminate|]. injection Hstep as <-.
    in_flight Hsingle Hnotes Hsess.
    unfold callback_resolved; simpl.
    destruct cn; simpl; rewrite ?messages_app; simpl;
      match goal with H : messages _ = _ |- _ => rewrite H end;
      discriminate.
  - destruct ac as [|n]; [discriminate|]. notifier_case Hstep.
    in_flight Hsingle Hnotes Hsess.
    destruct (is_auth_error e); simpl; [auto|].
    rewrite ?messages_app; simpl;
      match goal with H : messages _ = _ |- _ => rewrite H end;
      discriminate.
  - destruct ac as [|n]; [discriminate|]. injection Hstep as <-.
    in_flight Hsingle Hnotes Hsess.
    unfold catch_error; simpl.
    destruct (is_auth_error e), cn; simpl; rewrite ?messages_app; simpl;
      match goal with H : messages _ = _ |- _ => rewrite H end;
      discriminate.
  - injection Hstep as <-. unfold cancel; simpl.
    destruct tid, (onCleanup cfg); simpl; rewrite ?messages_app; simpl;
      rewrite ?app_nil_r; auto.
Qed.

Lemma both_sent_run (tr : list Event) (s s' : St) :
  Inv s -> runE s tr = Some s' ->
  notifications s' = [MSG_RECONNECTED; MSG_AUTH_FAILED] ->
  notifications s = [MSG_RECONNECTED; MSG_AUTH_FAILED] \/
  existsb is_auth_notifier_throw tr = true.
Proof.
  revert s; induction tr as [|ev tr IH]; intros s Hinv Hrun Hboth;
    simpl in Hrun.
  - injection Hrun as <-. auto.
  - destruct (stepE s ev) as [s1|] eqn:E; [|discriminate].
    cbn [existsb].
    destruct (IH s1 (Inv_step _ _ _ Hinv E) Hrun Hboth) as [H1| ->];
      [|right; apply orb_true_r].
    destruct (both_sent_step _ _ _ Hinv E H1) as [H| ->]; auto.
Qed.

Lemma sent_cases (l : list string) :
  l = [] \/ l = [MSG_RECONNECTED] \/ l = [MSG_AUTH_FAILED] \/
  l = [MSG_RECONNECTED; MSG_AUTH_FAILED] ->
  (count_occ string_dec l MSG_RECONNECTED <= 1)%nat /\
  (count_occ string_dec l MSG_AUTH_FAILED <= 1)%nat /\
  ((1 <= count_occ string_dec l MSG_RECONNECTED)%nat /\
   (1 <= count_occ string_dec l MSG_AUTH_FAILED)%nat ->
   l = [MSG_RECONNECTED; MSG_AUTH_FAILED]).
Proof.
  intros [-> | [-> | [-> | ->]]];
    repeat first [ rewrite count_occ_cons_eq by reflexivity
                 | rewrite count_occ_cons_neq by discriminate ];
    cbn [count_occ];
    (split; [lia|]); (split; [lia|]);
    intros [? ?]; try lia; reflexivity.
Qed.

(** C8, amended.  In every run the success message is sent at most once
    and the auth-failure message is sent at most once.  They are both sent
    only in a run in which the notifier itself, called with the success
    message, throws an Axios error whose response status is 401; in every
    other run they are never both sent. *)
Theorem notifications_at_most_once (tr : list Event) (s : St) :
  runE init tr = Some s ->
  (sent MSG_RECONNECTED s <= 1)%nat /\
  (sent MSG_AUTH_FAILED s <= 1)%nat /\
  ((1 <= sent MSG_RECONNECTED s)%nat /\ (1 <= sent MSG_AUTH_FAILED s)%nat ->
   exists v e, In (NotifierThrows v e) tr /\ is_auth_error e = true) /\
  ((forall v e, In (NotifierThrows v e) tr -> is_auth_error e = false) ->
   ~ ((1 <= sent MSG_RECONNECTED s)%nat /\ (1 <= sent MSG_AUTH_FAILED s)%nat)).
Proof.
  intros Hrun. pose proof (Inv_reachable _ _ Hrun) as Hinv.
  unfold sent.
  assert (Hl : notifications s = [] \/ notifications s = [MSG_RECONNECTED] \/
               notifications s = [MSG_AUTH_FAILED] \/
               notifications s = [MSG_RECONNECTED; MSG_AUTH_FAILED]).
  { destruct (inv_notes _ Hinv) as [[H _]|[[H _]|[[H _]|[H _]]]]; auto. }
  destruct (sent_cases _ Hl) as (H1 & H2 & H3).
  assert (Hthrow : (1 <= count_occ string_dec (notifications s) MSG_RECONNECTED)%nat /\
                   (1 <= count_occ string_dec (notifications s) MSG_AUTH_FAILED)%nat ->
                   exists v e, In (NotifierThrows v e) tr /\ is_auth_error e = true).
  { intros Hboth. specialize (H3 Hboth).
    destruct (both_sent_run _ _ _ Inv_init Hrun H3) as [F|Hex];
      [discriminate F|].
    apply existsb_exists in Hex as (ev & Hin & Hev).
    destruct ev; try discriminate Hev.
    exists v, e. split; assumption. }
  split; [exact H1|]. split; [exact H2|]. split; [exact Hthrow|].
  intros Hnone Hboth.
  destruct (Hthrow Hboth) as (v & e & Hin & He).
  rewrite (Hnone v e Hin) in He. discriminate He.
Qed.

(** C10.  When the reconnection callback resolves with null or
    undefined and the engine is not cancelled, the attempt counts as a
    success: from then on [isReconnected()] is true, the success message
    is the one notification sent, and [getSession()] returns that null or
    undefined value. *)
Theorem nullish_session_still_reconnects
  (pre post : list Event) (v : JsValue TSession) (s s1 s2 : St) :
  runE init pre = Some s ->
  cancelled s = false ->
  is_nullish v = true ->
  stepE s (CallbackResolve v) = Some s1 ->
  runE s1 post = Some s2 ->
  isReconnected s2 = true /\
  notifications s2 = [MSG_RECONNECTED] /\
  getSession s2 = v /\
  is_nullish (getSession s2) = true.
Proof.
  intros Hpre Hc Hv Hstep Hpost.
  pose proof (Inv_reachable _ _ Hpre) as Hinv.
  destruct (success_step _ _ _ Hinv Hc Hstep) as (Hq1 & Hn1 & Hr1 & Hs1 & _).
  destruct (quiescent_run _ _ _ Hq1 Hpost) as [_ [Hr Hs Hn _ _ _]].
  unfold isReconnected, getSession.
  assert (Hsv : session s2 = v) by congruence.
  rewrite Hsv. repeat split; congruence.
Qed.

(** *** Scheduling *)

(** X1.  At any time at most one timer is armed or one attempt is in
    flight, never both. *)
Theorem single_flight (tr : list Event) (s : St) :
  runE init tr = Some s ->
  (List.length (timers s) + awaitingHealth s + awaitingCallback s <= 1)%nat.
Proof. intros Hrun. exact (inv_single _ (Inv_reachable _ _ Hrun)). Qed.

(** X2.  An error other than a 401, thrown by the health check or by the
    callback of an engine that is not cancelled, is retried: the failure
    count goes up by one and exactly one timer is armed, for the delay
    [exponentialBackoffDelay(failureCount, 5000, 60000, 10)] computed with the
    new count; nothing is notified. *)
Theorem retryable_error_schedules_backoff
  (pre : list Event) (s s' : St) (e : JsError) (ev : Event) :
  runE init pre = Some s ->
  is_auth_error e = false ->
  cancelled s = false ->
  ev = HealthReject e \/ ev = CallbackReject e ->
  stepE s ev = Some s' ->
  failureCount s' = failureCount s + 1 /\
  timers s' =
    [ mkTimer (nextTimer s)
        (clock s +
         effective_delay
           (backoff (randomDraws s) (failureCount s + 1) 5000 60000 10)) ] /\
  timeoutId s' = Some (nextTimer s) /\
  notifications s' = notifications s /\
  count is_schedule s' = (count is_schedule s + 1)%nat.
Proof.
  intros Hpre He Hc Hev Hstep.
  destruct (Inv_reachable _ _ Hpre) as [Hsingle _ _ Hnotes Hsess].
  unfold quiescent, notifications in *. open_state s. subst.
  destruct Hev as [-> | ->]; simpl in Hstep.
  - destruct ah as [|n]; [discriminate|]. injection Hstep as <-.
    in_flight Hsingle Hnotes Hsess.
    unfold catch_error; simpl. rewrite He. settle.
    repeat split; lia.
  - destruct ac as [|n]; [discriminate|]. injection Hstep as <-.
    in_flight Hsingle Hnotes Hsess.
    unfold catch_error; simpl. rewrite He. settle.
    repeat split; lia.
Qed.

(** *** Counting attempts *)

Lemma filter_length_le {A : Type} (p : A -> bool) (l : list A) :
  (List.length (filter p l) <= List.length l)%nat.
Proof.
  induction l as [|a l IH]; simpl; [lia|]. destruct (p a); simpl; lia.
Qed.

Lemma accounted_init : accounted init.
Proof. unfold accounted, startOfflineReconnection, count; simpl. lia. Qed.

Lemma accounted_step (s s' : St) (ev : Event) :
  Inv s -> accounted s -> stepE s ev = Some s' -> accounted s'.
Proof.
  intros [Hsingle _ _ _ _] (H1 & H2 & H3) Hstep.
  unfold accounted, count in *. open_state s.
  destruct ev; simpl in Hstep.
  - destruct (0 <=? dt); [|discriminate]. injection Hstep as <-.
    simpl. lia.
  - unfold find_timer in Hstep; simpl in Hstep.
    destruct tm as [|t tm']; [discriminate|].
    assert (tm' = [] /\ ah = O /\ ac = O) as (-> & -> & ->).
    { destruct tm'; simpl in Hsingle; [split; [reflexivity | lia] | lia]. }
    destruct (find _ [t]) as [t'|] eqn:F; [|discriminate].
    apply find_single in F as [-> Hfilter].
    destruct (timer_due t <=? ck); [|discriminate].
    injection Hstep as <-.
    unfold attemptReconnect, clearTimeout, call_healthCheck; simpl.
    rewrite Hfilter; unfold with_timers; simpl.
    destruct (rc || cn); simpl in *; rewrite ?filter_app, ?length_app; simpl.
    + lia.
    + destruct (healthCheck cfg); simpl; lia.
  - destruct ah as [|n]; [discriminate|]. injection Hstep as <-.
    unfold health_resolved; simpl.
    destruct cn; simpl in *; rewrite ?filter_app, ?length_app; simpl; lia.
  - destruct ah as [|n]; [discriminate|]. injection Hstep as <-.
    unfold catch_error; simpl.
    destruct (is_auth_error e); simpl in *;
      [rewrite ?filter_app, ?length_app; simpl; lia|].
    destruct cn; simpl in *; rewrite ?filter_app, ?length_app; simpl; lia.
  - destruct ac as [|n]; [discriminate|]. injection Hstep as <-.
    unfold callback_resolved; simpl.
    destruct cn; simpl in *; rewrite ?filter_app, ?length_app; simpl; lia.
  - destruct ac as [|n]; [discriminate|]. notifier_case Hstep.
    destruct (is_auth_error e); simpl in *;
      rewrite ?filter_app, ?length_app; simpl; lia.
  - destruct ac as [|n]; [discriminate|]. injection Hstep as <-.
    unfold catch_error; simpl.
    destruct (is_auth_error e); simpl in *;
      [rewrite ?filter_app, ?length_app; simpl; lia|].
    destruct cn; simpl in *; rewrite ?filter_app, ?length_app; simpl; lia.
  - injection Hstep as <-. unfold cancel, clearTimeout; simpl.
    destruct tid as [id|], (onCleanup cfg); simpl in *;
      rewrite ?filter_app, ?length_app; simpl;
      try pose proof (filter_length_le (other_timer id) tm); lia.
Qed.

(** X13.  Every attempt is paid for: in every run the reconnection callback
    has been invoked at most as often as health checks were started, health
    checks at most as often as timers were scheduled, and timers at most
    once at the start and once per failure counted; so at most
    [failureCount + 1] health checks are ever made. *)
Theorem attempts_are_accounted_for (tr : list Event) (s : St) :
  runE init tr = Some s ->
  (count is_callback_call s <= count is_health_call s)%nat /\
  (count is_health_call s <= count is_schedule s)%nat /\
  Z.of_nat (count is_schedule s) <= failureCount s + 1 /\
  Z.of_nat (count is_health_call s) <= failureCount s + 1.
Proof.
  intros Hrun.
  assert (H : Inv s /\ accounted s).
  { apply (run_preserves (fun x => Inv x /\ accounted x)) with (tr := tr) (s := init);
      [| split; [exact Inv_init | exact accounted_init] | exact Hrun].
    intros x ev x' [Hi Ha] Hstep. split.
    - eapply Inv_step; eauto.
    - eapply accounted_step; eauto. }
  destruct H as [_ (H1 & H2 & H3)]. repeat split; lia.
Qed.

Lemma failure_count_step (s s' : St) (ev : Event) :
  stepE s ev = Some s' ->
  failureCount s' = failureCount s + (if is_retryable_failure ev then 1 else 0) /\
  randomDraws s' = (randomDraws s + if is_retryable_failure ev then 1 else 0)%nat.
Proof.
  intros Hstep. open_state s.
  destruct ev; simpl in Hstep.
  - destruct (0 <=? dt); [|discriminate]. injection Hstep as <-.
    simpl. split; lia.
  - unfold find_timer in Hstep; simpl in Hstep.
    destruct (find _ tm); [|discriminate].
    destruct (_ <=? _); [|discriminate]. injection Hstep as <-.
    unfold attemptReconnect; simpl. destruct (rc || cn); simpl; split; lia.
  - destruct ah; [discriminate|]. injection Hstep as <-.
    unfold health_resolved; simpl. destruct cn; simpl; split; lia.
  - destruct ah; [discriminate|]. injection Hstep as <-.
    unfold catch_error; simpl.
    destruct (is_auth_error e); simpl; [split; lia|].
    destruct cn; simpl; split; lia.
  - destruct ac; [discriminate|]. injection Hstep as <-.
    unfold callback_resolved; simpl. destruct cn; simpl; split; lia.
  - destruct ac; [discriminate|]. notifier_case Hstep.
    destruct (is_auth_error e); simpl; split; lia.
  - destruct ac; [discriminate|]. injection Hstep as <-.
    unfold catch_error; simpl.
    destruct (is_auth_error e); simpl; [split; lia|].
    destruct cn; simpl; split; lia.
  - injection Hstep as <-. unfold cancel; simpl.
    destruct tid, (onCleanup cfg); simpl; split; lia.
Qed.

Lemma failure_count_run (tr : list Event) (s s' : St) :
  runE s tr = Some s' ->
  failureCount s' =
    failureCount s + Z.of_nat (List.length (filter is_retryable_failure tr)) /\
  randomDraws s' =
    (randomDraws s + List.length (filter is_retryable_failure tr))%nat.
Proof.
  revert s; induction tr as [|ev tr IH]; intros s Hrun; simpl in Hrun.
  - injection Hrun as <-. simpl. split; lia.
  - destruct (stepE s ev) as [s1|] eqn:E; [|discriminate].
    destruct (failure_count_step _ _ _ E) as [Hf Hd].
    destruct (IH _ Hrun) as [Hf' Hd'].
    simpl. destruct (is_retryable_failure ev); simpl; split; lia.
Qed.

(** X14.  The failure counter counts exactly the errors that are retried:
    after a run it equals the number of turns that ended in the catch block
    with something other than an Axios 401, whether thrown by the health
    check, by the callback or by the notifier called with the success
    message, cancelled or not; and the backoff function was evaluated that
    many times. *)
Theorem failure_count_counts_retryable_errors (tr : list Event) (s : St) :
  runE init tr = Some s ->
  failureCount s = Z.of_nat (List.length (filter is_retryable_failure tr)) /\
  randomDraws s = List.length (filter is_retryable_failure tr).
Proof.
  intros Hrun. destruct (failure_count_run _ _ _ Hrun) as [Hf Hd].
  split; [exact Hf | exact Hd].
Qed.

(** *** What the handle shows *)

Lemma results_step (s s' : St) (ev : Event) :
  is_callback_resolve ev = false -> stepE s ev = Some s' ->
  session s' = session s /\ reconnected s' = reconnected s.
Proof.
  intros Hev Hstep. open_state s.
  destruct ev; simpl in Hstep; try discriminate Hev.
  - destruct (0 <=? dt); [|discriminate]. injection Hstep as <-. auto.
  - unfold find_timer in Hstep; simpl in Hstep.
    destruct (find _ tm); [|discriminate].
    destruct (_ <=? _); [|discriminate]. injection Hstep as <-.
    unfold attemptReconnect; simpl. destruct (rc || cn); auto.
  - destruct ah; [discriminate|]. injection Hstep as <-.
    unfold health_resolved; simpl. destruct cn; auto.
  - destruct ah; [discriminate|]. injection Hstep as <-.
    unfold catch_error; simpl.
    destruct (is_auth_error e); [auto|]. destruct cn; auto.
  - destruct ac; [discriminate|]. injection Hstep as <-.
    unfold catch_error; simpl.
    destruct (is_auth_error e); [auto|]. destruct cn; auto.
  - injection Hstep as <-. unfold cancel; simpl.
    destruct tid, (onCleanup cfg); auto.
Qed.

Lemma results_run (tr : list Event) (s s' : St) :
  filter is_callback_resolve tr = [] -> runE s tr = Some s' ->
  session s' = session s /\ reconnected s' = reconnected s.
Proof.
  revert s; induction tr as [|ev tr IH]; intros s Hf Hrun; simpl in *.
  - injection Hrun as <-. auto.
  - destruct (is_callback_resolve ev) eqn:R; [discriminate|].
    destruct (stepE s ev) as [s1|] eqn:E; [|discriminate].
    destruct (results_step _ _ _ R E) as [H1 H2].
    destruct (IH _ Hf Hrun) as [H3 H4]. split; congruence.
Qed.

(** X15.  The session and the reconnected flag change only when the
    reconnection callback resolves: over any stretch of a run in which it
    does not, [getSession()] and [isReconnected()] keep their values; so
    until the callback has resolved for the first time [getSession()] is
    null, [isReconnected()] is false and no success has been reported. *)
Theorem results_change_only_when_callback_resolves
  (pre tr : list Event) (s s' : St) :
  runE init pre = Some s ->
  runE s tr = Some s' ->
  filter is_callback_resolve tr = [] ->
  getSession s' = getSession s /\
  isReconnected s' = isReconnected s /\
  (filter is_callback_resolve pre = [] ->
   getSession s' = JsNull /\ isReconnected s' = false /\
   sent MSG_RECONNECTED s' = O).
Proof.
  intros Hpre Hrun Hf. unfold getSession, isReconnected.
  destruct (results_run _ _ _ Hf Hrun) as [Hs Hr].
  split; [exact Hs|]. split; [exact Hr|].
  intros Hpre0.
  destruct (results_run _ _ _ Hpre0 Hpre) as [Hs0 Hr0].
  simpl in Hs0, Hr0.
  assert (Hfinal : reconnected s' = false) by congruence.
  split; [congruence|]. split; [exact Hfinal|].
  assert (Hall : runE init (pre ++ tr) = Some s')
    by (apply run_app; exists s; auto).
  unfold sent.
  destruct (inv_notes _ (Inv_reachable _ _ Hall))
    as [[-> _]|[(_ & F & _)|[(-> & _ & _)|(_ & F & _)]]];
    [reflexivity | congruence | | congruence].
  cbn [count_occ].
  destruct (string_dec MSG_AUTH_FAILED MSG_RECONNECTED) as [E|_];
    [discriminate E | reflexivity].
Qed.

(** X16.  The flag and the notification agree: in every run
    [isReconnected()] is true exactly when the success message has been
    sent.  Once the auth-failure message has been sent the engine is at
    rest, and it is not reconnected unless the notifier, called with the
    success message, threw an Axios 401. *)
Theorem success_is_reported_iff_reconnected (tr : list Event) (s : St) :
  runE init tr = Some s ->
  (isReconnected s = true <-> sent MSG_RECONNECTED s = 1%nat) /\
  (sent MSG_AUTH_FAILED s = 1%nat ->
   timers s = [] /\ awaitingHealth s = O /\ awaitingCallback s = O /\
   (existsb is_auth_notifier_throw tr = false -> isReconnected s = false)).
Proof.
  intros Hrun. unfold isReconnected, sent.
  pose proof (both_sent_run _ _ _ Inv_init Hrun) as Hboth.
  destruct (inv_notes _ (Inv_reachable _ _ Hrun))
    as [[Hn Hr]|[(Hn & Hr & Hq)|[(Hn & Hr & Hq)|(Hn & Hr & Hq)]]];
    rewrite Hn in *;
    repeat first [ rewrite count_occ_cons_eq by reflexivity
                 | rewrite count_occ_cons_neq by discriminate ];
    cbn [count_occ]; rewrite Hr.
  - split; [split; discriminate | discriminate].
  - split; [split; reflexivity | discriminate].
  - split; [split; discriminate|].
    intros _. destruct Hq as (? & ? & ?). auto.
  - split; [split; reflexivity|].
    intros _. destruct Hq as (? & ? & ?).
    repeat split; auto.
    intros Hnone. destruct (Hboth eq_refl) as [F|F]; [discriminate F|].
    rewrite F in Hnone. discriminate Hnone.
Qed.

(** X17.  [cancel()] freezes the outcome: from the call on, whatever
    happens, [isReconnected()] keeps the value it had and the engine stays
    cancelled; a cancel after success also leaves the session and the
    notifications as they were, and no success is reported after a cancel
    that came first. *)
Theorem cancel_freezes_the_outcome (pre post : list Event) (s s' : St) :
  runE init pre = Some s ->
  runE (cancel cfg s) post = Some s' ->
  cancelled s' = true /\
  isReconnected s' = isReconnected s /\
  sent MSG_RECONNECTED s' = sent MSG_RECONNECTED s /\
  (isReconnected s = true ->
   getSession s' = getSession s /\ notifications s' = notifications s).
Proof.
  intros Hpre Hpost.
  pose proof (Inv_reachable _ _ Hpre) as Hinv.
  destruct (cancel_stops _ Hinv) as [Hst0 Hnn0].
  destruct (stopped_run _ _ _ Hst0 Hpost) as [[Hc _] Hnn].
  pose proof (no_new_attempt_trans _ _ _ Hnn0 Hnn) as [_ _ _ Hr Hs].
  unfold isReconnected, getSession.
  split; [exact Hc|]. split; [exact Hr|]. split; [exact Hs|].
  intros Hrec.
  assert (Hq : dormant s).
  { destruct (inv_notes _ Hinv)
      as [[_ F]|[(_ & _ & Hq)|[(_ & F & _)|(_ & _ & Hq)]]];
      first [congruence | exact Hq | exact (quiescent_dormant _ Hq)]. }
  assert (Hall : runE s (Cancel :: post) = Some s') by exact Hpost.
  destruct (dormant_run _ _ _ Hq Hall) as [_ [_ Hses Hn _ _ _]].
  split; assumption.
Qed.

(** X18.  The default health check never stops the engine for
    authentication: [validateStatus] accepts every status below 500, so a 401
    response resolves the health check as any reachable server does, what it
    throws is never the 401 that [attemptReconnect] treats as final, and no
    settlement of it sends a notification. *)
Theorem default_health_check_never_fails_auth
  (r : HttpResult) (s s' : St) :
  stepE s (defaultHealthCheck_settles r) = Some s' ->
  notifications s' = notifications s /\
  (forall e, @defaultHealthCheck_settles TSession r = HealthReject e ->
             is_auth_error e = false) /\
  (forall status, r = Response status -> status < 500 ->
                  @defaultHealthCheck_settles TSession r = HealthResolve).
Proof.
  intros Hstep.
  assert (Hrej : forall e, @defaultHealthCheck_settles TSession r = HealthReject e ->
                           is_auth_error e = false).
  { intros e He. destruct r as [c|st]; simpl in He.
    - injection He as <-. reflexivity.
    - unfold validateStatus in He.
      destruct (st =? 0) eqn:Z0; simpl in He; [discriminate|].
      destruct (st <? 500) eqn:L; [discriminate|].
      injection He as <-. unfold is_auth_error; simpl.
      destruct (st =? 401) eqn:E; [|reflexivity].
      apply Z.eqb_eq in E. apply Z.ltb_ge in L. lia. }
  split; [|split; [exact Hrej|]].
  - destruct (@defaultHealthCheck_settles TSession r) as [| |  |e| | | |] eqn:Hr;
      try (destruct r as [c|st]; simpl in Hr;
           [discriminate Hr
           | destruct ((st =? 0) || validateStatus st); discriminate Hr]).
    + unfold notifications. open_state s.
      destruct ah; [discriminate|]. injection Hstep as <-.
      unfold health_resolved; simpl. destruct cn; simpl;
        rewrite ?messages_app; simpl; rewrite ?app_nil_r; reflexivity.
    + specialize (Hrej e eq_refl).
      unfold notifications. open_state s.
      destruct ah; [discriminate|]. injection Hstep as <-.
      unfold catch_error; simpl. rewrite Hrej.
      destruct cn; simpl; rewrite ?messages_app; simpl;
        rewrite ?app_nil_r; reflexivity.
  - intros status -> Hlt. simpl. unfold validateStatus.
    apply Z.ltb_lt in Hlt. rewrite Hlt, orb_true_r. reflexivity.
Qed.

End EngineProofs.

(** * Properties of [isNetworkError] *)

Lemma includes_In (l : list string) (x : string) :
  includes l x = true <-> In x l.
Proof.
  induction l as [|y l IH]; simpl.
  - split; [discriminate | tauto].
  - rewrite orb_true_iff, String.eqb_eq, IH. tauto.
Qed.

(** C9.  [isNetworkError(code)] is true exactly when [code] is one of the
    six strings ECONNREFUSED, ENOTFOUND, ETIMEDOUT, ECONNRESET,
    EHOSTUNREACH, ENETUNREACH, and false otherwise; in particular it is
    false for undefined, for '401', '404', '500' and for the empty
    string. *)
Theorem isNetworkError_exactly_six (code : option string) :
  (isNetworkError code = true <->
     code = Some "ECONNREFUSED" \/ code = Some "ENOTFOUND" \/
     code = Some "ETIMEDOUT" \/ code = Some "ECONNRESET" \/
     code = Some "EHOSTUNREACH" \/ code = Some "ENETUNREACH") /\
  (isNetworkError code = false <->
     ~ (code = Some "ECONNREFUSED" \/ code = Some "ENOTFOUND" \/
        code = Some "ETIMEDOUT" \/ code = Some "ECONNRESET" \/
        code = Some "EHOSTUNREACH" \/ code = Some "ENETUNREACH")) /\
  isNetworkError None = false /\
  isNetworkError (Some "401") = false /\
  isNetworkError (Some "404") = false /\
  isNetworkError (Some "500") = false /\
  isNetworkError (Some "") = false.
Proof.
  assert (Hiff : isNetworkError code = true <->
     code = Some "ECONNREFUSED" \/ code = Some "ENOTFOUND" \/
     code = Some "ETIMEDOUT" \/ code = Some "ECONNRESET" \/
     code = Some "EHOSTUNREACH" \/ code = Some "ENETUNREACH").
  { destruct code as [c|]; unfold isNetworkError.
    - rewrite includes_In. unfold NETWORK_ERROR_CODES. simpl.
      split.
      + intros [<-|[<-|[<-|[<-|[<-|[<-|[]]]]]]]; tauto.
      + intros [H|[H|[H|[H|[H|H]]]]]; injection H as <-; tauto.
    - split; [discriminate|].
      intros [H|[H|[H|[H|[H|H]]]]]; discriminate H. }
  split; [exact Hiff|]. split.
  - rewrite <- Hiff. destruct (isNetworkError code); split; congruence.
  - repeat split; reflexivity.
Qed.

(** * Properties of the aggregator *)

Module AggregatorProofs.

Import Aggregator.

Lemma prefix_append (s t : string) : String.prefix s (s ++ t) = true.
Proof.
  induction s as [|c s IH]; simpl.
  - destruct t; reflexivity.
  - destruct (Ascii.ascii_dec c c) as [_|N]; [exact IH | congruence].
Qed.

Lemma warnings_app (o1 o2 : list ConsoleLine) :
  warnings (o1 ++ o2) = (warnings o1 + warnings o2)%nat.
Proof. unfold warnings. rewrite filter_app, length_app. reflexivity. Qed.

(** One call of [print()] writes exactly one warning line. *)
Lemma warnings_print (a : OfflineState) : warnings (print a) = 1%nat.
Proof.
  unfold print, warnings. cbn [filter is_warning].
  rewrite prefix_append. cbn [List.length]. f_equal.
  induction (all_details (failures a)) as [|d l IH]; simpl; auto.
Qed.

Lemma lookup_map_set {V : Type} (k : string) (v : V) (m : list (string * V)) :
  lookup k (map_set k v m) = Some v.
Proof.
  induction m as [|[k' v'] m IH]; simpl.
  - rewrite String.eqb_refl. reflexivity.
  - destruct (String.eqb k' k) eqn:E; simpl.
    + rewrite String.eqb_refl. reflexivity.
    + rewrite E. exact IH.
Qed.

Lemma fail_offline (f : OfflineFailure) (a : OfflineState) :
  state a = offline ->
  fail f a =
  (mkOfflineState offline (map_set (operation f) f (failures a)) (backend a),
   []).
Proof. intros H. unfold fail; simpl. rewrite H. reflexivity. Qed.

Lemma fail_online (f : OfflineFailure) (a : OfflineState) :
  state a = online ->
  state (fst (fail f a)) = offline /\ warnings (snd (fail f a)) = 1%nat.
Proof.
  intros H. unfold fail; simpl. rewrite H. simpl.
  split; [reflexivity | apply warnings_print].
Qed.

Lemma apply_warnings (a : OfflineState) (op : Op) :
  warnings (snd (apply a op)) =
  match state a, state (fst (apply a op)) with
  | online, offline => 1%nat
  | _, _ => O
  end.
Proof.
  destruct op; simpl; try (destruct (state a); reflexivity).
  destruct (state a) eqn:E.
  - destruct (fail_online f a E) as [-> ->]. reflexivity.
  - rewrite (fail_offline f a E). reflexivity.
Qed.

Lemma exec_cons (a : OfflineState) (op : Op) (ops : list Op) :
  exec a (op :: ops) =
  (fst (exec (fst (apply a op)) ops),
   (snd (apply a op) ++ snd (exec (fst (apply a op)) ops))%list).
Proof.
  simpl. destruct (apply a op) as [a1 o1]; simpl.
  destruct (exec a1 ops) as [a2 o2]; reflexivity.
Qed.

Lemma warnings_transitions (ops : list Op) (a : OfflineState) :
  warnings (snd (exec a ops)) = transitions a ops.
Proof.
  revert a; induction ops as [|op ops IH]; intros a; [reflexivity|].
  rewrite exec_cons. cbn [snd transitions].
  rewrite warnings_app, apply_warnings, IH. reflexivity.
Qed.

Lemma silent_while_offline (ops : list Op) (a : OfflineState) :
  state a = offline -> forallb stays_offline ops = true ->
  snd (exec a ops) = [] /\ state (fst (exec a ops)) = offline.
Proof.
  revert a; induction ops as [|op ops IH]; intros a Ha Hops.
  - simpl; auto.
  - simpl in Hops. apply andb_true_iff in Hops as [Hop Hops].
    rewrite exec_cons. cbn [fst snd].
    assert (H1 : snd (apply a op) = [] /\ state (fst (apply a op)) = offline).
    { destruct op; simpl; try discriminate Hop; auto.
      rewrite (fail_offline f a Ha). auto. }
    destruct H1 as [-> H1]. exact (IH _ H1 Hops).
Qed.

(** In the states the singleton can reach, [online] means that no failure
    is stored. *)
Lemma online_is_empty (a : OfflineState) :
  reachable a -> state a = online -> failures a = [].
Proof.
  intros [ops <-].
  assert (G : forall a0, (state a0 = online -> failures a0 = []) ->
              state (fst (exec a0 ops)) = online ->
              failures (fst (exec a0 ops)) = []).
  { induction ops as [|op ops IH]; intros a0 H0; [exact H0|].
    rewrite exec_cons. cbn [fst]. apply IH.
    destruct op; simpl; auto.
    unfold fail; simpl. destruct (state a0); simpl; discriminate. }
  apply G. reflexivity.
Qed.

(** X4.  Two reports made to an [online] singleton: what is printed is the
    warning for the first report alone. *)
Lemma first_report_only (a : OfflineState) (f1 f2 : OfflineFailure) :
  reachable a -> state a = online ->
  snd (exec a [Fail f1; Fail f2]) =
  print (mkOfflineState offline [(operation f1, f1)] (backend a)).
Proof.
  intros Hr Ho. pose proof (online_is_empty a Hr Ho) as He.
  destruct a as [st fs b]; simpl in *; subst.
  unfold fail; simpl. rewrite app_nil_r. reflexivity.
Qed.

(** C4.  Scenario C on the code: from the fresh, [online] singleton,
    [fail] for 'Session creation' with '404' and then [fail] for 'Machine
    registration' with 'ECONNREFUSED' print exactly one line, and both
    reports are stored; but the line was printed by the first call, so it
    describes 'Session creation' and does not mention 'Machine
    registration'. *)
Theorem scenario_C_warning_names_first_report_only :
  snd (exec connectionState scenario_C) = [Plain scenario_C_line] /\
  warnings (snd (exec connectionState scenario_C)) = 1%nat /\
  map fst (failures (fst (exec connectionState scenario_C))) =
    [ "Session creation"; "Machine registration" ] /\
  contains scenario_C_line "Session creation" = true /\
  contains scenario_C_line "Machine registration" = false.
Proof. repeat split; vm_compute; reflexivity. Qed.

(** C5, as stated, fails: after a first warning, [reset()] and a further
    [fail] print a second warning although [recover()] is never called. *)
Lemma reset_rearms_warning :
  ~ (forall (a : OfflineState) (ops : list Op),
        state a = offline ->
        existsb is_recover ops = false ->
        warnings (snd (exec a ops)) = O).
Proof.
  intros H.
  specialize (H (fst (fail session_creation_404 connectionState))
                [Reset; Fail machine_registration_refused]
                eq_refl eq_refl).
  vm_compute in H. discriminate H.
Qed.

(** C5, amended.  For every sequence of calls on the aggregator, from any state,
    the number of warning lines printed equals the number of calls that
    take it from [online] to [offline].  A [fail] that finds it [offline]
    prints nothing, leaves it [offline] and stores the report under its
    operation name.  While [offline], no sequence of calls without
    [recover()] or [reset()] prints anything.  [recover()] and [reset()]
    each print nothing, empty the map and set the mode to [online], and
    the next [fail] after either prints exactly one warning and goes
    [offline] again. *)
Theorem warns_once_per_transition
  (a : OfflineState) (ops : list Op) (f : OfflineFailure) :
  warnings (snd (exec a ops)) = transitions a ops /\
  (state a = offline ->
   snd (fail f a) = [] /\
   state (fst (fail f a)) = offline /\
   failures (fst (fail f a)) = map_set (operation f) f (failures a) /\
   lookup (operation f) (failures (fst (fail f a))) = Some f) /\
  (state a = offline -> forallb stays_offline ops = true ->
   snd (exec a ops) = [] /\ state (fst (exec a ops)) = offline) /\
  (snd (apply a Recover) = [] /\
   state (recover a) = online /\
   failures (recover a) = [] /\
   warnings (snd (fail f (recover a))) = 1%nat /\
   state (fst (fail f (recover a))) = offline) /\
  (snd (apply a Reset) = [] /\
   state (reset a) = online /\
   failures (reset a) = [] /\
   warnings (snd (fail f (reset a))) = 1%nat /\
   state (fst (fail f (reset a))) = offline).
Proof.
  split; [apply warnings_transitions|].
  split; [|split; [|split]].
  - intros Ha. rewrite (fail_offline f a Ha). simpl.
    repeat split. apply lookup_map_set.
  - apply silent_while_offline.
  - destruct (fail_online f (recover a) eq_refl) as [H1 H2].
    repeat split; assumption.
  - destruct (fail_online f (reset a) eq_refl) as [H1 H2].
    repeat split; assumption.
Qed.

(** The theorem at work: after 'Session creation' was reported, a second
    report and two other calls print nothing. *)
Lemma warns_once_per_transition_witness :
  snd (exec (fst (fail session_creation_404 connectionState))
         [Fail machine_registration_refused; SetBackend "Codex"; IsOffline])
    = [] /\
  state (fst (exec (fst (fail session_creation_404 connectionState))
                [Fail machine_registration_refused; SetBackend "Codex"; IsOffline]))
    = offline.
Proof.
  exact (proj1 (proj2 (proj2
           (warns_once_per_transition
              (fst (fail session_creation_404 connectionState))
              [Fail machine_registration_refused; SetBackend "Codex"; IsOffline]
              machine_registration_refused)))
           eq_refl eq_refl).
Defined.

End AggregatorProofs.

(** * The engine on the scenarios of the test suite *)

Ltac by_computation := vm_compute; reflexivity.



(** Scenario B: [onReconnected] is never called, the one notification is
    the auth-failure message, and nothing is armed afterwards. *)
Lemma scenario_B_stops_on_401 :
  test_run scenario_B = Some (state_after scenario_B) /\
  notifications (state_after scenario_B) = [MSG_AUTH_FAILED] /\
  isReconnected (state_after scenario_B) = false /\
  timers (state_after scenario_B) = [] /\
  count is_callback_call (state_after scenario_B) = O.
Proof.
  split; [by_computation|].
  destruct (auth_failure_is_terminal (TSession := string)
              linear_backoff test_config
              [Tick 1; TimerFire 0]
              (state_after [Tick 1; TimerFire 0])
              (createAxiosError 401)
              (HealthReject (createAxiosError 401))
              (state_after [Tick 1; TimerFire 0;
                            HealthReject (createAxiosError 401)])
              [Tick 100000; Cancel]
              (state_after scenario_B)
              ltac:(by_computation) eq_refl (or_introl eq_refl)
              ltac:(by_computation) ltac:(by_computation))
    as (Hn & Hr & Ht & _ & _ & _ & Hattempt).
  split; [exact Hn|]. split; [exact Hr|]. split; [exact Ht|].
  rewrite (Hattempt eq_refl [Tick 1] O [] (state_after [Tick 1])
             eq_refl eq_refl ltac:(by_computation)).
  by_computation.
Defined.

(** C2, as stated, fails: an error that carries the status 401 without
    being an Axios error is retried like any other; nothing is notified and
    a timer is armed for the next attempt. *)
Lemma status_401_without_axios_is_retried :
  ~ (forall (pre : list (@Event string)) (s : @State string) (e : JsError)
            (ev : @Event string) (s1 : @State string)
            (post : list (@Event string)) (s2 : @State string),
        test_run pre = Some s ->
        response_status e = Some 401 ->
        ev = HealthReject e \/ ev = CallbackReject e ->
        step linear_backoff test_config s ev = Some s1 ->
        run linear_backoff test_config s1 post = Some s2 ->
        notifications s2 = [MSG_AUTH_FAILED] /\
        timers s2 = [] /\
        count is_schedule s2 = count is_schedule s).
Proof.
  intros H.
  destruct (H [Tick 1; TimerFire 0] (state_after [Tick 1; TimerFire 0])
              plain_401 (HealthReject plain_401)
              (state_after first_check_throws_plain_401) []
              (state_after first_check_throws_plain_401)
              ltac:(by_computation) eq_refl (or_introl eq_refl)
              ltac:(by_computation) ltac:(by_computation)) as [Hn _].
  vm_compute in Hn. discriminate Hn.
Qed.

(** Cancel while [onReconnected] is in flight: the value it resolves with
    is kept, no success is reported. *)
Lemma cancel_during_callback_witness :
  test_run (callback_in_flight ++
            [Cancel; Tick 50; CallbackResolve (JsObject "session"); Tick 50])
    = Some (state_after
              (callback_in_flight ++
               [Cancel; Tick 50; CallbackResolve (JsObject "session"); Tick 50])) /\
  getSession
    (state_after
       (callback_in_flight ++
        [Cancel; Tick 50; CallbackResolve (JsObject "session"); Tick 50]))
    = JsObject "session" /\
  isReconnected
    (state_after
       (callback_in_flight ++
        [Cancel; Tick 50; CallbackResolve (JsObject "session"); Tick 50]))
    = false /\
  sent MSG_RECONNECTED
    (state_after
       (callback_in_flight ++
        [Cancel; Tick 50; CallbackResolve (JsObject "session"); Tick 50]))
    = O.
Proof.
  split; [by_computation|].
  apply (cancel_during_callback_keeps_session (TSession := string)
           linear_backoff test_config
           callback_in_flight [Tick 50] [Tick 50] (JsObject "session")
           (state_after callback_in_flight)
           (state_after (callback_in_flight ++ [Cancel; Tick 50]))
           (state_after (callback_in_flight ++
                         [Cancel; Tick 50; CallbackResolve (JsObject "session")])));
    by_computation.
Defined.

(** Scenario A again: the flag latches, one resolution, one session. *)
Lemma scenario_A_single_session :
  (List.length (filter is_callback_resolve scenario_A) <= 1)%nat /\
  (forall x y,
      In x (trajectory linear_backoff test_config
              (startOfflineReconnection test_config) scenario_A) ->
      In y (trajectory linear_backoff test_config
              (startOfflineReconnection test_config) scenario_A) ->
      is_nullish (getSession x) = false ->
      is_nullish (getSession y) = false ->
      getSession x = getSession y).
Proof.
  exact (proj2 (reconnected_latches_single_session (TSession := string)
                  linear_backoff test_config scenario_A
                  (state_after scenario_A) ltac:(by_computation))).
Defined.

(** [cancel()] before the 1 ms initial delay of the test configuration has
    elapsed, then twice more: [onCleanup] runs each time, [onReconnected]
    never. *)
Lemma cancel_before_first_attempt :
  test_run [Cancel; Tick 1000; Cancel; Cancel]
    = Some (state_after [Cancel; Tick 1000; Cancel; Cancel]) /\
  count is_cleanup_call (state_after [Cancel; Tick 1000; Cancel; Cancel]) = 3%nat /\
  timers (state_after [Cancel; Tick 1000; Cancel; Cancel]) = [] /\
  count is_callback_call (state_after [Cancel; Tick 1000; Cancel; Cancel]) = O.
Proof.
  split; [by_computation|].
  split; [by_computation|].
  destruct (cancel_is_safe_and_final (TSession := string)
              linear_backoff test_config
              [] [Tick 1000; Cancel; Cancel]
              (startOfflineReconnection test_config)
              (state_after [Cancel; Tick 1000; Cancel; Cancel])
              eq_refl ltac:(by_computation))
    as (_ & _ & _ & Ht & _ & _ & _ & Hc).
  split; [exact Ht | apply Hc; by_computation].
Defined.

(** Scenario A sends the success message once and no auth failure. *)
Lemma scenario_A_notifications :
  test_run scenario_A = Some (state_after scenario_A) /\
  (sent MSG_RECONNECTED (state_after scenario_A) <= 1)%nat /\
  (sent MSG_AUTH_FAILED (state_after scenario_A) <= 1)%nat /\
  ~ ((1 <= sent MSG_RECONNECTED (state_after scenario_A))%nat /\
     (1 <= sent MSG_AUTH_FAILED (state_after scenario_A))%nat).
Proof.
  split; [by_computation|].
  destruct (notifications_at_most_once (TSession := string)
              linear_backoff test_config scenario_A (state_after scenario_A)
              ltac:(by_computation)) as (H1 & H2 & _ & H4).
  split; [exact H1|]. split; [exact H2|].
  apply H4. intros v e Hin. vm_compute in Hin.
  repeat (destruct Hin as [Hin|Hin]; [discriminate Hin|]).
  contradiction.
Defined.

(** C8, as stated, fails: when the notifier, called with the success
    message, throws an Axios 401, the catch block sends the auth-failure
    message as well. *)
Lemma throwing_notifier_gets_both_messages :
  ~ (forall (tr : list (@Event string)) (s : @State string),
        test_run tr = Some s ->
        ~ ((1 <= sent MSG_RECONNECTED s)%nat /\
           (1 <= sent MSG_AUTH_FAILED s)%nat)).
Proof.
  intros H.
  apply (H notifier_throws_401 (state_after notifier_throws_401)
           ltac:(by_computation)).
  split; vm_compute; lia.
Qed.

(** [onReconnected] resolving with null, as in the test suite. *)
Lemma null_session_witness :
  test_run (callback_in_flight ++ [CallbackResolve JsNull; Cancel])
    = Some (state_after (callback_in_flight ++ [CallbackResolve JsNull; Cancel])) /\
  isReconnected
    (state_after (callback_in_flight ++ [CallbackResolve JsNull; Cancel])) = true /\
  notifications
    (state_after (callback_in_flight ++ [CallbackResolve JsNull; Cancel]))
    = [MSG_RECONNECTED] /\
  getSession
    (state_after (callback_in_flight ++ [CallbackResolve JsNull; Cancel])) = JsNull /\
  is_nullish
    (getSession
       (state_after (callback_in_flight ++ [CallbackResolve JsNull; Cancel])))
    = true.
Proof.
  split; [by_computation|].
  apply (nullish_session_still_reconnects (TSession := string)
           linear_backoff test_config
           callback_in_flight [Cancel] JsNull
           (state_after callback_in_flight)
           (state_after (callback_in_flight ++ [CallbackResolve JsNull])));
    by_computation.
Defined.

(** At the end of scenario A nothing is armed and nothing is in flight. *)
Lemma scenario_A_single_flight :
  (List.length (timers (state_after scenario_A))
   + awaitingHealth (state_after scenario_A)
   + awaitingCallback (state_after scenario_A) <= 1)%nat.
Proof.
  apply (single_flight (TSession := string) linear_backoff test_config scenario_A).
  by_computation.
Defined.

(** A 503 from the first health check, at time 1: one failure counted, the
    second timer armed for the 10500 ms of [linear_backoff], nothing
    notified. *)
Lemma http_503_is_retried :
  failureCount
    (state_after [Tick 1; TimerFire 0; HealthReject (createAxiosError 503)]) = 1 /\
  timers
    (state_after [Tick 1; TimerFire 0; HealthReject (createAxiosError 503)])
    = [mkTimer 1 10501] /\
  notifications
    (state_after [Tick 1; TimerFire 0; HealthReject (createAxiosError 503)]) = [].
Proof.
  destruct (retryable_error_schedules_backoff (TSession := string)
              linear_backoff test_config
              [Tick 1; TimerFire 0]
              (state_after [Tick 1; TimerFire 0])
              (state_after [Tick 1; TimerFire 0;
                            HealthReject (createAxiosError 503)])
              (createAxiosError 503)
              (HealthReject (createAxiosError 503))
              ltac:(by_computation) eq_refl ltac:(by_computation)
              (or_introl eq_refl) ltac:(by_computation))
    as (Hf & Ht & _ & Hn & _).
  split; [rewrite Hf; by_computation|].
  split; [rewrite Ht; by_computation|].
  rewrite Hn. by_computation.
Defined.

(** A refused connection and a 500 are both retryable, so the run that
    reconnects after them exists. *)
Lemma reconnect_after_two_failures :
  exists s,
    run linear_backoff test_config (startOfflineReconnection test_config)
      (reconnect_after [ECONNREFUSED; createAxiosError 500] (JsObject "x"))
    = Some s.
Proof.
  apply (reconnect_after_runs (TSession := string) linear_backoff test_config
           [ECONNREFUSED; createAxiosError 500] (JsObject "x")).
  repeat constructor.
Defined.

(** Scenario C through the general statement: what is printed is [print]
    of a map holding 'Session creation' alone. *)
Lemma scenario_C_prints_first_report :
  snd (Aggregator.exec Aggregator.connectionState scenario_C) =
  Aggregator.print
    (Aggregator.mkOfflineState Aggregator.offline
       [("Session creation", session_creation_404)] "Claude").
Proof.
  apply (AggregatorProofs.first_report_only Aggregator.connectionState
           session_creation_404 machine_registration_refused).
  - exists []. reflexivity.
  - reflexivity.
Defined.

(** * More on the aggregator *)

Module AggregatorMore.

Import Aggregator.
Import Calls.
Import AggregatorProofs.

Lemma lookup_map_set_other {V : Type} (k k' : string) (v : V)
  (m : list (string * V)) :
  String.eqb k' k = false -> lookup k (map_set k' v m) = lookup k m.
Proof.
  intros Hk. induction m as [|[k0 v0] m IH]; simpl.
  - rewrite Hk. reflexivity.
  - destruct (String.eqb k0 k') eqn:E0; simpl.
    + apply String.eqb_eq in E0. subst k0. rewrite Hk. reflexivity.
    + destruct (String.eqb k0 k); [reflexivity | exact IH].
Qed.

Lemma lookup_after_set {V : Type} (k k' : string) (v : V) (m : list (string * V)) :
  lookup k (map_set k' v m) = if String.eqb k' k then Some v else lookup k m.
Proof.
  destruct (String.eqb k' k) eqn:E.
  - apply String.eqb_eq in E. subst. apply lookup_map_set.
  - apply lookup_map_set_other. exact E.
Qed.

Lemma failures_after_fail (f : OfflineFailure) (a : OfflineState) :
  failures (fst (fail f a)) = map_set (operation f) f (failures a).
Proof. unfold fail; simpl. destruct (state a); reflexivity. Qed.

Lemma state_after_fail (f : OfflineFailure) (a : OfflineState) :
  state (fst (fail f a)) = offline.
Proof. unfold fail; simpl. destruct (state a); reflexivity. Qed.

(** X5.  After any sequence of calls, from any state, the report held for
    an operation is the one given by the last [fail] for that operation
    since the last [recover()] or [reset()], and none if there was no such
    [fail]: the latest report per operation wins. *)
Theorem latest_report_wins
  (name : string) (ops : list Op) (a : OfflineState) :
  lookup name (failures (fst (exec a ops))) =
  latest_report name ops (lookup name (failures a)).
Proof.
  revert a; induction ops as [|op ops IH]; intros a; [reflexivity|].
  rewrite exec_cons. cbn [fst]. rewrite IH. unfold latest_report. simpl.
  f_equal. destruct op; simpl; try reflexivity.
  rewrite failures_after_fail. apply lookup_after_set.
Qed.

(** X6.  After any sequence of calls, [isOffline()] tells which of [fail],
    [recover()] and [reset()] was called last: true after a [fail], false
    after the other two, and unchanged when none was called. *)
Theorem mode_follows_last_call (ops : list Op) (a : OfflineState) :
  state (fst (exec a ops)) = mode_after ops (state a) /\
  isOffline (fst (exec a ops)) =
    match mode_after ops (state a) with
    | offline => true
    | online => false
    end.
Proof.
  assert (H : state (fst (exec a ops)) = mode_after ops (state a)).
  { revert a; induction ops as [|op ops IH]; intros a; [reflexivity|].
    rewrite exec_cons. cbn [fst]. rewrite IH. unfold mode_after. simpl.
    f_equal. destruct op; simpl; try reflexivity. apply state_after_fail. }
  split; [exact H|]. unfold isOffline. rewrite H. reflexivity.
Qed.

Lemma map_set_keys {V : Type} (k : string) (v : V) (m : list (string * V)) :
  map fst (map_set k v m) =
  if existsb (String.eqb k) (map fst m) then map fst m
  else (map fst m ++ [k])%list.
Proof.
  induction m as [|[k0 v0] m IH]; simpl; [reflexivity|].
  rewrite (String.eqb_sym k k0).
  destruct (String.eqb k0 k) eqn:E; simpl.
  - apply String.eqb_eq in E. subst. reflexivity.
  - rewrite IH. destruct (existsb (String.eqb k) (map fst m)); reflexivity.
Qed.

Lemma existsb_eqb_In (k : string) (l : list string) :
  existsb (String.eqb k) l = true <-> In k l.
Proof.
  rewrite existsb_exists. split.
  - intros (x & Hx & E). apply String.eqb_eq in E. subst. exact Hx.
  - intros H. exists k. split; [exact H | apply String.eqb_refl].
Qed.

Lemma map_set_deduplicated (f : OfflineFailure)
  (m : list (string * OfflineFailure)) :
  deduplicated m -> deduplicated (map_set (operation f) f m).
Proof.
  intros [Hnd Hk]. split.
  - rewrite map_set_keys.
    destruct (existsb (String.eqb (operation f)) (map fst m)) eqn:E;
      [exact Hnd|].
    apply NoDup_app; [exact Hnd | repeat constructor; intros [] |].
    intros x Hx [<-|[]].
    apply existsb_eqb_In in Hx. congruence.
  - clear Hnd. induction m as [|[k0 v0] m IH]; simpl.
    + repeat constructor.
    + inversion Hk as [|? ? H0 Hk']; subst.
      destruct (String.eqb k0 (operation f)); constructor; auto.
Qed.

(** X7.  In every state the singleton can reach, the map holds at most one
    report per operation name, each stored under the name it carries; so the
    warning summary never lists an operation twice. *)
Theorem reports_are_deduplicated (a : OfflineState) :
  reachable a ->
  NoDup (map fst (failures a)) /\
  Forall (fun kv => fst kv = operation (snd kv)) (failures a) /\
  NoDup (map operation (map_values (failures a))).
Proof.
  intros [ops <-].
  assert (G : forall a0, deduplicated (failures a0) ->
                         deduplicated (failures (fst (exec a0 ops)))).
  { induction ops as [|op ops IH]; intros a0 H0; [exact H0|].
    rewrite exec_cons. cbn [fst]. apply IH.
    destruct op; simpl; try exact H0; try (split; constructor).
    rewrite failures_after_fail. apply map_set_deduplicated. exact H0. }
  destruct (G connectionState) as [Hnd Hk]; [split; constructor|].
  split; [exact Hnd|]. split; [exact Hk|].
  unfold map_values. rewrite map_map.
  replace (map (fun x => operation (snd x))
             (failures (fst (exec connectionState ops))))
    with (map fst (failures (fst (exec connectionState ops)))); [exact Hnd|].
  apply map_ext_in. intros kv Hin.
  rewrite Forall_forall in Hk. exact (Hk kv Hin).
Qed.

Lemma apply_same_but_backend (a b : OfflineState) (op : Op) :
  same_but_backend a b ->
  same_but_backend (fst (apply a op)) (fst (apply b op)) /\
  snd (apply a op) = snd (apply b op).
Proof.
  intros [Hs Hf]. destruct a as [sa fa ba], b as [sb fb bb]; simpl in *; subst.
  destruct op; simpl; try (split; [split|]; reflexivity).
  unfold fail; simpl. destruct sb; simpl; split; try split; reflexivity.
Qed.

Lemma exec_same_but_backend (ops : list Op) (a b : OfflineState) :
  same_but_backend a b ->
  same_but_backend (fst (exec a ops)) (fst (exec b ops)) /\
  snd (exec a ops) = snd (exec b ops).
Proof.
  revert a b; induction ops as [|op ops IH]; intros a b H.
  - simpl; auto.
  - rewrite !exec_cons. cbn [fst snd].
    destruct (apply_same_but_backend a b op H) as [H1 ->].
    destruct (IH _ _ H1) as [H2 ->]. auto.
Qed.

(** X8.  The backend label is never printed: a sequence of calls prints the
    same lines, and ends in the same mode with the same reports, when all its
    [setBackend] calls are left out, and whatever label the aggregator
    started with. *)
Theorem backend_label_is_not_observable
  (ops : list Op) (a : OfflineState) (name : string) :
  snd (exec a (without_set_backend ops)) = snd (exec a ops) /\
  state (fst (exec a (without_set_backend ops))) = state (fst (exec a ops)) /\
  failures (fst (exec a (without_set_backend ops))) = failures (fst (exec a ops)) /\
  snd (exec (setBackend name a) ops) = snd (exec a ops).
Proof.
  assert (G : forall a b, same_but_backend a b ->
                same_but_backend (fst (exec a (without_set_backend ops)))
                                 (fst (exec b ops)) /\
                snd (exec a (without_set_backend ops)) = snd (exec b ops)).
  { induction ops as [|op ops IH]; intros x y H; [simpl; auto|].
    destruct op; simpl without_set_backend;
      try (rewrite !exec_cons; cbn [fst snd];
           match goal with
           | |- context [apply x ?o] =>
               destruct (apply_same_but_backend x y o H) as [H1 ->]
           end;
           destruct (IH _ _ H1) as [H2 ->]; auto).
    rewrite (exec_cons y). cbn [fst snd apply].
    apply IH. destruct H as [Hs Hf]. split; simpl; assumption. }
  destruct (G a a (conj eq_refl eq_refl)) as [[Hs Hf] Ho].
  repeat split; try assumption.
  apply exec_same_but_backend. split; reflexivity.
Qed.

(** X9.  Every network error code has a description of its own: a report
    carrying such a code is never rendered as an unknown error. *)
Theorem network_codes_are_described (c : string) :
  isNetworkError (Some c) = true ->
  exists d,
    lookup c ERROR_DESCRIPTIONS = Some d /\
    d <> "unknown error" /\
    forall op who details,
      describe (mkFailure op who (Some c) None details) =
      op ++ " failed: " ++ c ++ " - " ++ d.
Proof.
  unfold isNetworkError. rewrite includes_In. unfold NETWORK_ERROR_CODES.
  intros [<-|[<-|[<-|[<-|[<-|[<-|[]]]]]]];
    eexists; (split; [reflexivity|]); (split; [discriminate|]);
    intros op who details; unfold describe; simpl; reflexivity.
Qed.

Lemma recoveries_cons (op : Op) (ops : list Op) :
  recoveries (op :: ops) =
  ((if stays_offline op then 0 else 1) + recoveries ops)%nat.
Proof. unfold recoveries. simpl. destruct (stays_offline op); reflexivity. Qed.

Lemma transitions_bound (ops : list Op) (a : OfflineState) :
  (transitions a ops <=
   (match state a with online => 1 | offline => 0 end) + recoveries ops)%nat.
Proof.
  revert a; induction ops as [|op ops IH]; intros a.
  - simpl. lia.
  - cbn [transitions]. rewrite recoveries_cons.
    specialize (IH (fst (apply a op))).
    destruct op; simpl in *;
      try (destruct (state a); simpl in *; lia).
    rewrite state_after_fail in *. destruct (state a); simpl in *; lia.
Qed.

(** X10.  At most one warning per outage: any sequence of calls prints at
    most one warning line more than it contains [recover()] and [reset()]
    calls, and no more than that number when it starts [offline]. *)
Theorem warnings_bounded_by_recoveries (ops : list Op) (a : OfflineState) :
  (warnings (snd (exec a ops)) <= 1 + recoveries ops)%nat /\
  (state a = offline -> (warnings (snd (exec a ops)) <= recoveries ops)%nat).
Proof.
  rewrite warnings_transitions.
  pose proof (transitions_bound ops a) as H.
  split; [destruct (state a); lia|].
  intros Ha. rewrite Ha in H. exact H.
Qed.

Lemma print_lines (a : OfflineState) :
  Forall (fun l => is_warning l = true \/ is_detail l = true) (print a).
Proof.
  unfold print. constructor.
  - left. cbn [is_warning]. apply prefix_append.
  - induction (all_details (failures a)) as [|d l IH]; simpl; constructor.
    + right. exact (prefix_append DETAIL_ARROW d).
    + exact IH.
Qed.

(** X11.  Whatever is called, every line the aggregator writes is either a
    warning line, starting with the fixed header, or a yellow detail line,
    starting with the indented arrow; and a [fail] that finds the aggregator
    online writes one line more than there are details stored after it: the
    warning and one line per detail. *)
Theorem printed_lines_are_warnings_or_details
  (ops : list Op) (a : OfflineState) (f : OfflineFailure) :
  Forall (fun l => is_warning l = true \/ is_detail l = true) (snd (exec a ops)) /\
  (state a = online ->
   List.length (snd (fail f a)) =
   S (List.length (all_details (failures (fst (fail f a)))))).
Proof.
  split.
  - revert a; induction ops as [|op ops IH]; intros a; [constructor|].
    rewrite exec_cons. cbn [snd]. apply Forall_app. split; [|apply IH].
    destruct op; simpl; try constructor.
    unfold fail; simpl. destruct (state a); [apply print_lines | constructor].
  - intros Ha. unfold fail; simpl. rewrite Ha. simpl.
    rewrite length_map. reflexivity.
Qed.

Lemma printOfflineWarning_offline (name : option string) (a : OfflineState) :
  state a = offline ->
  snd (printOfflineWarning name a) = [] /\
  state (fst (printOfflineWarning name a)) = offline.
Proof.
  intros Ha. unfold printOfflineWarning.
  rewrite fail_offline by exact Ha. auto.
Qed.

Lemma printOfflineWarnings_offline (names : list (option string))
  (a : OfflineState) :
  state a = offline -> snd (printOfflineWarnings names a) = [].
Proof.
  revert a; induction names as [|n names IH]; intros a Ha; [reflexivity|].
  simpl.
  destruct (printOfflineWarning_offline n a Ha) as [H1 H2].
  destruct (printOfflineWarning n a) as [a1 o1]; simpl in *.
  specialize (IH a1 H2).
  destruct (printOfflineWarnings names a1) as [a2 o2]; simpl in *.
  subst. reflexivity.
Qed.

(** X12.  [printOfflineWarning] is deduplicated: called any number of times
    (at least once) on an aggregator that is [online] and holds no report,
    with whatever backend names, it prints the one line 'Server connection
    failed: unknown error' under the header, and nothing else. *)
Theorem printOfflineWarning_prints_once
  (name : option string) (names : list (option string)) (a : OfflineState) :
  state a = online -> failures a = [] ->
  snd (printOfflineWarnings (name :: names) a) = [Plain SERVER_CONNECTION_WARNING].
Proof.
  intros Ha Hf. simpl.
  assert (H1 : snd (printOfflineWarning name a) = [Plain SERVER_CONNECTION_WARNING]
               /\ state (fst (printOfflineWarning name a)) = offline).
  { destruct a as [st fs b]; simpl in *; subst.
    unfold printOfflineWarning, fail; simpl. auto. }
  destruct H1 as [Ho Hs].
  pose proof (printOfflineWarnings_offline names _ Hs) as Hrest.
  destruct (printOfflineWarning name a) as [a1 o1]; simpl in *.
  destruct (printOfflineWarnings names a1) as [a2 o2]; simpl in *.
  subst. reflexivity.
Qed.

(** *** On the reports of the test suite *)

(** After scenario C the map holds its two reports under their names. *)
Lemma reports_are_deduplicated_witness :
  NoDup (map fst (failures after_scenario_C)) /\
  Forall (fun kv => fst kv = operation (snd kv)) (failures after_scenario_C) /\
  NoDup (map operation (map_values (failures after_scenario_C))).
Proof.
  apply (reports_are_deduplicated after_scenario_C).
  exists scenario_C. reflexivity.
Defined.

(** ECONNREFUSED is described. *)
Lemma network_codes_are_described_witness :
  exists d,
    lookup "ECONNREFUSED" ERROR_DESCRIPTIONS = Some d /\
    d <> "unknown error" /\
    forall op who details,
      describe (mkFailure op who (Some "ECONNREFUSED") None details) =
      op ++ " failed: " ++ "ECONNREFUSED" ++ " - " ++ d.
Proof. exact (network_codes_are_described "ECONNREFUSED" eq_refl). Defined.

(** Offline after scenario C, a report, a [recover()] and another report
    print no more than one warning. *)
Lemma warnings_bounded_by_recoveries_witness :
  state after_scenario_C = offline /\
  (warnings
     (snd (exec after_scenario_C
             [Fail session_creation_404; Recover;
              Fail machine_registration_refused]))
   <= recoveries [Fail session_creation_404; Recover;
                  Fail machine_registration_refused])%nat.
Proof.
  split; [reflexivity|].
  apply (proj2 (warnings_bounded_by_recoveries
                  [Fail session_creation_404; Recover;
                   Fail machine_registration_refused] after_scenario_C)).
  reflexivity.
Defined.

(** A first report with one detail prints two lines. *)
Lemma printed_lines_witness :
  List.length
    (snd (fail (mkFailure "Machine registration" None (Some "503") None
                  (Some ["Server encountered an error, will retry automatically"]))
            connectionState)) =
  S (List.length
       (all_details
          (failures
             (fst (fail (mkFailure "Machine registration" None (Some "503") None
                           (Some ["Server encountered an error, will retry automatically"]))
                     connectionState))))).
Proof.
  exact (proj2 (printed_lines_are_warnings_or_details []
                  connectionState
                  (mkFailure "Machine registration" None (Some "503") None
                     (Some ["Server encountered an error, will retry automatically"])))
               eq_refl).
Defined.

(** Three calls of [printOfflineWarning] on the fresh singleton, as in the
    test suite. *)
Lemma printOfflineWarning_prints_once_witness :
  snd (printOfflineWarnings [None; Some "Codex"; None] connectionState) =
  [Plain SERVER_CONNECTION_WARNING].
Proof.
  exact (printOfflineWarning_prints_once None [Some "Codex"; None]
           connectionState eq_refl eq_refl).
Defined.

End AggregatorMore.

(** * The API client's failure handling *)

Module ApiProofs.

Import Aggregator.
Import Calls.
Import Api.
Import AggregatorProofs.

Lemma String_of_nonempty (n : Z) : String_of n <> "".
Proof.
  unfold String_of, NilZero.string_of_int.
  destruct (Z.to_int n) as [u|u]; [|discriminate].
  unfold NilZero.string_of_uint. destruct u; simpl; discriminate.
Qed.

Lemma network_code_nonempty (c : string) :
  isNetworkError (Some c) = true -> c <> "".
Proof. intros H ->. discriminate H. Qed.

Lemma isNetworkError_truthy (o : option string) :
  isNetworkError (truthy o) = isNetworkError o.
Proof. destruct o as [[|a s]|]; reflexivity. Qed.

Lemma isOffline_after_fail (f : OfflineFailure) (cs : OfflineState) :
  isOffline (fst (fail f cs)) = true.
Proof. unfold fail, isOffline; simpl. destruct (state cs); reflexivity. Qed.

Lemma let_fail {R : Type} (r : R) (f : OfflineFailure) (cs : OfflineState) :
  (let (cs', out) := fail f cs in (r, cs', out)) =
  (r, fst (fail f cs), snd (fail f cs)).
Proof. destruct (fail f cs); reflexivity. Qed.

Lemma fail_pair (f : OfflineFailure) (cs : OfflineState) :
  fail f cs = (fst (fail f cs), snd (fail f cs)).
Proof. destruct (fail f cs); reflexivity. Qed.

(** X19.  When its request fails, [getOrCreateSession] either takes the
    error for an outage or throws.  It takes for an outage an object with a
    network error code, any error with response status 404, and an Axios
    error with status 500 or more: it then returns null after reporting
    'Session creation' to the aggregator with an error code and the
    sessions URL, which leaves the aggregator offline.  Every other error
    makes it throw 'Failed to get or create session: ' followed by the error's
    message ('Unknown error' if it is not an [Error]), without touching the
    aggregator or printing. *)
Theorem session_creation_outage_or_throw
  (Session : Type) (serverUrl : string) (e : Thrown) (cs : OfflineState) :
  (session_outage e = true ->
   exists f,
     @getOrCreateSession_catch Session serverUrl e cs =
       (Returns None, fst (fail f cs), snd (fail f cs)) /\
     outage_report "Session creation" (serverUrl ++ "/v1/sessions") f /\
     isOffline (fst (fail f cs)) = true) /\
  (session_outage e = false ->
   @getOrCreateSession_catch Session serverUrl e cs =
     (Throws ("Failed to get or create session: " ++ message_of e), cs, [])).
Proof.
  unfold getOrCreateSession_catch, session_outage, is404Error, status_is,
    status_5xx, truthy_status, outage_report.
  destruct e as [[ax st cd] obj msg]; simpl.
  split.
  - intros H.
    destruct obj; simpl in *.
    + destruct (isNetworkError cd) eqn:N; simpl in *.
      * eexists. rewrite (fail_pair _ cs). split; [reflexivity|].
        split; [|apply isOffline_after_fail].
        simpl. repeat split. destruct cd as [c|]; [|discriminate N].
        exists c. split; [reflexivity | exact (network_code_nonempty c N)].
      * rewrite orb_true_r in *. simpl in *.
        destruct st as [st|]; [|rewrite ?andb_false_r in H; discriminate H].
        destruct (st =? 404) eqn:E4; simpl in *.
        -- rewrite orb_true_r.
           eexists. rewrite (fail_pair _ cs). split; [reflexivity|].
           split; [|apply isOffline_after_fail].
           simpl. repeat split. exists "404". split; [reflexivity|discriminate].
        -- rewrite orb_false_r, andb_false_r. simpl.
           destruct ax; simpl in *; [|discriminate H].
           destruct (st =? 0) eqn:E0.
           { apply Z.eqb_eq in E0. subst. discriminate H. }
           rewrite H.
           eexists. rewrite (fail_pair _ cs). split; [reflexivity|].
           split; [|apply isOffline_after_fail].
           simpl. repeat split. eexists. split; [reflexivity|].
           apply String_of_nonempty.
    + destruct st as [st|]; [|rewrite ?andb_false_r in H; discriminate H].
      rewrite !orb_false_r in *.
      destruct ax; simpl in *; [|discriminate H].
      destruct (st =? 404) eqn:E4; simpl in *.
      * eexists. rewrite (fail_pair _ cs). split; [reflexivity|].
        split; [|apply isOffline_after_fail].
        simpl. repeat split. exists "404". split; [reflexivity|discriminate].
      * destruct (st =? 0) eqn:E0.
        { apply Z.eqb_eq in E0. subst. discriminate H. }
        rewrite H.
        eexists. rewrite (fail_pair _ cs). split; [reflexivity|].
        split; [|apply isOffline_after_fail].
        simpl. repeat split. eexists. split; [reflexivity|].
        apply String_of_nonempty.
  - intros H.
    apply orb_false_iff in H as [H H5].
    apply orb_false_iff in H as [Hn H4].
    destruct obj; simpl in *.
    + rewrite Hn. rewrite orb_true_r in H4. simpl in H4.
      destruct st as [st|]; simpl in *.
      * rewrite H4, orb_false_r, andb_false_r. simpl.
        destruct ax; simpl in *; [|reflexivity].
        destruct (st =? 0); [reflexivity|]. rewrite H5. reflexivity.
      * rewrite andb_false_r. destruct ax; reflexivity.
    + destruct st as [st|]; simpl in *.
      * rewrite orb_false_r in *.
        destruct ax; simpl in *; [|reflexivity].
        rewrite H4. simpl.
        destruct (st =? 0); [reflexivity|]. rewrite H5. reflexivity.
      * rewrite orb_false_r, andb_false_r. destruct ax; reflexivity.
Qed.

(** X20.  When its request fails, [getOrCreateMachine] never loses the
    caller's machine on an outage or a rejection.  On an Axios error with a
    network error code, or with response status 404 or 500 and more, it
    reports 'Machine registration' to the aggregator, with an error code and
    the machines URL, and returns the minimal machine built from the
    credential and the options.  On an Axios error with status 403 or 409 and
    no network error code it returns the same minimal machine, prints its five
    yellow lines and leaves the aggregator as it was.  Every other error is
    rethrown as it is, the aggregator untouched and nothing printed. *)
Theorem machine_registration_outage_rejection_or_rethrow
  (Key Metadata DaemonState : Type) (serverUrl : string) (c : Encryption Key)
  (opts : MachineOptions Metadata DaemonState) (e : Thrown) (cs : OfflineState) :
  (machine_outage e = true ->
   exists f,
     getOrCreateMachine_catch serverUrl c opts e cs =
       (Returns (createMinimalMachine c opts), fst (fail f cs), snd (fail f cs)) /\
     outage_report "Machine registration" (serverUrl ++ "/v1/machines") f /\
     isOffline (fst (fail f cs)) = true) /\
  (machine_rejected e = true ->
   exists st,
     (st = 403 \/ st = 409) /\
     getOrCreateMachine_catch serverUrl c opts e cs =
       (Returns (createMinimalMachine c opts), cs, rejected_lines st)) /\
  (machine_outage e = false -> machine_rejected e = false ->
   getOrCreateMachine_catch serverUrl c opts e cs = (Throws e, cs, [])).
Proof.
  unfold getOrCreateMachine_catch, machine_outage, machine_rejected, status_is,
    status_5xx, truthy_status, truthy_code, outage_report.
  rewrite isNetworkError_truthy.
  destruct e as [[ax st cd] obj msg]; simpl.
  destruct ax; simpl.
  2: { repeat split; intros; try discriminate; reflexivity. }
  destruct (isNetworkError cd) eqn:N; simpl.
  - split; [|split; intros; discriminate].
    intros _. eexists. rewrite (fail_pair _ cs). split; [reflexivity|].
    split; [|apply isOffline_after_fail].
    simpl. repeat split. destruct cd as [k|]; [|discriminate N].
    exists k. split; [reflexivity | exact (network_code_nonempty k N)].
  - destruct st as [st|]; simpl.
    2: { repeat split; intros; try discriminate; reflexivity. }
    destruct (st =? 0) eqn:E0.
    { apply Z.eqb_eq in E0. subst st. simpl.
      repeat split; intros; try discriminate; reflexivity. }
    destruct (st =? 403) eqn:E403; simpl.
    { apply Z.eqb_eq in E403. subst st. simpl.
      split; [intros; discriminate|]. split; [|intros; discriminate].
      intros _. exists 403. split; [left|]; reflexivity. }
    destruct (st =? 409) eqn:E409; simpl.
    { apply Z.eqb_eq in E409. subst st. simpl.
      split; [intros; discriminate|]. split; [|intros; discriminate].
      intros _. exists 409. split; [right|]; reflexivity. }
    destruct (500 <=? st) eqn:E5; simpl.
    { rewrite orb_true_r.
      split; [|split; intros; discriminate].
      intros _. eexists. rewrite (fail_pair _ cs). split; [reflexivity|].
      split; [|apply isOffline_after_fail].
      simpl. repeat split. eexists. split; [reflexivity|].
      apply String_of_nonempty. }
    rewrite orb_false_r.
    destruct (st =? 404) eqn:E4; simpl.
    { split; [|split; intros; discriminate].
      intros _. eexists. rewrite (fail_pair _ cs). split; [reflexivity|].
      split; [|apply isOffline_after_fail].
      simpl. repeat split. exists "404". split; [reflexivity|discriminate]. }
    repeat split; intros; try discriminate; reflexivity.
Qed.

Ltac reports :=
  match goal with
  | |- context [fail ?f ?cs] =>
      left; exists f; destruct (fail f cs); reflexivity
  end.

Ltac line_of_fail :=
  match goal with
  | |- context [fail ?f ?cs] =>
      left; exists f; split; [destruct (fail f cs); reflexivity | reflexivity]
  end.

(** A failing bootstrap call either reports to the aggregator or leaves it
    alone and prints no warning line. *)
Lemma failed_call_cases (serverUrl : string) (call : FailedCall) (cs : OfflineState) :
  (exists f, failed_call serverUrl call cs = fail f cs) \/
  (fst (failed_call serverUrl call cs) = cs /\
   warnings (snd (failed_call serverUrl call cs)) = O).
Proof.
  destruct call as [e|e]; cbn [failed_call].
  - unfold getOrCreateSession_catch.
    destruct (isNetworkError _);
      [reports|].
    destruct (is404Error e);
      [reports|].
    destruct (if isAxiosError (error e) then truthy_status e else None) as [st|];
      [|right; split; reflexivity].
    destruct (500 <=? st);
      [reports|].
    right; split; reflexivity.
  - unfold getOrCreateMachine_catch.
    destruct (isAxiosError (error e) && isNetworkError (truthy_code e));
      [reports|].
    destruct (if isAxiosError (error e) then truthy_status e else None) as [st|];
      [|right; split; reflexivity].
    destruct ((st =? 403) || (st =? 409)); [right; split; reflexivity|].
    destruct (500 <=? st);
      [reports|].
    destruct (st =? 404);
      [reports|].
    right; split; reflexivity.
Qed.

Lemma failed_calls_cons (serverUrl : string) (call : FailedCall)
  (calls : list FailedCall) (cs : OfflineState) :
  failed_calls serverUrl (call :: calls) cs =
  (fst (failed_calls serverUrl calls (fst (failed_call serverUrl call cs))),
   (snd (failed_call serverUrl call cs)
    ++ snd (failed_calls serverUrl calls (fst (failed_call serverUrl call cs))))%list).
Proof.
  cbn [failed_calls]. destruct (failed_call serverUrl call cs) as [a1 o1].
  cbn [fst snd]. destruct (failed_calls serverUrl calls a1); reflexivity.
Qed.

Lemma failed_calls_offline (serverUrl : string) (calls : list FailedCall)
  (cs : OfflineState) :
  state cs = offline ->
  state (fst (failed_calls serverUrl calls cs)) = offline /\
  warnings (snd (failed_calls serverUrl calls cs)) = O.
Proof.
  revert cs; induction calls as [|call calls IH]; intros cs Hcs.
  - split; [exact Hcs | reflexivity].
  - rewrite failed_calls_cons. cbn [fst snd]. rewrite warnings_app.
    destruct (failed_call_cases serverUrl call cs) as [[f ->]|[-> ->]].
    + rewrite (fail_offline f cs Hcs). cbn [fst snd].
      destruct (IH (mkOfflineState offline
                      (map_set (operation f) f (failures cs)) (backend cs))
                   eq_refl) as [H1 H2].
      split; [exact H1 | rewrite H2; reflexivity].
    + destruct (IH cs Hcs) as [H1 H2].
      split; [exact H1 | rewrite H2; reflexivity].
Qed.

(** What a failing bootstrap call prints: what [fail] prints, nothing, or
    the five lines of a rejection, the last exactly for the calls of
    [is_rejected_call]. *)
Lemma failed_call_lines (serverUrl : string) (call : FailedCall) (cs : OfflineState) :
  (exists f, failed_call serverUrl call cs = fail f cs /\
             is_rejected_call call = false) \/
  (failed_call serverUrl call cs = (cs, []) /\ is_rejected_call call = false) \/
  (exists st, failed_call serverUrl call cs = (cs, rejected_lines st) /\
              is_rejected_call call = true).
Proof.
  destruct call as [e|e]; cbn [failed_call is_rejected_call].
  - unfold getOrCreateSession_catch.
    destruct (isNetworkError _); [line_of_fail|].
    destruct (is404Error e); [line_of_fail|].
    destruct (if isAxiosError (error e) then truthy_status e else None) as [st|];
      [|right; left; split; reflexivity].
    destruct (500 <=? st); [line_of_fail|].
    right; left; split; reflexivity.
  - unfold getOrCreateMachine_catch, machine_rejected, status_is,
      truthy_status, truthy_code.
    rewrite isNetworkError_truthy.
    destruct e as [[ax st cd] obj msg]; simpl.
    destruct ax; simpl; [|right; left; split; reflexivity].
    destruct (isNetworkError cd); simpl; [line_of_fail|].
    destruct st as [st|]; simpl; [|right; left; split; reflexivity].
    destruct (st =? 0) eqn:E0.
    { apply Z.eqb_eq in E0. subst st. right; left; split; reflexivity. }
    destruct (st =? 403) eqn:E403; simpl.
    { right; right. exists st. split; reflexivity. }
    destruct (st =? 409) eqn:E409; simpl.
    { right; right. exists st. split; reflexivity. }
    destruct (500 <=? st); [line_of_fail|].
    destruct (st =? 404); [line_of_fail|].
    right; left; split; reflexivity.
Qed.

Lemma aggregator_line_is_no_notice (l : ConsoleLine) :
  is_warning l = true \/ is_detail l = true -> is_rejection_notice l = false.
Proof.
  destruct l as [text|text]; [reflexivity|].
  intros [H|H]; [discriminate H|].
  unfold is_detail, Calls.DETAIL_ARROW in H.
  unfold is_rejection_notice, REJECTION_HEADER.
  destruct text as [|c text]; [reflexivity|].
  cbn [String.prefix] in H.
  destruct (Ascii.ascii_dec " " c) as [<-|]; [reflexivity | discriminate H].
Qed.

Lemma fail_lines (f : OfflineFailure) (cs : OfflineState) :
  Forall (fun l => is_warning l = true \/ is_detail l = true) (snd (fail f cs)).
Proof.
  unfold fail; simpl. destruct (state cs); simpl;
    [apply AggregatorMore.print_lines | constructor].
Qed.

Lemma no_notice_among (out : list ConsoleLine) :
  Forall (fun l => is_warning l = true \/ is_detail l = true) out ->
  filter is_rejection_notice out = [].
Proof.
  induction 1 as [|l out Hl _ IH]; [reflexivity|].
  cbn [filter]. rewrite (aggregator_line_is_no_notice l Hl). exact IH.
Qed.

Lemma rejected_lines_shape (st : Z) :
  List.length (filter is_rejection_notice (rejected_lines st)) = 1%nat /\
  warnings (rejected_lines st) = O /\
  Forall (fun l => is_warning l = true \/ is_detail l = true \/
                   is_rejection_notice l = true) (rejected_lines st).
Proof.
  unfold rejected_lines. split; [|split].
  - cbn [filter is_rejection_notice].
    rewrite (prefix_append REJECTION_HEADER (String_of st)). reflexivity.
  - reflexivity.
  - constructor.
    + right; right. exact (prefix_append REJECTION_HEADER (String_of st)).
    + repeat constructor; right; left; reflexivity.
Qed.

(** X21.  However many bootstrap calls fail one after the other, and
    whatever they fail with, the aggregator's warning line is printed at most
    once, and not at all if the aggregator was already offline; no failing
    call brings an offline aggregator back online.  Besides it, the console
    gets one rejection notice for each machine registration that failed with
    an Axios 403 or 409 without a network error code, and otherwise only
    detail lines, starting with the indented arrow. *)
Theorem failing_calls_warn_at_most_once
  (serverUrl : string) (calls : list FailedCall) (cs : OfflineState) :
  (warnings (snd (failed_calls serverUrl calls cs)) <= 1)%nat /\
  (isOffline cs = true ->
   warnings (snd (failed_calls serverUrl calls cs)) = O /\
   isOffline (fst (failed_calls serverUrl calls cs)) = true) /\
  List.length (filter is_rejection_notice (snd (failed_calls serverUrl calls cs))) =
    List.length (filter is_rejected_call calls) /\
  Forall (fun l => is_warning l = true \/ is_detail l = true \/
                   is_rejection_notice l = true)
         (snd (failed_calls serverUrl calls cs)).
Proof.
  assert (Hoff : forall a, isOffline a = true -> state a = offline).
  { intros a. unfold isOffline. destruct (state a); [discriminate|reflexivity]. }
  split; [|split; [|split]].
  - revert cs; induction calls as [|call calls IH]; intros cs.
    + cbn. lia.
    + rewrite failed_calls_cons. cbn [fst snd]. rewrite warnings_app.
      destruct (failed_call_cases serverUrl call cs) as [[f ->]|[-> ->]].
      * destruct (state cs) eqn:E.
        -- destruct (fail_online f cs E) as [H1 H2]. rewrite H2.
           destruct (failed_calls_offline serverUrl calls _ H1) as [_ ->]. lia.
        -- rewrite (fail_offline f cs E). cbn [fst snd].
           specialize (IH (mkOfflineState offline
                             (map_set (operation f) f (failures cs)) (backend cs))).
           cbn [warnings filter List.length] in *. exact IH.
      * specialize (IH cs). lia.
  - intros H. apply Hoff in H.
    destruct (failed_calls_offline serverUrl calls cs H) as [H1 H2].
    split; [exact H2|]. unfold isOffline. rewrite H1. reflexivity.
  - revert cs; induction calls as [|call calls IH]; intros cs; [reflexivity|].
    rewrite failed_calls_cons. cbn [fst snd filter].
    rewrite filter_app, length_app, IH.
    destruct (failed_call_lines serverUrl call cs)
      as [(f & -> & ->)|[(-> & ->)|(st & -> & ->)]]; cbn [snd].
    + rewrite (no_notice_among _ (fail_lines f cs)). reflexivity.
    + reflexivity.
    + rewrite (proj1 (rejected_lines_shape st)). reflexivity.
  - revert cs; induction calls as [|call calls IH]; intros cs; [constructor|].
    rewrite failed_calls_cons. cbn [fst snd].
    apply Forall_app. split; [|apply IH].
    destruct (failed_call_lines serverUrl call cs)
      as [(f & -> & _)|[(-> & _)|(st & -> & _)]]; cbn [snd].
    + eapply Forall_impl; [|apply (fail_lines f cs)].
      intros l [H|H]; auto.
    + constructor.
    + apply rejected_lines_shape.
Qed.

(** X22.  For an error Axios made (an object, recognised by
    [axios.isAxiosError]), the two bootstrap calls agree on what an outage is.
    Either [getOrCreateSession] returns null and [getOrCreateMachine] returns
    the minimal machine, both after reporting to the aggregator with the same
    error code and the same details.  Or [getOrCreateSession] throws and
    [getOrCreateMachine] leaves the aggregator as it was: it rethrows the
    error and prints nothing, or, the status being 403 or 409, returns the
    minimal machine and prints the five lines of its rejection notice. *)
Theorem bootstrap_calls_agree_on_outages
  (Session Key Metadata DaemonState : Type) (serverUrl : string)
  (c : Encryption Key) (opts : MachineOptions Metadata DaemonState)
  (e : Thrown) (cs : OfflineState) :
  isAxiosError (error e) = true -> is_object e = true ->
  (exists fs fm,
     @getOrCreateSession_catch Session serverUrl e cs =
       (Returns None, fst (fail fs cs), snd (fail fs cs)) /\
     getOrCreateMachine_catch serverUrl c opts e cs =
       (Returns (createMinimalMachine c opts), fst (fail fm cs), snd (fail fm cs)) /\
     errorCode fs = errorCode fm /\ details fs = details fm) \/
  (@getOrCreateSession_catch Session serverUrl e cs =
     (Throws ("Failed to get or create session: " ++ message_of e), cs, []) /\
   (getOrCreateMachine_catch serverUrl c opts e cs = (Throws e, cs, []) \/
    exists st,
      (st = 403 \/ st = 409) /\
      getOrCreateMachine_catch serverUrl c opts e cs =
        (Returns (createMinimalMachine c opts), cs, rejected_lines st))).
Proof.
  unfold getOrCreateSession_catch, getOrCreateMachine_catch, is404Error,
    status_is, truthy_status, truthy_code.
  rewrite isNetworkError_truthy.
  destruct e as [[ax st cd] obj msg]; simpl.
  intros -> ->. simpl.
  destruct (isNetworkError cd) eqn:N.
  - left. do 2 eexists. split; [apply let_fail|]. split; [apply let_fail|].
    split; reflexivity.
  - destruct st as [st|]; simpl.
    2: { right. split; [reflexivity | left; reflexivity]. }
    destruct (st =? 404) eqn:E4; simpl.
    + apply Z.eqb_eq in E4. subst st. simpl.
      left. do 2 eexists. split; [apply let_fail|]. split; [apply let_fail|].
      split; reflexivity.
    + destruct (st =? 0) eqn:E0.
      { right. split; [reflexivity | left; reflexivity]. }
      destruct (500 <=? st) eqn:E5.
      * apply Z.leb_le in E5.
        destruct (st =? 403) eqn:E403; [apply Z.eqb_eq in E403; lia|].
        destruct (st =? 409) eqn:E409; [apply Z.eqb_eq in E409; lia|].
        simpl.
        left. do 2 eexists. split; [apply let_fail|]. split; [apply let_fail|].
        split; reflexivity.
      * right. split; [reflexivity|]. rewrite E4.
        destruct (st =? 403) eqn:E403; simpl.
        { apply Z.eqb_eq in E403. subst st.
          right. exists 403. split; [left|]; reflexivity. }
        destruct (st =? 409) eqn:E409; simpl.
        { apply Z.eqb_eq in E409. subst st.
          right. exists 409. split; [right|]; reflexivity. }
        left. reflexivity.
Qed.

(** *** Vendor tokens *)

(** X23.  [registerVendorToken] resolves exactly when its POST resolved with
    status 200 or 201; any other status, 204 included, and anything the
    request throws make it reject, always with an error whose message starts
    with 'Failed to register vendor token: '. *)
Theorem vendor_token_registration_outcome (attempt : Thrown + HttpResponse) :
  (registerVendorToken attempt = Returns tt <->
   exists r, attempt = inr r /\ (status r = 200 \/ status r = 201)) /\
  (forall m, registerVendorToken attempt = Throws m ->
             String.prefix "Failed to register vendor token: " m = true) /\
  (forall e, attempt = inl e ->
             registerVendorToken attempt =
             Throws ("Failed to register vendor token: " ++ message_of e)).
Proof.
  unfold registerVendorToken.
  destruct attempt as [e|r]; cbn [negb].
  - split; [|split].
    + split; [discriminate | intros (r & H & _); discriminate H].
    + intros m H. injection H as <-.
      exact (prefix_append "Failed to register vendor token: " _).
    + intros e' H. injection H as <-. reflexivity.
  - destruct (status r =? 200) eqn:E200; cbn [negb andb].
    + apply Z.eqb_eq in E200.
      split; [|split; intros; discriminate].
      split; [intros _; exists r; auto | reflexivity].
    + apply Z.eqb_neq in E200.
      destruct (status r =? 201) eqn:E201; cbn [negb].
      * apply Z.eqb_eq in E201.
        split; [|split; intros; discriminate].
        split; [intros _; exists r; auto | reflexivity].
      * apply Z.eqb_neq in E201.
        split; [|split].
        -- split; [discriminate|].
           intros (r' & H & Hs). injection H as <-. lia.
        -- intros m H. injection H as <-.
      exact (prefix_append "Failed to register vendor token: " _).
        -- intros e H. discriminate H.
Qed.

(** X24.  [getVendorToken] never rejects and never hands out an unusable
    token: whatever the request did and whatever [JSON.parse] returns, the
    result is not an object whose only property is a null [token]; and it is
    null unless the GET resolved with status 200 and a body that is an
    object, and always null when the request threw. *)
Theorem vendor_token_is_null_or_usable
  (JSON_parse : string -> option JsData) (attempt : Thrown + HttpResponse) :
  only_null_token (getVendorToken JSON_parse attempt) = false /\
  (getVendorToken JSON_parse attempt <> DNull ->
   exists r, attempt = inr r /\ status r = 200 /\
             truthy_data (data r) = true /\ is_object_type (data r) = true).
Proof.
  unfold getVendorToken.
  destruct attempt as [e|r].
  { split; [reflexivity | intros H; contradiction H; reflexivity]. }
  destruct (status r =? 404) eqn:E404.
  { split; [reflexivity | intros H; contradiction H; reflexivity]. }
  destruct (status r =? 200) eqn:E200; cbn [negb].
  2: { split; [reflexivity | intros H; contradiction H; reflexivity]. }
  apply Z.eqb_eq in E200.
  destruct (truthy_data (data r)) eqn:T; cbn [andb].
  - destruct (is_object_type (data r)) eqn:O; cbn [negb].
    2: { split; [reflexivity | intros H; contradiction H; reflexivity]. }
    split.
    + destruct (truthy_data (token_of (data r))).
      * destruct (token_of (data r)) as [| |b|n|s|fs|xs] eqn:Etok;
          try reflexivity;
          try (match goal with
               | |- only_null_token (if ?c then _ else _) = false =>
                   destruct c eqn:Ec; [reflexivity | exact Ec]
               end).
        destruct (JSON_parse s) as [[| |b|n|s'|fs|xs]|] eqn:Ep;
          try reflexivity;
          try (match goal with
               | |- only_null_token (if ?c then _ else _) = false =>
                   destruct c eqn:Ec; [reflexivity | exact Ec]
               end).
      * destruct (only_null_token (data r)) eqn:Eo; [reflexivity|].
        destruct (data r) as [| |b|n|s|fs|xs] eqn:Ed; try reflexivity;
          rewrite Eo; exact Eo.
    + intros _. exists r. auto.
  - split.
    + destruct (truthy_data (token_of (data r))) eqn:Tt; [|reflexivity].
      destruct (data r) as [| |[|]|[|p|p]|[|a s]|fs|xs]; discriminate.
    + intros H. exfalso. apply H.
      destruct (truthy_data (token_of (data r))) eqn:Tt; [|reflexivity].
      destruct (data r) as [| |[|]|[|p|p]|[|a s]|fs|xs]; discriminate.
Qed.

(** X25.  What was registered is what is read back: when the server answers
    the GET with status 200 and the body [registerVendorToken] posted for
    [apiKey], [getVendorToken] returns [apiKey], provided [JSON.parse] undoes
    [JSON.stringify] on it, its JSON text is not empty, and it is not an
    object whose only property is a null [token] (for which the result is
    null). *)
Theorem vendor_token_round_trip
  (JSON_parse : string -> option JsData) (JSON_stringify : JsData -> string)
  (apiKey : JsData) :
  JSON_parse (JSON_stringify apiKey) = Some apiKey ->
  JSON_stringify apiKey <> "" ->
  only_null_token apiKey = false ->
  getVendorToken JSON_parse
    (inr (mkResponse 200 (register_body JSON_stringify apiKey))) = apiKey.
Proof.
  intros Hparse Hne Hok.
  unfold getVendorToken, register_body. cbn.
  destruct (JSON_stringify apiKey) as [|a s] eqn:E; [contradiction Hne; reflexivity|].
  rewrite Hparse.
  destruct apiKey; try reflexivity; rewrite Hok; reflexivity.
Qed.

(** *** On the errors of the test suite *)

(** A refused connection: [getOrCreateSession] returns null and reports. *)
Lemma session_creation_refused :
  exists f,
    @getOrCreateSession_catch unit API_URL refused connectionState =
      (Returns None, fst (fail f connectionState), snd (fail f connectionState)) /\
    outage_report "Session creation" (API_URL ++ "/v1/sessions") f /\
    isOffline (fst (fail f connectionState)) = true.
Proof.
  exact (proj1 (session_creation_outage_or_throw unit API_URL refused
                  connectionState) eq_refl).
Defined.

(** Status 409: [getOrCreateMachine] returns the minimal machine and leaves
    the aggregator alone. *)
Lemma machine_registration_conflict :
  exists st,
    (st = 403 \/ st = 409) /\
    getOrCreateMachine_catch API_URL (LegacyEncryption tt) test_machine
      (axios_status 409) connectionState =
    (Returns (createMinimalMachine (LegacyEncryption tt) test_machine),
     connectionState, rejected_lines st).
Proof.
  exact (proj1 (proj2 (machine_registration_outage_rejection_or_rethrow
                         unit unit unit API_URL (LegacyEncryption tt)
                         test_machine (axios_status 409) connectionState))
               eq_refl).
Defined.

(** Offline after scenario C, three more failing calls print no warning. *)
Lemma failing_calls_while_offline :
  warnings
    (snd (failed_calls API_URL
            [SessionCall refused; MachineCall (axios_status 409);
             MachineCall (axios_status 503)]
            after_scenario_C)) = O /\
  isOffline
    (fst (failed_calls API_URL
            [SessionCall refused; MachineCall (axios_status 409);
             MachineCall (axios_status 503)]
            after_scenario_C)) = true.
Proof.
  exact (proj1 (proj2 (failing_calls_warn_at_most_once API_URL
                         [SessionCall refused; MachineCall (axios_status 409);
                          MachineCall (axios_status 503)]
                         after_scenario_C)) eq_refl).
Defined.

(** Status 409 from Axios: the session call throws, the machine call prints
    its rejection notice; neither reports to the aggregator. *)
Lemma bootstrap_calls_agree_on_409 :
  (exists fs fm,
     @getOrCreateSession_catch unit API_URL (axios_status 409) connectionState =
       (Returns None, fst (fail fs connectionState), snd (fail fs connectionState)) /\
     getOrCreateMachine_catch API_URL (LegacyEncryption tt) test_machine
       (axios_status 409) connectionState =
       (Returns (createMinimalMachine (LegacyEncryption tt) test_machine),
        fst (fail fm connectionState), snd (fail fm connectionState)) /\
     errorCode fs = errorCode fm /\ details fs = details fm) \/
  (@getOrCreateSession_catch unit API_URL (axios_status 409) connectionState =
     (Throws ("Failed to get or create session: " ++ message_of (axios_status 409)),
      connectionState, []) /\
   (getOrCreateMachine_catch API_URL (LegacyEncryption tt) test_machine
      (axios_status 409) connectionState =
      (Throws (axios_status 409), connectionState, []) \/
    exists st,
      (st = 403 \/ st = 409) /\
      getOrCreateMachine_catch API_URL (LegacyEncryption tt) test_machine
        (axios_status 409) connectionState =
        (Returns (createMinimalMachine (LegacyEncryption tt) test_machine),
         connectionState, rejected_lines st))).
Proof.
  exact (bootstrap_calls_agree_on_outages unit unit unit unit API_URL
           (LegacyEncryption tt) test_machine (axios_status 409) connectionState
           eq_refl eq_refl).
Defined.

(** The number 42, registered and read back. *)
Lemma vendor_token_round_trip_witness :
  getVendorToken parse_scalar
    (inr (mkResponse 200 (register_body stringify_scalar (DNumber 42)))) =
  DNumber 42.
Proof.
  apply (vendor_token_round_trip parse_scalar stringify_scalar (DNumber 42)).
  - vm_compute. reflexivity.
  - vm_compute. discriminate.
  - reflexivity.
Defined.

End ApiProofs.

(** * The control-plane HTTP configuration *)

Module ControlPlaneHttpProofs.

Import Aggregator.
Import ControlPlaneHttp.
Import AggregatorProofs.

Lemma map_set_again {V : Type} (k : string) (v : V) (m : list (string * V)) :
  map_set k v (map_set k v m) = map_set k v m.
Proof.
  induction m as [|[k0 v0] m IH]; simpl.
  - rewrite String.eqb_refl. reflexivity.
  - destruct (String.eqb k0 k) eqn:E; simpl.
    + rewrite String.eqb_refl. reflexivity.
    + rewrite E, IH. reflexivity.
Qed.

(** X26.  Every request configuration that goes through
    [withControlPlaneHttpConfig] has [proxy] set to [false], whatever the
    caller passed for it; every other option is passed on as given; and
    applying the function a second time changes nothing. *)
Theorem control_plane_config_disables_proxy (config : option AxiosRequestConfig) :
  lookup "proxy" (withControlPlaneHttpConfig config) = Some (Bool false) /\
  (forall key, key <> "proxy" ->
     lookup key (withControlPlaneHttpConfig config) =
     lookup key (match config with Some c => c | None => [] end)) /\
  withControlPlaneHttpConfig (Some (withControlPlaneHttpConfig config)) =
  withControlPlaneHttpConfig config.
Proof.
  unfold withControlPlaneHttpConfig. split; [|split].
  - apply lookup_map_set.
  - intros key Hne. apply AggregatorMore.lookup_map_set_other.
    apply String.eqb_neq. congruence.
  - apply map_set_again.
Qed.

End ControlPlaneHttpProofs.

(** * More of the engine on the scenarios of the test suite *)

(** Scenario A: one callback call, three health checks, three timers, two
    failures counted. *)
Lemma scenario_A_is_accounted_for :
  (count is_callback_call (state_after scenario_A_then_cancel)
   <= count is_health_call (state_after scenario_A_then_cancel))%nat /\
  (count is_health_call (state_after scenario_A_then_cancel)
   <= count is_schedule (state_after scenario_A_then_cancel))%nat /\
  Z.of_nat (count is_schedule (state_after scenario_A_then_cancel))
  <= failureCount (state_after scenario_A_then_cancel) + 1 /\
  Z.of_nat (count is_health_call (state_after scenario_A_then_cancel))
  <= failureCount (state_after scenario_A_then_cancel) + 1.
Proof.
  apply (attempts_are_accounted_for (TSession := string)
           linear_backoff test_config scenario_A_then_cancel
           (state_after scenario_A_then_cancel)).
  by_computation.
Defined.

(** A notifier that throws is counted as a failure, and the timer it
    leaves behind fires without effect. *)
Lemma notifier_throw_is_counted :
  (failureCount (state_after notifier_throws_then_timer) =
     Z.of_nat (List.length (filter is_retryable_failure notifier_throws_then_timer)) /\
   randomDraws (state_after notifier_throws_then_timer) =
     List.length (filter is_retryable_failure notifier_throws_then_timer)) /\
  failureCount (state_after notifier_throws_then_timer) = 1 /\
  isReconnected (state_after notifier_throws_then_timer) = true.
Proof.
  split; [|split; by_computation].
  apply (failure_count_counts_retryable_errors (TSession := string)
           linear_backoff test_config notifier_throws_then_timer
           (state_after notifier_throws_then_timer)).
  by_computation.
Defined.

(** While [onReconnected] is in flight, whatever else happens, there is no
    session yet. *)
Lemma no_session_while_callback_in_flight :
  getSession (state_after cancelled_in_flight) =
    getSession (state_after callback_in_flight) /\
  isReconnected (state_after cancelled_in_flight) =
    isReconnected (state_after callback_in_flight) /\
  getSession (state_after cancelled_in_flight) = JsNull /\
  isReconnected (state_after cancelled_in_flight) = false /\
  sent MSG_RECONNECTED (state_after cancelled_in_flight) = O.
Proof.
  destruct (results_change_only_when_callback_resolves (TSession := string)
              linear_backoff test_config
              callback_in_flight [Tick 50; Cancel]
              (state_after callback_in_flight)
              (state_after cancelled_in_flight)
              ltac:(by_computation) ltac:(by_computation) eq_refl)
    as (H1 & H2 & H3).
  exact (conj H1 (conj H2 (H3 eq_refl))).
Defined.

(** Scenario B: after the auth-failure message the engine is at rest and
    not reconnected. *)
Lemma scenario_B_is_at_rest :
  timers (state_after scenario_B) = [] /\
  awaitingHealth (state_after scenario_B) = O /\
  awaitingCallback (state_after scenario_B) = O /\
  isReconnected (state_after scenario_B) = false.
Proof.
  destruct (proj2 (success_is_reported_iff_reconnected (TSession := string)
                     linear_backoff test_config scenario_B
                     (state_after scenario_B) ltac:(by_computation))
                  ltac:(by_computation))
    as (H1 & H2 & H3 & H4).
  exact (conj H1 (conj H2 (conj H3 (H4 ltac:(by_computation))))).
Defined.

(** Scenario A, cancelled after its success: nothing changes any more. *)
Lemma cancel_after_success_changes_nothing :
  cancelled (state_after scenario_A_cancel_wait) = true /\
  isReconnected (state_after scenario_A_cancel_wait) =
    isReconnected (state_after scenario_A) /\
  sent MSG_RECONNECTED (state_after scenario_A_cancel_wait) =
    sent MSG_RECONNECTED (state_after scenario_A) /\
  getSession (state_after scenario_A_cancel_wait) =
    getSession (state_after scenario_A) /\
  notifications (state_after scenario_A_cancel_wait) =
    notifications (state_after scenario_A).
Proof.
  destruct (cancel_freezes_the_outcome (TSession := string)
              linear_backoff test_config
              scenario_A [Tick 10]
              (state_after scenario_A)
              (state_after scenario_A_cancel_wait)
              ltac:(by_computation) ltac:(by_computation))
    as (H1 & H2 & H3 & H4).
  destruct (H4 ltac:(by_computation)) as [H5 H6].
  exact (conj H1 (conj H2 (conj H3 (conj H5 H6)))).
Defined.

(** The default health check answered 401: it resolves, and nothing is
    notified. *)
Lemma health_check_answered_401_resolves :
  notifications (production_state first_check_answered_401) =
    notifications (production_state first_check_in_flight) /\
  @defaultHealthCheck_settles string (Response 401) = HealthResolve.
Proof.
  destruct (default_health_check_never_fails_auth (TSession := string)
              linear_backoff production_config
              (Response 401)
              (production_state first_check_in_flight)
              (production_state first_check_answered_401)
              ltac:(by_computation))
    as (H1 & _ & H3).
  exact (conj H1 (H3 401 eq_refl eq_refl)).
Defined.
